(** * Benchmark result normalisation and aggregation

    A shallow embedding of the data-visualization scripts of the
    compression-comparison repository (analyze_compression.py,
    visualize.py, visualize_json.py) and the properties of their
    normalisation, derivation and best-value code.

    Python floats are IEEE binary64 numbers: they are modelled by Rocq's
    primitive floats, so every arithmetic step rounds as it does in
    CPython.  Python dictionaries keep insertion order: they are modelled
    as association lists.  Exceptions are modelled by a result type. *)

From Stdlib Require Import ZArith QArith Floats String Ascii List Lia Bool.
From Stdlib Require Import Sorting.Sorted Sorting.Permutation.
From stdpp Require Import base list sorting.
Import ListNotations.

Set Warnings "-inexact-float".
Local Open Scope string_scope.
Local Open Scope list_scope.

(** ** Python runtime fragments *)

Module Py.

(** The exception classes the modelled code can raise. *)
Inductive exn : Type :=
| ValueError
| IndexError
| KeyError
| StopIteration
| ZeroDivisionError.

(** The outcome of running a piece of Python: a value, or a raised
    exception that aborts the enclosing function. *)
Inductive result (A : Type) : Type :=
| Ok (a : A)
| Raise (e : exn).
Arguments Ok {A} a.
Arguments Raise {A} e.

Definition bind {A B} (m : result A) (k : A -> result B) : result B :=
  match m with
  | Ok a => k a
  | Raise e => Raise e
  end.

Notation "'let*' x ':=' m 'in' k" := (bind m (fun x => k))
  (at level 10, x pattern, m at level 100, k at level 200).

(** A builtin that raises ValueError where the option is empty. *)
Definition or_raise {A} (e : exn) (o : option A) : result A :=
  match o with
  | Some a => Ok a
  | None => Raise e
  end.

(** [for x in l: s = f(s, x)] with exceptions. *)
Fixpoint foldM {A S} (f : S -> A -> result S) (l : list A) (s : S)
  : result S :=
  match l with
  | [] => Ok s
  | x :: l' => bind (f s x) (foldM f l')
  end.

(** [[f(x) for x in l]] with exceptions. *)
Fixpoint forM {A B} (f : A -> result B) (l : list A) : result (list B) :=
  match l with
  | [] => Ok []
  | x :: l' => let* y := f x in let* ys := forM f l' in Ok (y :: ys)
  end.

(** *** Dictionaries: insertion-ordered, keyed by strings *)

Definition dict (V : Type) : Type := list (string * V).

Fixpoint dict_get {V} (k : string) (d : dict V) : option V :=
  match d with
  | [] => None
  | (k', v) :: d' => if String.eqb k k' then Some v else dict_get k d'
  end.

(** [k in d] *)
Definition dict_mem {V} (k : string) (d : dict V) : bool :=
  match dict_get k d with
  | Some _ => true
  | None => false
  end.

(** [d[k] = v]: an existing key keeps its position, a new key goes
    last. *)
Fixpoint dict_set {V} (k : string) (v : V) (d : dict V) : dict V :=
  match d with
  | [] => [(k, v)]
  | (k', v') :: d' =>
      if String.eqb k k' then (k', v) :: d' else (k', v') :: dict_set k v d'
  end.

(** [d[k]], raising KeyError on a missing key. *)
Definition dict_item {V} (k : string) (d : dict V) : result V :=
  or_raise KeyError (dict_get k d).

Definition keys {V} (d : dict V) : list string := map fst d.
Definition values {V} (d : dict V) : list V := map snd d.

(** *** Strings *)

(** [s.split(sep)] for a one-character separator: never empty. *)
Fixpoint str_split (sep : ascii) (s : string) : list string :=
  match s with
  | EmptyString => [EmptyString]
  | String c s' =>
      if Ascii.eqb c sep then EmptyString :: str_split sep s'
      else match str_split sep s' with
           | [] => [String c EmptyString]
           | p :: ps => String c p :: ps
           end
  end.

(** *** Numbers *)

(** [a / b] on floats: a zero divisor raises. *)
Definition truediv (a b : float) : result float :=
  if PrimFloat.eqb b 0%float then Raise ZeroDivisionError
  else Ok (PrimFloat.div a b).

(** [max(l)] on floats: the first item, replaced by each later item
    that compares strictly greater. *)
Definition max_from (cur : float) (l : list float) : float :=
  fold_left (fun cur item => if PrimFloat.ltb cur item then item else cur)
            l cur.

Definition pymax (l : list float) : result float :=
  match l with
  | [] => Raise ValueError
  | x :: l' => Ok (max_from x l')
  end.

(** [min(l)] on floats: the first item, replaced by each later item
    that compares strictly less; an empty sequence raises ValueError. *)
Definition min_from (cur : float) (l : list float) : float :=
  fold_left (fun cur item => if PrimFloat.ltb item cur then item else cur)
            l cur.

Definition pymin (l : list float) : result float :=
  match l with
  | [] => Raise ValueError
  | x :: l' => Ok (min_from x l')
  end.

(** [min(l)] on ints. *)
Definition zmin_from (cur : Z) (l : list Z) : Z :=
  fold_left (fun cur item => if (item <? cur)%Z then item else cur) l cur.

Definition zmin (l : list Z) : result Z :=
  match l with
  | [] => Raise ValueError
  | x :: l' => Ok (zmin_from x l')
  end.

(** [max(a, b)]: [b] only when it is strictly greater than [a]. *)
Definition pymax2 (a b : float) : float :=
  if PrimFloat.ltb a b then b else a.

(** [min(a, b)]: [b] only when it is strictly less than [a]. *)
Definition pymin2 (a b : float) : float :=
  if PrimFloat.ltb b a then b else a.

(** *** [int(s)] and [float(s)] on plain decimal literals

    The scripts call the builtins [int] and [float] on strings.  The
    general results below take the two builtins as parameters
    ([string -> option _], [None] standing for ValueError).  The
    definitions here give their value on plain decimal literals: an
    optional sign, digits, and for [float] an optional fractional
    part.  They are used to evaluate the code on concrete documents. *)

Definition digit_of (c : ascii) : option Z :=
  let n := Z.of_nat (nat_of_ascii c) in
  if ((48 <=? n) && (n <=? 57))%Z then Some (n - 48)%Z else None.

(** Reads a run of digits: the accumulated number, how many digits
    were read, and the rest of the string. *)
Fixpoint digits (s : string) (acc : Z) (n : nat) : Z * nat * string :=
  match s with
  | EmptyString => (acc, n, EmptyString)
  | String c s' =>
      match digit_of c with
      | Some d => digits s' (10 * acc + d)%Z (S n)
      | None => (acc, n, s)
      end
  end.

Definition sign_of (s : string) : bool * string :=
  match s with
  | String "-" s' => (true, s')
  | String "+" s' => (false, s')
  | _ => (false, s)
  end.

Definition int_dec (s : string) : option Z :=
  let '(neg, s1) := sign_of s in
  match digits s1 0%Z 0 with
  | (v, S _, EmptyString) => Some (if neg then (- v)%Z else v)
  | _ => None
  end.

(** The binary64 number nearest to [m / 10^k] (ties to even), with the
    given sign. *)
Definition float_of_decimal (neg : bool) (m : Z) (k : nat) : float :=
  match m with
  | Zpos p =>
      SF2Prim (SFdiv prec emax (S754_finite neg p 0)
                     (S754_finite false (Z.to_pos (10 ^ Z.of_nat k)) 0))
  | _ => SF2Prim (S754_zero neg)
  end.

Definition float_dec (s : string) : option float :=
  let '(neg, s1) := sign_of s in
  let '(ip, ni, s2) := digits s1 0%Z 0 in
  match s2 with
  | EmptyString =>
      match ni with
      | O => None
      | S _ => Some (float_of_decimal neg ip 0)
      end
  | String "." s3 =>
      let '(m, nf, s4) := digits s3 ip 0 in
      match s4, (ni + nf)%nat with
      | EmptyString, S _ => Some (float_of_decimal neg m nf)
      | _, _ => None
      end
  | _ => None
  end.

End Py.

Import Py.

(** ** The input document

    A JSON document: a sequence of objects, each mapping a file (test)
    name to a mapping from algorithm name to a mapping from level
    identifier to the measurements of one run.  Sizes and peak memory
    are integers, the ratio is a number, the percentage is a number
    written as a string, and [real] is a duration string or null. *)

Record CompressionMetrics : Type := {
  originalSize : Z;
  compressedSize : Z;
  compressionRatio : float;
  compressedPercentage : string;
  real : option string;
  max : Z
}.

Record DecompressionMetrics : Type := {
  decomp_real : option string;
  decomp_max : Z
}.

Record LevelMetrics : Type := {
  compression : CompressionMetrics;
  decompression : DecompressionMetrics
}.

Definition Levels : Type := dict LevelMetrics.
Definition Algorithms : Type := dict Levels.
Definition FileData : Type := dict Algorithms.
Definition JsonData : Type := list FileData.

(** A compression level after conversion: [int(level)] gives a Python
    int, [float(level)] a float. *)
Inductive level_key : Type :=
| LInt (z : Z)
| LFloat (f : float).

(** ** numpy.argsort

    The scripts order every series with [np.argsort], called with the
    default [kind] (quicksort, which numpy documents as not stable).
    numpy is not part of the repository: [argsort] is a parameter of the
    embedding.  What the embedding takes of it is below: [np.argsort]
    first makes an array of the list ([asarray]), and returns a
    permutation of the positions that picks the items of that array in
    ascending order. *)

Module Numpy.

(** The number a key stands for. *)
Inductive num : Type :=
| NegInf
| Fin (q : Q)
| PosInf
| NaN.

Definition num_of_float (f : float) : num :=
  match Prim2SF f with
  | S754_zero _ => Fin 0
  | S754_infinity s => if s then NegInf else PosInf
  | S754_nan => NaN
  | S754_finite s m e =>
      let v := (inject_Z (Z.pos m) * Qpower 2 e)%Q in
      Fin (if s then (- v)%Q else v)
  end.

Definition key_num (k : level_key) : num :=
  match k with
  | LInt z => Fin (inject_Z z)
  | LFloat f => num_of_float f
  end.

Definition num_leb (a b : num) : bool :=
  match a, b with
  | _, NaN => true
  | NaN, _ => false
  | NegInf, _ => true
  | _, NegInf => false
  | _, PosInf => true
  | PosInf, _ => false
  | Fin p, Fin q => Qle_bool p q
  end.

(** The order of the keys by the numbers they stand for, exactly. *)
Definition key_leb (a b : level_key) : bool :=
  num_leb (key_num a) (key_num b).


(** The order of binary64 numbers in a sorted array: ascending, NaN
    last. *)
Definition float_leb (a b : float) : bool :=
  num_leb (num_of_float a) (num_of_float b).

Definition float_le (a b : float) : Prop := float_leb a b = true.

(** [[l[i] for i in indices]]: an index out of range raises. *)
Definition reindex {A} (l : list A) (indices : list nat) : result (list A) :=
  forM (fun i => or_raise IndexError (l !! i)) indices.

(** *** The array of a list of levels

    A list of Python ints that all fit 64 bits becomes an int64 array;
    a list of such ints and of floats, with one float at least, becomes
    a float64 array, every int being converted to the nearest binary64
    number (ties to even).  What numpy makes of a list that holds an int
    outside 64 bits (uint64, float64 or an array of objects, depending
    on the other items) is left unspecified. *)
Definition int64 (z : Z) : bool :=
  ((- 2 ^ 63 <=? z) && (z <? 2 ^ 63))%Z.

Definition float_of_int (z : Z) : float :=
  SF2Prim (binary_normalize prec emax z 0 false).

Inductive ndarray : Type :=
| Int64 (a : list Z)
| Float64 (a : list float)
| Unspecified (a : list level_key).

Definition is_int (k : level_key) : bool :=
  match k with
  | LInt _ => true
  | LFloat _ => false
  end.

Definition fits (k : level_key) : bool :=
  match k with
  | LInt z => int64 z
  | LFloat _ => true
  end.

Definition int_value (k : level_key) : Z :=
  match k with
  | LInt z => z
  | LFloat _ => 0%Z
  end.

Definition float_value (k : level_key) : float :=
  match k with
  | LInt z => float_of_int z
  | LFloat f => f
  end.

Definition asarray (l : list level_key) : ndarray :=
  if forallb fits l then
    if forallb is_int l then Int64 (map int_value l)
    else Float64 (map float_value l)
  else Unspecified l.

(** *** What the embedding takes of [np.argsort] *)

(** The indices are a permutation of the positions. *)
Definition permutes (argsort : list level_key -> list nat) : Prop :=
  forall l : list level_key, Permutation (argsort l) (seq 0 (length l)).

(** The indices pick the items of the array in ascending order. *)
Definition sorts (argsort : list level_key -> list nat) : Prop :=
  forall l : list level_key,
    match asarray l with
    | Int64 zs =>
        forall ks, reindex zs (argsort l) = Ok ks -> Sorted Z.le ks
    | Float64 fs =>
        forall ks, reindex fs (argsort l) = Ok ks -> Sorted float_le ks
    | Unspecified _ => True
    end.



(** *** A sorting procedure that meets the contract

    The positions of an array in ascending order of their items, by
    merging; items that compare equal keep the order of their
    positions.  It serves to evaluate the scripts on sample
    documents. *)
Definition entry_leb {A} (leb : A -> A -> bool) (x y : nat * A) : bool :=
  if leb (snd x) (snd y)
  then if leb (snd y) (snd x) then Nat.leb (fst x) (fst y) else true
  else false.

Definition entry_le {A} (leb : A -> A -> bool) (x y : nat * A) : Prop :=
  entry_leb leb x y = true.

#[global] Instance entry_le_dec {A} (leb : A -> A -> bool)
  : RelDecision (entry_le leb).
Proof. intros x y. unfold entry_le. apply _. Defined.

Definition argsort_by {A} (leb : A -> A -> bool) (a : list A) : list nat :=
  map fst (merge_sort (entry_le leb) (zip (seq 0 (length a)) a)).

Definition argsort_stable (l : list level_key) : list nat :=
  match asarray l with
  | Int64 zs => argsort_by Z.leb zs
  | Float64 fs => argsort_by float_leb fs
  | Unspecified ks => argsort_by key_leb ks
  end.

End Numpy.

Import Numpy.

(** ** The series of one (file, algorithm) pair

    analyze_compression.py and visualize.py keep one dictionary of
    parallel lists per (file, algorithm); the lists are listed here in the
    order of the dictionary's keys. *)

Record Series : Type := {
  compression_levels : list level_key;
  compression_ratio : list float;
  compressed_percentage : list float;
  compression_time : list float;
  decompression_time : list float;
  original_size : option Z;
  compressed_size : list Z;
  memory_usage : list Z
}.

Definition new_series : Series := {|
  compression_levels := [];
  compression_ratio := [];
  compressed_percentage := [];
  compression_time := [];
  decompression_time := [];
  original_size := None;
  compressed_size := [];
  memory_usage := []
|}.

Definition Results : Type := dict (dict Series).

(** [results[filename][algorithm]] when both keys are present. *)
Definition series_at {S} (filename algorithm : string) (results : dict (dict S))
  : option S :=
  match dict_get filename results with
  | Some algorithms => dict_get algorithm algorithms
  | None => None
  end.

(** ** parse_time (the same function in every script) *)

Section ParseTime.

(** The builtin [float] on strings. *)
Variable py_float : string -> option float.

Definition to_float (s : string) : result float :=
  or_raise ValueError (py_float s).

Definition parse_time (time_str : option string) : result float :=
  match time_str with
  | None => Ok 0%float
  | Some EmptyString => Ok 0%float
  | Some s =>
      let parts := str_split ":" s in
      match parts with
      | [p0; p1] =>
          let* minutes := to_float p0 in
          let* seconds := to_float p1 in
          Ok (minutes * 60 + seconds)%float
      | [p0; p1; p2] =>
          let* hours := to_float p0 in
          let* minutes := to_float p1 in
          let* seconds := to_float p2 in
          Ok (hours * 3600 + minutes * 60 + seconds)%float
      | _ => Ok 0%float
      end
  end.

(** The reference definition of the duration parser, as the
    specification words it: one part is seconds, two parts are
    minutes and seconds, three parts hours, minutes and seconds, and
    the 0.0 fallback is for no part or four and more. *)
Definition part (parts : list string) (i : nat) : result float :=
  to_float (nth i parts EmptyString).

Definition parse_time_reference (time_str : option string) : result float :=
  match time_str with
  | None => Ok 0%float
  | Some EmptyString => Ok 0%float
  | Some s =>
      let parts := str_split ":" s in
      match length parts with
      | 1 =>
          let* SS := part parts 0 in
          Ok SS
      | 2 =>
          let* MM := part parts 0 in
          let* SS := part parts 1 in
          Ok (60 * MM + SS)%float
      | 3 =>
          let* HH := part parts 0 in
          let* MM := part parts 1 in
          let* SS := part parts 2 in
          Ok (3600 * HH + 60 * MM + SS)%float
      | _ => Ok 0%float
      end
  end.

(** The same reference with the one change the code forces: a single
    part is not a duration, it takes the 0.0 fallback like four parts
    and more. *)
Definition parse_time_amended (time_str : option string) : result float :=
  match time_str with
  | None => Ok 0%float
  | Some EmptyString => Ok 0%float
  | Some s =>
      let parts := str_split ":" s in
      match length parts with
      | 2 =>
          let* MM := part parts 0 in
          let* SS := part parts 1 in
          Ok (60 * MM + SS)%float
      | 3 =>
          let* HH := part parts 0 in
          let* MM := part parts 1 in
          let* SS := part parts 2 in
          Ok (3600 * HH + 60 * MM + SS)%float
      | _ => Ok 0%float
      end
  end.

End ParseTime.

(** ** analyze_compression.py *)

Module AnalyzeCompression.
Section Script.

Variable py_int : string -> option Z.
Variable py_float : string -> option float.
Variable argsort : list level_key -> list nat.

(** Lines 72-77: [int(level)], and [float(level)] when that raises
    ValueError; a ValueError of [float] is not caught. *)
Definition level_int (level : string) : result level_key :=
  match py_int level with
  | Some z => Ok (LInt z)
  | None =>
      match py_float level with
      | Some f => Ok (LFloat f)
      | None => Raise ValueError
      end
  end.

(** Lines 68-85: the body of the loop over the levels.  The conversions
    run in the order of the source; the seven appends are gathered in
    the record built last, since an exception discards [results]
    whole. *)
Definition add_level (s : Series) (item : string * LevelMetrics)
  : result Series :=
  let '(level, metrics) := item in
  let comp_data := compression metrics in
  let decomp_data := decompression metrics in
  let* level_int := level_int level in
  let* percentage := to_float py_float (compressedPercentage comp_data) in
  let* ctime := parse_time py_float (real comp_data) in
  let* dtime := parse_time py_float (decomp_real decomp_data) in
  Ok {| compression_levels := compression_levels s ++ [level_int];
        compression_ratio := compression_ratio s ++ [compressionRatio comp_data];
        compressed_percentage := compressed_percentage s ++ [percentage];
        compression_time := compression_time s ++ [ctime];
        decompression_time := decompression_time s ++ [dtime];
        original_size := original_size s;
        compressed_size := compressed_size s ++ [compressedSize comp_data];
        memory_usage := memory_usage s ++ [max comp_data] |}.

Definition set_original_size (s : Series) (size : Z) : Series :=
  {| compression_levels := compression_levels s;
     compression_ratio := compression_ratio s;
     compressed_percentage := compressed_percentage s;
     compression_time := compression_time s;
     decompression_time := decompression_time s;
     original_size := Some size;
     compressed_size := compressed_size s;
     memory_usage := memory_usage s |}.

(** Lines 62-65: the original size is read from the first level of
    [levels], and only while none is recorded. *)
Definition record_original_size (s : Series) (levels : Levels)
  : result Series :=
  match original_size s with
  | Some _ => Ok s
  | None =>
      match keys levels with
      | [] => Raise IndexError
      | first_level :: _ =>
          let* metrics := dict_item first_level levels in
          Ok (set_original_size s (originalSize (compression metrics)))
      end
  end.

(** Lines 49-85: the body of the loop over the algorithms of a file;
    [file_results] is [results[filename]]. *)
Definition add_algorithm (file_results : dict Series)
           (item : string * Levels) : result (dict Series) :=
  let '(algorithm, levels) := item in
  let file_results :=
    if dict_mem algorithm file_results then file_results
    else dict_set algorithm new_series file_results in
  let* s := dict_item algorithm file_results in
  let* s := record_original_size s levels in
  let* s := foldM add_level levels s in
  Ok (dict_set algorithm s file_results).

(** Lines 45-85: the body of the loop over the items of one object of
    the document. *)
Definition add_file (results : Results) (item : string * Algorithms)
  : result Results :=
  let '(filename, algorithms) := item in
  let results :=
    if dict_mem filename results then results
    else dict_set filename [] results in
  let* file_results := dict_item filename results in
  let* file_results := foldM add_algorithm algorithms file_results in
  Ok (dict_set filename file_results results).

(** Lines 42-85: the population of [results]. *)
Definition collect (json_data : JsonData) : result Results :=
  foldM (fun results file_data => foldM add_file file_data results)
        json_data [].

(** Lines 91-96: every list of the series is rebuilt from the indices
    of [np.argsort]; [original_size] is skipped. *)
Definition sort_series (s : Series) : result Series :=
  let indices := argsort (compression_levels s) in
  let* levels := reindex (compression_levels s) indices in
  let* ratio := reindex (compression_ratio s) indices in
  let* percentage := reindex (compressed_percentage s) indices in
  let* ctime := reindex (compression_time s) indices in
  let* dtime := reindex (decompression_time s) indices in
  let* size := reindex (compressed_size s) indices in
  let* memory := reindex (memory_usage s) indices in
  Ok {| compression_levels := levels;
        compression_ratio := ratio;
        compressed_percentage := percentage;
        compression_time := ctime;
        decompression_time := dtime;
        original_size := original_size s;
        compressed_size := size;
        memory_usage := memory |}.

(** [for k in d: d[k] = f(d[k])] *)
Definition for_values {V W} (f : V -> result W) (d : dict V)
  : result (dict W) :=
  forM (fun '(k, v) => let* w := f v in Ok (k, w)) d.

(** Lines 87-96. *)
Definition sort_results (results : Results) : result Results :=
  for_values (for_values sort_series) results.

Definition extract_data (json_data : JsonData) : result Results :=
  let* results := collect json_data in
  sort_results results.

(** *** plot_compression_efficiency, lines 169-171 *)
Definition efficiency (metrics : Series) : result (list float) :=
  forM (fun '(ratio, time) => truediv ratio (time + 0.001)%float)
       (zip (compression_ratio metrics) (compression_time metrics)).

(** *** generate_summary_table *)

(** Lines 301-302: the minimum over the algorithms whose own minimum
    is positive of that minimum; [field] is ['compression_time'] or
    ['decompression_time']. *)
Fixpoint positive_minima (field : Series -> list float)
         (algorithms : list Series) : result (list float) :=
  match algorithms with
  | [] => Ok []
  | alg :: rest =>
      let* m := pymin (field alg) in
      if PrimFloat.ltb 0 m then
        let* m' := pymin (field alg) in
        let* ms := positive_minima field rest in
        Ok (m' :: ms)
      else positive_minima field rest
  end.

Definition best_time (field : Series -> list float)
           (algorithms : dict Series) : result float :=
  let* ms := positive_minima field (values algorithms) in
  pymin ms.

(** Lines 300-303: the four best values of a file, in the order the
    script computes them. *)
Record BestValues : Type := {
  best_ratio : float;
  best_comp_time : float;
  best_decomp_time : float;
  best_memory : Z
}.

Definition best_values (algorithms : dict Series) : result BestValues :=
  let* ratio_maxima :=
    forM (fun alg => pymax (compression_ratio alg)) (values algorithms) in
  let* best_ratio := pymax ratio_maxima in
  let* best_comp_time := best_time compression_time algorithms in
  let* best_decomp_time := best_time decompression_time algorithms in
  let* memory_minima :=
    forM (fun alg => zmin (memory_usage alg)) (values algorithms) in
  let* best_memory := zmin memory_minima in
  Ok {| best_ratio := best_ratio;
        best_comp_time := best_comp_time;
        best_decomp_time := best_decomp_time;
        best_memory := best_memory |}.

(** Lines 373-386: the rows of the detailed table, one per level; the
    fifth column is [100 - float(compressed_percentage[i])], and
    [float] of a float is that float. *)
Record DetailRow : Type := {
  row_level : level_key;
  row_ratio : float;
  row_size : Z;
  row_percent_saved : float;
  row_ctime : float;
  row_dtime : float;
  row_memory : Z
}.

Definition at_index {A} (l : list A) (i : nat) : result A :=
  or_raise IndexError (l !! i).

Definition detail_row (metrics : Series) (i : nat) (level : level_key)
  : result DetailRow :=
  let* ratio := at_index (compression_ratio metrics) i in
  let* size := at_index (compressed_size metrics) i in
  let* percentage := at_index (compressed_percentage metrics) i in
  let* ctime := at_index (compression_time metrics) i in
  let* dtime := at_index (decompression_time metrics) i in
  let* memory := at_index (memory_usage metrics) i in
  Ok {| row_level := level;
        row_ratio := ratio;
        row_size := size;
        row_percent_saved := (100 - percentage)%float;
        row_ctime := ctime;
        row_dtime := dtime;
        row_memory := memory |}.

Definition detail_rows (metrics : Series) : result (list DetailRow) :=
  forM (fun '(i, level) => detail_row metrics i level)
       (zip (seq 0 (length (compression_levels metrics)))
            (compression_levels metrics)).

End Script.
End AnalyzeCompression.

(** ** visualize.py *)

Module Visualize.
Section Script.

Variable py_int : string -> option Z.
Variable py_float : string -> option float.
Variable argsort : list level_key -> list nat.
(** [np.argmax] on a list that is not empty; on an empty list numpy
    raises ValueError before any position is returned. *)
Variable argmax : list float -> nat.

(** Line 72: [int(level)], nothing else. *)
Definition level_int (level : string) : result level_key :=
  match py_int level with
  | Some z => Ok (LInt z)
  | None => Raise ValueError
  end.

(** Lines 71-82. *)
Definition add_level (s : Series) (item : string * LevelMetrics)
  : result Series :=
  let '(level, metrics) := item in
  let* level_int := level_int level in
  let comp_data := compression metrics in
  let decomp_data := decompression metrics in
  let* percentage := to_float py_float (compressedPercentage comp_data) in
  let* ctime := parse_time py_float (real comp_data) in
  let* dtime := parse_time py_float (decomp_real decomp_data) in
  Ok {| compression_levels := compression_levels s ++ [level_int];
        compression_ratio := compression_ratio s ++ [compressionRatio comp_data];
        compressed_percentage := compressed_percentage s ++ [percentage];
        compression_time := compression_time s ++ [ctime];
        decompression_time := decompression_time s ++ [dtime];
        original_size := original_size s;
        compressed_size := compressed_size s ++ [compressedSize comp_data];
        memory_usage := memory_usage s ++ [max comp_data] |}.

(** Lines 52-82. *)
Definition add_algorithm (file_results : dict Series)
           (item : string * Levels) : result (dict Series) :=
  let '(algorithm, levels) := item in
  let file_results :=
    if dict_mem algorithm file_results then file_results
    else dict_set algorithm new_series file_results in
  let* s := dict_item algorithm file_results in
  let* s := AnalyzeCompression.record_original_size s levels in
  let* s := foldM add_level levels s in
  Ok (dict_set algorithm s file_results).

(** Lines 48-82. *)
Definition add_file (results : Results) (item : string * Algorithms)
  : result Results :=
  let '(filename, algorithms) := item in
  let results :=
    if dict_mem filename results then results
    else dict_set filename [] results in
  let* file_results := dict_item filename results in
  let* file_results := foldM add_algorithm algorithms file_results in
  Ok (dict_set filename file_results results).

(** Lines 43-84: the series come out in encounter order. *)
Definition extract_data (json_data : JsonData) : result Results :=
  foldM (fun results file_data => foldM add_file file_data results)
        json_data [].

(** Lines 86-98: the seven lists named in the loop are rebuilt from
    the indices of [np.argsort]. *)
Definition sort_series (s : Series) : result Series :=
  let indices := argsort (compression_levels s) in
  let* levels := reindex (compression_levels s) indices in
  let* ratio := reindex (compression_ratio s) indices in
  let* percentage := reindex (compressed_percentage s) indices in
  let* ctime := reindex (compression_time s) indices in
  let* dtime := reindex (decompression_time s) indices in
  let* size := reindex (compressed_size s) indices in
  let* memory := reindex (memory_usage s) indices in
  Ok {| compression_levels := levels;
        compression_ratio := ratio;
        compressed_percentage := percentage;
        compression_time := ctime;
        decompression_time := dtime;
        original_size := original_size s;
        compressed_size := size;
        memory_usage := memory |}.

Definition sort_data_by_level (data : Results) : result Results :=
  AnalyzeCompression.for_values
    (AnalyzeCompression.for_values sort_series) data.

(** Lines 453-456 of [main]. *)
Definition normalize (json_data : JsonData) : result Results :=
  let* results := extract_data json_data in
  sort_data_by_level results.

(** Lines 311-315. *)
Definition efficiency (data : Series) : result (list float) :=
  forM (fun '(ratio, time) => truediv ratio (time + 0.001)%float)
       (zip (compression_ratio data) (compression_time data)).

(** Lines 395-403 of create_overview_table: the row of one algorithm,
    read at the position of its best ratio. *)
Record OverviewRow : Type := {
  level : level_key;
  ratio : float;
  perc : float;
  c_time : float;
  d_time : float;
  memory : Z
}.

Definition overview_row (data : Series) : result OverviewRow :=
  let* idx :=
    match compression_ratio data with
    | [] => Raise ValueError
    | _ :: _ => Ok (argmax (compression_ratio data))
    end in
  let* level := AnalyzeCompression.at_index (compression_levels data) idx in
  let* ratio := AnalyzeCompression.at_index (compression_ratio data) idx in
  let* percentage :=
    AnalyzeCompression.at_index (compressed_percentage data) idx in
  let perc := (100 - percentage)%float in
  let* c_time := AnalyzeCompression.at_index (compression_time data) idx in
  let* d_time := AnalyzeCompression.at_index (decompression_time data) idx in
  let* memory := AnalyzeCompression.at_index (memory_usage data) idx in
  Ok {| level := level; ratio := ratio; perc := perc;
        c_time := c_time; d_time := d_time; memory := memory |}.

End Script.
End Visualize.

(** ** visualize_json.py *)

Module VisualizeJson.

(** The dictionary of one (test, algorithm) pair, lines 49-57. *)
Record JSeries : Type := {
  levels : list Z;
  ratios : list float;
  compressed_sizes : list Z;
  compression_times : list float;
  decompression_times : list float;
  memory_usage : list Z;
  original_size : option Z
}.

Section Script.

Variable py_int : string -> option Z.
Variable py_float : string -> option float.
Variable argsort : list level_key -> list nat.

(** Lines 64-70: the body of the loop over the levels; the level is
    [int(level)]. *)
Definition add_level (s : JSeries) (item : string * LevelMetrics)
  : result JSeries :=
  let '(level, data) := item in
  let* level_int := or_raise ValueError (py_int level) in
  let* ctime := parse_time py_float (real (compression data)) in
  let* dtime := parse_time py_float (decomp_real (decompression data)) in
  Ok {| levels := levels s ++ [level_int];
        ratios := ratios s ++ [compressionRatio (compression data)];
        compressed_sizes :=
          compressed_sizes s ++ [compressedSize (compression data)];
        compression_times := compression_times s ++ [ctime];
        decompression_times := decompression_times s ++ [dtime];
        memory_usage := memory_usage s ++ [max (compression data)];
        original_size := original_size s |}.

(** Lines 73-76: the six lists are rebuilt from the indices of
    [np.argsort] as soon as the series is complete. *)
Definition sort_series (s : JSeries) : result JSeries :=
  let indices := argsort (map LInt (levels s)) in
  let* lv := reindex (levels s) indices in
  let* rt := reindex (ratios s) indices in
  let* sz := reindex (compressed_sizes s) indices in
  let* ct := reindex (compression_times s) indices in
  let* dt := reindex (decompression_times s) indices in
  let* mem := reindex (memory_usage s) indices in
  Ok {| levels := lv; ratios := rt; compressed_sizes := sz;
        compression_times := ct; decompression_times := dt;
        memory_usage := mem; original_size := original_size s |}.

(** Lines 48-76: the dictionary of the pair is created anew, its
    original size is that of the first level ([next(iter(...))] raises
    StopIteration on no level). *)
Definition add_algorithm (test_results : dict JSeries)
           (item : string * Levels) : result (dict JSeries) :=
  let '(algorithm, lvls) := item in
  let* first_level :=
    match values lvls with
    | [] => Raise StopIteration
    | first_level :: _ => Ok first_level
    end in
  let s := {| levels := []; ratios := []; compressed_sizes := [];
              compression_times := []; decompression_times := [];
              memory_usage := [];
              original_size := Some (originalSize (compression first_level)) |} in
  let* s := foldM add_level lvls s in
  let* s := sort_series s in
  Ok (dict_set algorithm s test_results).

(** Lines 45-76: [results[test_name] = {}] discards what an earlier
    object of the document recorded under the same name. *)
Definition add_test (results : dict (dict JSeries))
           (item : string * Algorithms) : result (dict (dict JSeries)) :=
  let '(test_name, algorithms) := item in
  let results := dict_set test_name [] results in
  let* test_results := dict_item test_name results in
  let* test_results := foldM add_algorithm algorithms test_results in
  Ok (dict_set test_name test_results results).

Definition process_data (json_data : JsonData)
  : result (dict (dict JSeries)) :=
  foldM (fun results test_data => foldM add_test test_data results)
        json_data [].

(** *** create_html_summary, lines 306-317: the best times.

    The first pass folds [min] over the algorithms, from
    [float('inf')]; an algorithm without measurements contributes
    [float('inf')]. *)
Definition series_min (times : list float) : float :=
  match times with
  | [] => infinity
  | x :: rest => min_from x rest
  end.

Record BestValues : Type := {
  best_ratio : float;
  best_comp_time : float;
  best_decomp_time : float;
  best_memory : option Z
}.

(** Lines 307-310; [None] is the [float('inf')] of [best_memory]. *)
Definition initial_best : BestValues :=
  {| best_ratio := 0;
     best_comp_time := infinity;
     best_decomp_time := infinity;
     best_memory := None |}.

Definition memory_min (best : option Z) (memory : list Z) : option Z :=
  match memory, best with
  | [], _ => best
  | x :: rest, None => Some (zmin_from x rest)
  | x :: rest, Some b =>
      let m := zmin_from x rest in
      Some (if (m <? b)%Z then m else b)
  end.

(** Lines 313-317: the body of the first pass. *)
Definition first_pass (best : BestValues) (metrics : JSeries)
  : result BestValues :=
  let* ratio := pymax (ratios metrics) in
  Ok {| best_ratio := pymax2 (best_ratio best) ratio;
        best_comp_time :=
          pymin2 (best_comp_time best)
                 (series_min (compression_times metrics));
        best_decomp_time :=
          pymin2 (best_decomp_time best)
                 (series_min (decompression_times metrics));
        best_memory := memory_min (best_memory best) (memory_usage metrics) |}.

Definition best_values (algorithms : dict JSeries) : result BestValues :=
  foldM first_pass (values algorithms) initial_best.

(** Lines 229-231 of plot_efficiency_comparison. *)
Definition efficiency (metrics : JSeries) : result (list float) :=
  forM (fun '(r, t) => truediv r (t + 0.001)%float)
       (zip (ratios metrics) (compression_times metrics)).

End Script.
End VisualizeJson.

(** * Vocabulary of the properties *)

(** ** Level entries, lengths and records *)

(** The level entries the document holds for a pair, in the order the
    loops of [extract_data] meet them; the same file may come in several
    objects of the document. *)
Definition levels_of (algorithm : string) (algorithms : Algorithms)
  : list (string * LevelMetrics) :=
  flat_map (fun '(a, levels) =>
              if String.eqb algorithm a then levels else []) algorithms.

Definition levels_in_file (filename algorithm : string) (file_data : FileData)
  : list (string * LevelMetrics) :=
  flat_map (fun '(f, algorithms) =>
              if String.eqb filename f then levels_of algorithm algorithms
              else []) file_data.

Definition encountered (filename algorithm : string) (json_data : JsonData)
  : list (string * LevelMetrics) :=
  flat_map (levels_in_file filename algorithm) json_data.

(** The number of distinct level identifiers among them. *)
Definition distinct_levels (filename algorithm : string)
           (json_data : JsonData) : nat :=
  length (nodup String.string_dec
                (map fst (encountered filename algorithm json_data))).

(** All seven lists of a series have length [n]. *)
Definition lengths (s : Series) (n : nat) : Prop :=
  length (compression_levels s) = n /\
  length (compression_ratio s) = n /\
  length (compressed_percentage s) = n /\
  length (compression_time s) = n /\
  length (decompression_time s) = n /\
  length (compressed_size s) = n /\
  length (memory_usage s) = n.

(** The invariant of the population loops: a recorded series stands in
    the relation [P] to the level entries met so far for its pair, and a
    pair that is not recorded has met none. *)
Definition met {S} (P : S -> list (string * LevelMetrics) -> Prop)
           (o : option S) (entries : list (string * LevelMetrics)) : Prop :=
  match o with
  | Some s => P s entries
  | None => entries = []
  end.

(** The original size of the first level entry met. *)
Definition first_original_size (entries : list (string * LevelMetrics))
  : option Z :=
  match entries with
  | [] => None
  | (_, metrics) :: _ => Some (originalSize (compression metrics))
  end.

(** The items of [l] at the indices that are in range. *)
Definition picks {A} (l : list A) (indices : list nat) : list A :=
  flat_map (fun i => option_list (l !! i)) indices.

(** The records of a series: the items of its seven lists, position by
    position. *)
Definition records (s : Series)
  : list (level_key * (float * (float * (float * (float * (Z * Z)))))) :=
  zip (compression_levels s)
      (zip (compression_ratio s)
           (zip (compressed_percentage s)
                (zip (compression_time s)
                     (zip (decompression_time s)
                          (zip (compressed_size s) (memory_usage s)))))).

(** ** The order of floats *)

(** The rank of a binary64 number that is not NaN: sign class first,
    then exponent and mantissa, negated on the negative side. *)
Definition sf_rank (f : spec_float) : option (Z * Z * Z) :=
  match f with
  | S754_nan => None
  | S754_infinity s => Some (if s then (-2)%Z else 2%Z, 0%Z, 0%Z)
  | S754_zero _ => Some (0%Z, 0%Z, 0%Z)
  | S754_finite s m e =>
      Some (if s then ((-1)%Z, (- e)%Z, Z.neg m) else (1%Z, e, Z.pos m))
  end.

(** The lexicographic order of ranks; NaN has none and is unrelated. *)
Definition rank_lt (a b : option (Z * Z * Z)) : Prop :=
  match a, b with
  | Some (a1, a2, a3), Some (b1, b2, b3) =>
      (a1 < b1 \/ (a1 = b1 /\ (a2 < b2 \/ (a2 = b2 /\ a3 < b3))))%Z
  | _, _ => False
  end.

Definition float_rank (x : float) : option (Z * Z * Z) :=
  sf_rank (Prim2SF x).

(** A binary64 value above zero: a positive finite number or the
    positive infinity. *)
Definition above_zero (f : spec_float) : bool :=
  match f with
  | S754_finite false _ _ | S754_infinity false => true
  | _ => false
  end.

(** Some algorithm of the document comes without levels. *)
Definition without_levels (json_data : JsonData) : Prop :=
  exists (file_data : FileData) (filename : string)
         (algorithms : Algorithms) (algorithm : string),
    In file_data json_data /\ In (filename, algorithms) file_data /\
    In (algorithm, []) algorithms.


(** ** Documents that differ in the sizes they report *)

(** A level entry made to report another original size. *)
Definition with_original_size (size : Z) (metrics : LevelMetrics)
  : LevelMetrics :=
  {| compression :=
       {| originalSize := size;
          compressedSize := compressedSize (compression metrics);
          compressionRatio := compressionRatio (compression metrics);
          compressedPercentage := compressedPercentage (compression metrics);
          real := real (compression metrics);
          max := max (compression metrics) |};
     decompression := decompression metrics |}.

(** The levels of one (file, algorithm) object with the original size of
    every level but the first replaced: [g first old] is the new size of
    a level that reported [old], [first] being the size the first level
    reports. *)
Definition change_later_sizes (g : Z -> Z -> Z) (levels : Levels) : Levels :=
  match levels with
  | [] => []
  | (first_level, first) :: later =>
      (first_level, first)
        :: map (fun '(level, metrics) =>
                  (level,
                   with_original_size
                     (g (originalSize (compression first))
                        (originalSize (compression metrics)))
                     metrics))
               later
  end.

Definition change_later_sizes_in (g : Z -> Z -> Z) (json_data : JsonData)
  : JsonData :=
  map (map (fun '(filename, algorithms) =>
              (filename,
               map (fun '(algorithm, levels) =>
                      (algorithm, change_later_sizes g levels))
                   algorithms)))
      json_data.

(** The document with every later level made to agree with the first
    level of its object. *)
Definition agreeing (json_data : JsonData) : JsonData :=
  change_later_sizes_in (fun first _ => first) json_data.

(** A normaliser surfaces the size mismatches of a document when its
    outcome on the document differs from its outcome on the agreeing
    document. *)
Definition surfaces_mismatch {R} (normalize : JsonData -> result R)
           (json_data : JsonData) : Prop :=
  normalize json_data <> normalize (agreeing json_data).

(** The sizes the levels of a document report, object by object. *)
Definition reported_sizes (json_data : JsonData) : list Z :=
  flat_map
    (flat_map
       (fun '(_, algorithms) =>
          flat_map (fun '(_, levels) =>
                      map (fun '(_, metrics) =>
                             originalSize (compression metrics)) levels)
                   algorithms))
    json_data.

(** ** The models of the two normalisers *)

(** The same normalised series in the representations of the two
    scripts: levels, ratios, compressed sizes, times, memory usages and
    original size, item by item. *)
Definition same_series (s : Series) (j : VisualizeJson.JSeries) : Prop :=
  compression_levels s = map LInt (VisualizeJson.levels j) /\
  compression_ratio s = VisualizeJson.ratios j /\
  compressed_size s = VisualizeJson.compressed_sizes j /\
  compression_time s = VisualizeJson.compression_times j /\
  decompression_time s = VisualizeJson.decompression_times j /\
  memory_usage s = VisualizeJson.memory_usage j /\
  original_size s = VisualizeJson.original_size j.

(** The same model: the same files in the same order, for each the same
    algorithms in the same order, for each the same series. *)
Definition same_model (results : Results)
           (jresults : dict (dict VisualizeJson.JSeries)) : Prop :=
  Forall2 (fun x y =>
             fst x = fst y /\
             Forall2 (fun u v => fst u = fst v /\ same_series (snd u) (snd v))
                     (snd x) (snd y))
          results jresults.

(** The documents on which the two normalisers agree: no file name comes
    twice, no algorithm comes twice in a file, and [int] accepts every
    level identifier. *)
Definition distinct_files (json_data : JsonData) : Prop :=
  NoDup (keys (concat json_data)).

Definition distinct_algorithms (json_data : JsonData) : Prop :=
  Forall (fun algorithms : Algorithms => NoDup (keys algorithms))
         (values (concat json_data)).

Definition integer_levels (py_int : string -> option Z) (levels : Levels)
  : Prop :=
  Forall (fun level => py_int level <> None) (keys levels).

Definition integer_levels_in (py_int : string -> option Z)
           (json_data : JsonData) : Prop :=
  Forall (fun algorithms : Algorithms =>
            Forall (integer_levels py_int) (values algorithms))
         (values (concat json_data)).

(** ** The series of a pair met for the first time *)

Section Builders.

Variable py_int : string -> option Z.
Variable py_float : string -> option float.
Variable argsort : list level_key -> list nat.

(** The series analyze_compression.py builds from the levels of a pair
    it meets for the first time, before sorting. *)
Definition analyze_build (levels : Levels) : result Series :=
  let* s := AnalyzeCompression.record_original_size new_series levels in
  foldM (AnalyzeCompression.add_level py_int py_float) levels s.

(** The series visualize_json.py builds from the levels of a pair. *)
Definition json_build (levels : Levels) : result VisualizeJson.JSeries :=
  let* first_level :=
    match values levels with
    | [] => Raise StopIteration
    | first_level :: _ => Ok first_level
    end in
  let* s :=
    foldM (VisualizeJson.add_level py_int py_float) levels
          {| VisualizeJson.levels := [];
             VisualizeJson.ratios := [];
             VisualizeJson.compressed_sizes := [];
             VisualizeJson.compression_times := [];
             VisualizeJson.decompression_times := [];
             VisualizeJson.memory_usage := [];
             VisualizeJson.original_size :=
               Some (originalSize (compression first_level)) |} in
  VisualizeJson.sort_series argsort s.

Definition analyze_algorithms (algorithms : Algorithms)
  : result (dict Series) :=
  forM (fun '(a, levels) => let* s := analyze_build levels in Ok (a, s))
       algorithms.

Definition json_algorithms (algorithms : Algorithms)
  : result (dict VisualizeJson.JSeries) :=
  forM (fun '(a, levels) => let* s := json_build levels in Ok (a, s))
       algorithms.

End Builders.

(** ** Sample documents and series *)

(** One level entry whose durations are present. *)
Definition measurement (original compressed : Z) (ratio : float)
           (percentage time : string) (memory : Z)
           (decompression_time : string) (decompression_memory : Z)
  : LevelMetrics :=
  {| compression :=
       {| originalSize := original; compressedSize := compressed;
          compressionRatio := ratio; compressedPercentage := percentage;
          real := Some time; max := memory |};
     decompression :=
       {| decomp_real := Some decompression_time;
          decomp_max := decompression_memory |} |}.

(** The end-to-end scenario of the specification, its two levels given
    in descending order. *)
Definition scenario_doc : JsonData :=
  [[("fileA",
     [("zstd",
       [("3", measurement 1000 400 2.5 "40.0" "0:02" 600 "0:00.2" 120);
        ("1", measurement 1000 600 1.67 "60.0" "0:01" 500 "0:00.1" 100)])])]].

(** The series of the scenario, sorted. *)
Definition scenario_series : Series :=
  {| compression_levels := [LInt 1; LInt 3];
     compression_ratio := [1.67; 2.5]%float;
     compressed_percentage := [60; 40]%float;
     compression_time := [1; 2]%float;
     decompression_time := [0.1; 0.2]%float;
     original_size := Some 1000%Z;
     compressed_size := [600; 400]%Z;
     memory_usage := [500; 600]%Z |}.

(** A document that holds the same file twice, each time with level 1
    of the same algorithm. *)
Definition repeated_doc : JsonData :=
  [[("fileA",
     [("zstd",
       [("1", measurement 1000 600 1.67 "60.0" "0:01" 500 "0:00.1" 100)])])];
   [("fileA",
     [("zstd",
       [("1", measurement 1000 400 2.5 "40.0" "0:02" 600 "0:00.2" 120)])])]].

(** Its two records in encounter order. *)
Definition repeated_encountered : Series :=
  {| compression_levels := [LInt 1; LInt 1];
     compression_ratio := [1.67; 2.5]%float;
     compressed_percentage := [60; 40]%float;
     compression_time := [1; 2]%float;
     decompression_time := [0.1; 0.2]%float;
     original_size := Some 1000%Z;
     compressed_size := [600; 400]%Z;
     memory_usage := [500; 600]%Z |}.


(** What [process_data] keeps of [repeated_doc]: the second object
    alone. *)
Definition repeated_last : VisualizeJson.JSeries :=
  {| VisualizeJson.levels := [1]%Z;
     VisualizeJson.ratios := [2.5]%float;
     VisualizeJson.compressed_sizes := [400]%Z;
     VisualizeJson.compression_times := [2]%float;
     VisualizeJson.decompression_times := [0.2]%float;
     VisualizeJson.memory_usage := [600]%Z;
     VisualizeJson.original_size := Some 1000%Z |}.

(** The scenario with its levels in ascending order, the second level
    reporting another original size than the first. *)
Definition mismatch_doc : JsonData :=
  [[("fileA",
     [("zstd",
       [("1", measurement 1000 600 1.67 "60.0" "0:01" 500 "0:00.1" 100);
        ("3", measurement 2000 400 2.5 "40.0" "0:02" 600 "0:00.2" 120)])])]].

(** A document whose only algorithm comes without levels. *)
Definition no_levels_doc : JsonData := [[("fileA", [("zstd", [])])]].

(** A document with a decimal level identifier. *)
Definition decimal_doc : JsonData :=
  [[("fileA",
     [("zstd",
       [("1", measurement 1000 600 1.67 "60.0" "0:01" 500 "0:00.1" 100);
        ("1.5", measurement 1000 400 2.5 "40.0" "0:02" 600 "0:00.2" 120)])])]].

(** The series analyze_compression.py returns for it. *)
Definition decimal_series : Series :=
  {| compression_levels := [LInt 1; LFloat 1.5];
     compression_ratio := [1.67; 2.5]%float;
     compressed_percentage := [60; 40]%float;
     compression_time := [1; 2]%float;
     decompression_time := [0.1; 0.2]%float;
     original_size := Some 1000%Z;
     compressed_size := [600; 400]%Z;
     memory_usage := [500; 600]%Z |}.

(** A one-level series whose compressed percentage is 30.0. *)
Definition thirty_percent_series : Series :=
  {| compression_levels := [LInt 1];
     compression_ratio := [3.33]%float;
     compressed_percentage := [30.0]%float;
     compression_time := [1]%float;
     decompression_time := [0.1]%float;
     original_size := Some 1000%Z;
     compressed_size := [300]%Z;
     memory_usage := [500]%Z |}.

(** Two-level series of an algorithm, as the two normalisers build
    them, with the given compression times. *)
Definition two_level_series (times : list float) : Series :=
  {| compression_levels := [LInt 1; LInt 2];
     compression_ratio := [2.0; 2.5]%float;
     compressed_percentage := [50; 40]%float;
     compression_time := times;
     decompression_time := [0.1; 0.2]%float;
     original_size := Some 1000%Z;
     compressed_size := [500; 400]%Z;
     memory_usage := [500; 600]%Z |}.

Definition two_level_jseries (times : list float) : VisualizeJson.JSeries :=
  {| VisualizeJson.levels := [1; 2]%Z;
     VisualizeJson.ratios := [2.0; 2.5]%float;
     VisualizeJson.compressed_sizes := [500; 400]%Z;
     VisualizeJson.compression_times := times;
     VisualizeJson.decompression_times := [0.1; 0.2]%float;
     VisualizeJson.memory_usage := [500; 600]%Z;
     VisualizeJson.original_size := Some 1000%Z |}.

(** * Vocabulary of the further properties *)

(** ** Strings and sequences *)

(** How many times a character occurs in a string. *)
Fixpoint count_char (c : ascii) (s : string) : nat :=
  match s with
  | EmptyString => 0
  | String c' s' => (if Ascii.eqb c' c then 1 else 0) + count_char c s'
  end.

(** ** The record of a level entry *)

(** [converted py_int py_float entry record]: the record holds what the
    loop body of [extract_data] (analyze_compression.py, lines 68-85)
    appends for the level entry. *)
Definition converted (py_int : string -> option Z)
           (py_float : string -> option float)
           (entry : string * LevelMetrics)
           (record : level_key * (float * (float * (float * (float * (Z * Z))))))
  : Prop :=
  let '(level, metrics) := entry in
  let '(key, (ratio, (percentage, (ctime, (dtime, (size, memory)))))) :=
    record in
  AnalyzeCompression.level_int py_int py_float level = Ok key /\
  ratio = compressionRatio (compression metrics) /\
  to_float py_float (compressedPercentage (compression metrics))
  = Ok percentage /\
  parse_time py_float (real (compression metrics)) = Ok ctime /\
  parse_time py_float (decomp_real (decompression metrics)) = Ok dtime /\
  size = compressedSize (compression metrics) /\
  memory = max (compression metrics).

(** The six lists of a series of visualize_json.py have length [n]. *)
Definition json_lengths (s : VisualizeJson.JSeries) (n : nat) : Prop :=
  length (VisualizeJson.levels s) = n /\
  length (VisualizeJson.ratios s) = n /\
  length (VisualizeJson.compressed_sizes s) = n /\
  length (VisualizeJson.compression_times s) = n /\
  length (VisualizeJson.decompression_times s) = n /\
  length (VisualizeJson.memory_usage s) = n.

(** The series [process_data] gives for the scenario. *)
Definition scenario_jseries : VisualizeJson.JSeries :=
  {| VisualizeJson.levels := [1; 3]%Z;
     VisualizeJson.ratios := [1.67; 2.5]%float;
     VisualizeJson.compressed_sizes := [600; 400]%Z;
     VisualizeJson.compression_times := [1; 2]%float;
     VisualizeJson.decompression_times := [0.1; 0.2]%float;
     VisualizeJson.memory_usage := [500; 600]%Z;
     VisualizeJson.original_size := Some 1000%Z |}.

(** ** Best values *)

(** [v] is a value some algorithm has in [field]. *)
Definition value_of {A S} (field : S -> list A) (algorithms : list S) (v : A)
  : Prop :=
  exists alg, In alg algorithms /\ In v (field alg).

(** No algorithm whose own maximum in [field] is a number has a value
    above [v]. *)
Definition none_above {S} (field : S -> list float) (algorithms : list S)
           (v : float) : Prop :=
  forall alg top x,
    In alg algorithms -> pymax (field alg) = Ok top ->
    PrimFloat.is_nan top = false -> In x (field alg) ->
    PrimFloat.ltb v x = false.

(** No algorithm whose own minimum in [field] is a number has a value
    below [v]. *)
Definition none_below {S} (field : S -> list float) (algorithms : list S)
           (v : float) : Prop :=
  forall alg low x,
    In alg algorithms -> pymin (field alg) = Ok low ->
    PrimFloat.is_nan low = false -> In x (field alg) ->
    PrimFloat.ltb x v = false.

(** No algorithm has an integer value below [v]. *)
Definition none_less {S} (field : S -> list Z) (algorithms : list S) (v : Z)
  : Prop :=
  forall alg x, In alg algorithms -> In x (field alg) -> (v <= x)%Z.

(** A file of two algorithms, the first with compression times of
    zero. *)
Definition two_algorithms : dict Series :=
  [("A", two_level_series [0.0; 0.0]%float);
   ("B", two_level_series [0.5; 0.3]%float)].

Definition two_jalgorithms : dict VisualizeJson.JSeries :=
  [("A", two_level_jseries [0.0; 0.0]%float);
   ("B", two_level_jseries [0.5; 0.3]%float)].

(** An algorithm with at least one record in each list the best values
    are read from. *)
Definition measured (alg : Series) : Prop :=
  compression_ratio alg <> [] /\ compression_time alg <> [] /\
  decompression_time alg <> [] /\ memory_usage alg <> [].

(** An algorithm whose least value in [field] is positive. *)
Definition positive_minimum (field : Series -> list float) (alg : Series)
  : Prop :=
  exists m, pymin (field alg) = Ok m /\ PrimFloat.ltb 0 m = true.

(** ** The detailed table *)

(** The row the detailed table of generate_summary_table shows for a
    record of a series. *)
Definition row_of
           (record : level_key * (float * (float * (float * (float * (Z * Z))))))
  : AnalyzeCompression.DetailRow :=
  let '(level, (ratio, (percentage, (ctime, (dtime, (size, memory)))))) :=
    record in
  {| AnalyzeCompression.row_level := level;
     AnalyzeCompression.row_ratio := ratio;
     AnalyzeCompression.row_size := size;
     AnalyzeCompression.row_percent_saved := (100 - percentage)%float;
     AnalyzeCompression.row_ctime := ctime;
     AnalyzeCompression.row_dtime := dtime;
     AnalyzeCompression.row_memory := memory |}.

(** ** analyze_compression.py, generate_summary_table: the cells of the
    fastest times *)

Section SummaryCells.

(** [np.argmin] on a non-empty list of floats. *)
Variable argmin : list float -> nat.

(** Lines 324 and 332-333 (compression), 325 and 335-336
    (decompression): the value at the position of [np.argmin], and
    whether the cell gets [class='best'], which is [==] with the best
    time of the file.  [np.argmin] of an empty list raises
    ValueError. *)
Definition fastest_cell (times : list float) (best_time : float)
  : result (float * bool) :=
  match times with
  | [] => Raise ValueError
  | _ :: _ =>
      let best_time_idx := argmin times in
      let* time_value := AnalyzeCompression.at_index times best_time_idx in
      Ok (time_value, PrimFloat.eqb time_value best_time)
  end.

End SummaryCells.

(** What the cells rely on: [np.argmin] returns a position of the
    list, and no item is less than the item there (numpy returns the
    first least item, or the first NaN). *)
Definition argmin_spec (argmin : list float -> nat) : Prop :=
  forall l : list float,
    l <> [] ->
    exists v, l !! argmin l = Some v /\
              forall t, In t l -> PrimFloat.ltb t v = false.

(** The position of the first item no later item is less than. *)
Fixpoint argmin_first_from (cur : float) (at_cur next : nat) (l : list float)
  : nat :=
  match l with
  | [] => at_cur
  | x :: l' =>
      if PrimFloat.ltb x cur then argmin_first_from x next (S next) l'
      else argmin_first_from cur at_cur (S next) l'
  end.

Definition argmin_first (l : list float) : nat :=
  match l with
  | [] => 0
  | x :: l' => argmin_first_from x 0 1 l'
  end.

(** ** visualize_md.py *)

Module VisualizeMd.

(** The cells of a table row, lines 42-49, before [str] (line 50) and
    the join (line 51). *)
Record Row : Type := {
  algo : string;
  lvl : string;
  ratio : float;
  size : Z;
  ctime : option string;
  dtime : option string;
  cmem : Z;
  dmem : Z
}.

(** [sorted(iterable, key=f)] on integer keys.  The keys of all items
    are computed first; the sort is stable, as the language guarantees
    of [sorted], and a stable sort has one result: the one that
    insertion gives, each item going before the first item whose key is
    not less. *)
Fixpoint insert_by_key {A} (x : Z * A) (l : list (Z * A)) : list (Z * A) :=
  match l with
  | [] => [x]
  | y :: l' =>
      if (fst x <=? fst y)%Z then x :: y :: l' else y :: insert_by_key x l'
  end.

Fixpoint sort_by_key {A} (l : list (Z * A)) : list (Z * A) :=
  match l with
  | [] => []
  | x :: l' => insert_by_key x (sort_by_key l')
  end.

Section Script.

Variable py_int : string -> option Z.

(** Line 41: [sorted(levels.items(), key=lambda x: int(x[0]))]. *)
Definition sorted_levels (levels : Levels)
  : result (list (string * LevelMetrics)) :=
  let* keyed :=
    forM (fun x => let* k := or_raise ValueError (py_int (fst x)) in Ok (k, x))
         levels in
  Ok (map snd (sort_by_key keyed)).

(** Lines 42-50: the row of a level of an algorithm. *)
Definition row (algo : string) (item : string * LevelMetrics) : Row :=
  let '(lvl, metrics) := item in
  let comp := compression metrics in
  let decomp := decompression metrics in
  {| algo := algo;
     lvl := lvl;
     ratio := compressionRatio comp;
     size := compressedSize comp;
     ctime := real comp;
     dtime := decomp_real decomp;
     cmem := max comp;
     dmem := decomp_max decomp |}.

(** Lines 40-51: the rows of an algorithm. *)
Definition algo_rows (item : string * Levels) : result (list Row) :=
  let '(algo, levels) := item in
  let* sorted := sorted_levels levels in
  Ok (map (row algo) sorted).

End Script.
End VisualizeMd.

(** The level entry carries the number [k]. *)
Definition numbered (py_int : string -> option Z) (k : Z)
           (item : string * LevelMetrics) : bool :=
  match py_int (fst item) with
  | Some z => (z =? k)%Z
  | None => false
  end.

(** The number of the first entry is not above the number of the
    second. *)
Definition level_le (py_int : string -> option Z)
           (a b : string * LevelMetrics) : Prop :=
  exists x y, py_int (fst a) = Some x /\ py_int (fst b) = Some y /\ (x <= y)%Z.

(** Three levels of one algorithm, two of them writing the number 1. *)
Definition padded_levels : Levels :=
  [("2", measurement 1000 400 2.5 "40.0" "0:02" 600 "0:00.2" 120);
   ("1", measurement 1000 600 1.67 "60.0" "0:01" 500 "0:00.1" 100);
   ("+1", measurement 1000 500 2.0 "50.0" "0:03" 700 "0:00.3" 130)].

(** A series with at least one record, its lists of one length. *)
Definition recorded (s : Series) : Prop := exists n, 0 < n /\ lengths s n.

(** A keyed item whose key is the number of its level. *)
Definition keyed_right (py_int : string -> option Z)
           (a : Z * (string * LevelMetrics)) : Prop :=
  py_int (fst (snd a)) = Some (fst a).

(** * Properties *)

(** ** The result monad and the loops *)

Lemma bind_Ok {A B} (m : result A) (k : A -> result B) (b : B) :
  bind m k = Ok b <-> exists a, m = Ok a /\ k a = Ok b.
Proof.
  destruct m as [a|e]; simpl; split.
  - intros H. exists a. auto.
  - intros (a' & H1 & H2). injection H1 as <-. exact H2.
  - discriminate.
  - intros (a' & H1 & _). discriminate.
Qed.

(** Splits a hypothesis [bind m k = Ok b] into its two runs. *)
Ltac bind_inv H :=
  let x := fresh "x" in
  let Hx := fresh "Hx" in
  apply bind_Ok in H; destruct H as (x & Hx & H).

Ltac ok_inv H := injection H as H; try subst.

Lemma or_raise_Ok {A} (e : exn) (o : option A) (a : A) :
  or_raise e o = Ok a <-> o = Some a.
Proof.
  destruct o; simpl; split; intros H; try discriminate; congruence.
Qed.

Lemma forM_Forall2 {A B} (f : A -> result B) (l : list A) (ys : list B) :
  forM f l = Ok ys <-> Forall2 (fun x y => f x = Ok y) l ys.
Proof.
  revert ys. induction l as [|x l IH]; intros ys; simpl.
  - split.
    + intros H. ok_inv H. constructor.
    + intros H. inversion H. reflexivity.
  - split.
    + intros H. bind_inv H. bind_inv H. ok_inv H.
      constructor; [assumption|]. apply IH. assumption.
    + intros H. inversion H as [|? y ? ys' Hy Hys]; subst.
      rewrite Hy. simpl. apply IH in Hys. rewrite Hys. reflexivity.
Qed.

Lemma forM_length {A B} (f : A -> result B) (l : list A) (ys : list B) :
  forM f l = Ok ys -> length ys = length l.
Proof.
  intros H. apply forM_Forall2 in H. symmetry.
  eapply Forall2_length. exact H.
Qed.

Lemma foldM_app {A S} (f : S -> A -> result S) (l1 l2 : list A) (s : S) :
  foldM f (l1 ++ l2) s = bind (foldM f l1 s) (foldM f l2).
Proof.
  revert s. induction l1 as [|x l1 IH]; intros s; simpl; [reflexivity|].
  destruct (f s x) as [s'|e]; simpl; [apply IH | reflexivity].
Qed.

Lemma foldM_ext {A S} (f g : S -> A -> result S) (l : list A) (s : S) :
  (forall s x, In x l -> f s x = g s x) -> foldM f l s = foldM g l s.
Proof.
  revert s. induction l as [|x l IH]; intros s H; simpl; [reflexivity|].
  rewrite (H s x) by (left; reflexivity).
  destruct (g s x) as [s'|e]; simpl; [|reflexivity].
  apply IH. intros s0 y Hy. apply H. right. exact Hy.
Qed.

(** ** Dictionaries *)

Lemma dict_get_set_eq {V} (k : string) (v : V) (d : dict V) :
  dict_get k (dict_set k v d) = Some v.
Proof.
  induction d as [|[k' v'] d IH]; simpl.
  - rewrite String.eqb_refl. reflexivity.
  - destruct (String.eqb k k') eqn:E; simpl; rewrite E; [reflexivity|exact IH].
Qed.

Lemma dict_get_set_ne {V} (k k0 : string) (v : V) (d : dict V) :
  k0 <> k -> dict_get k0 (dict_set k v d) = dict_get k0 d.
Proof.
  intros Hne. induction d as [|[k' v'] d IH]; simpl.
  - destruct (String.eqb k0 k) eqn:E; [|reflexivity].
    apply String.eqb_eq in E. contradiction.
  - destruct (String.eqb k k') eqn:E; simpl.
    + apply String.eqb_eq in E. subst k'.
      destruct (String.eqb k0 k) eqn:E0; [|reflexivity].
      apply String.eqb_eq in E0. contradiction.
    + rewrite IH. reflexivity.
Qed.

Lemma dict_get_set {V} (k k0 : string) (v : V) (d : dict V) :
  dict_get k0 (dict_set k v d) =
  if String.eqb k0 k then Some v else dict_get k0 d.
Proof.
  destruct (String.eqb k0 k) eqn:E.
  - apply String.eqb_eq in E. subst. apply dict_get_set_eq.
  - apply String.eqb_neq in E. apply dict_get_set_ne. exact E.
Qed.

(** What [results[k]] is once the script has made sure that [k] is a
    key: the value found, or the fresh one. *)
Lemma dict_item_ensure {V} (k : string) (fresh : V) (d : dict V) :
  dict_item k (if dict_mem k d then d else dict_set k fresh d) =
  Ok (match dict_get k d with Some v => v | None => fresh end).
Proof.
  unfold dict_item, dict_mem. destruct (dict_get k d) as [v|] eqn:E.
  - rewrite E. reflexivity.
  - rewrite dict_get_set_eq. reflexivity.
Qed.

Lemma dict_get_ensure_set {V} (k k0 : string) (fresh v : V) (d : dict V) :
  dict_get k0 (dict_set k v (if dict_mem k d then d else dict_set k fresh d)) =
  if String.eqb k0 k then Some v else dict_get k0 d.
Proof.
  rewrite dict_get_set. destruct (String.eqb k0 k) eqn:E; [reflexivity|].
  destruct (dict_mem k d); [reflexivity|].
  apply dict_get_set_ne. apply String.eqb_neq. exact E.
Qed.

Lemma for_values_get {V W} (f : V -> result W) (d : dict V) (d' : dict W)
      (k : string) (w : W) :
  AnalyzeCompression.for_values f d = Ok d' ->
  dict_get k d' = Some w ->
  exists v, dict_get k d = Some v /\ f v = Ok w.
Proof.
  unfold AnalyzeCompression.for_values. intros H. apply forM_Forall2 in H.
  induction H as [|[k1 v1] [k2 w2] d d' Hx _ IH]; simpl; [discriminate|].
  bind_inv Hx. ok_inv Hx.
  destruct (String.eqb k k2); [|exact IH].
  intros Hw. ok_inv Hw. exists v1. auto.
Qed.

Lemma series_at_sorted {S T} (f : S -> result T) (results : dict (dict S))
      (sorted : dict (dict T)) (filename algorithm : string) (s : T) :
  AnalyzeCompression.for_values (AnalyzeCompression.for_values f) results
  = Ok sorted ->
  series_at filename algorithm sorted = Some s ->
  exists s0, series_at filename algorithm results = Some s0 /\ f s0 = Ok s.
Proof.
  intros H Hs. unfold series_at in *.
  destruct (dict_get filename sorted) as [algs|] eqn:E; [|discriminate].
  destruct (for_values_get _ _ _ _ _ H E) as (algs0 & -> & Halgs).
  exact (for_values_get _ _ _ _ _ Halgs Hs).
Qed.

Lemma for_values_get_None {V W} (f : V -> result W) (d : dict V) (d' : dict W)
      (k : string) :
  AnalyzeCompression.for_values f d = Ok d' ->
  (dict_get k d' = None <-> dict_get k d = None).
Proof.
  unfold AnalyzeCompression.for_values. intros H. apply forM_Forall2 in H.
  induction H as [|[k1 v1] [k2 w2] d d' Hx _ IH]; simpl; [tauto|].
  bind_inv Hx. ok_inv Hx.
  destruct (String.eqb k k2); [split; discriminate|exact IH].
Qed.

Lemma series_at_sorted_None {S T} (f : S -> result T) (results : dict (dict S))
      (sorted : dict (dict T)) (filename algorithm : string) :
  AnalyzeCompression.for_values (AnalyzeCompression.for_values f) results
  = Ok sorted ->
  (series_at filename algorithm sorted = None <->
   series_at filename algorithm results = None).
Proof.
  intros H. unfold series_at.
  destruct (dict_get filename sorted) as [algs|] eqn:E.
  - destruct (for_values_get _ _ _ _ _ H E) as (algs0 & -> & Halgs).
    exact (for_values_get_None _ _ _ _ Halgs).
  - apply (for_values_get_None _ _ _ filename H) in E. rewrite E. tauto.
Qed.

(** ** Rebuilding a list from indices *)

Lemma reindex_Forall2 {A} (l : list A) (indices : list nat) (ks : list A) :
  reindex l indices = Ok ks <->
  Forall2 (fun i k => l !! i = Some k) indices ks.
Proof.
  unfold reindex. rewrite forM_Forall2.
  split; intros H; (eapply Forall2_impl; [exact H|]);
    intros i k Hk; simpl in *; apply (or_raise_Ok IndexError); exact Hk.
Qed.

Lemma reindex_length {A} (l : list A) (indices : list nat) (ks : list A) :
  reindex l indices = Ok ks -> length ks = length indices.
Proof. apply forM_length. Qed.

Lemma reindex_picks {A} (l : list A) (indices : list nat) (ks : list A) :
  reindex l indices = Ok ks -> ks = picks l indices.
Proof.
  intros H. apply reindex_Forall2 in H.
  induction H as [|i k indices ks Hk _ IH]; simpl; [reflexivity|].
  rewrite Hk. simpl. rewrite IH. reflexivity.
Qed.

Lemma picks_seq {A} (l : list A) (start : nat) (pre : list A) :
  length pre = start ->
  picks (pre ++ l) (seq start (length l)) = l.
Proof.
  revert start pre. induction l as [|x l IH]; intros start pre Hpre; simpl.
  - reflexivity.
  - unfold picks in *. simpl.
    rewrite lookup_app_r by lia.
    replace (start - length pre) with 0 by lia. simpl.
    f_equal. specialize (IH (S start) (pre ++ [x])).
    rewrite <- app_assoc in IH. simpl in IH. apply IH.
    rewrite length_app. simpl. lia.
Qed.

(** Indices that are a permutation of the positions rebuild a
    permutation of the list. *)
Lemma reindex_Permutation {A} (l : list A) (indices : list nat) (ks : list A) :
  Permutation indices (seq 0 (length l)) ->
  reindex l indices = Ok ks -> Permutation l ks.
Proof.
  intros Hperm H. apply reindex_picks in H. subst ks.
  rewrite <- (picks_seq l 0 []) at 1 by reflexivity. simpl.
  unfold picks. symmetry. apply Permutation_flat_map. exact Hperm.
Qed.

Lemma reindex_entries {A} (l : list A) (es : list (nat * A)) (ks : list A) :
  Forall (fun e => l !! fst e = Some (snd e)) es ->
  Forall2 (fun i k => l !! i = Some k) (map fst es) ks ->
  ks = map snd es.
Proof.
  revert ks. induction es as [|[i k] es IH]; intros ks Hall Hks; simpl in *.
  - inversion Hks. reflexivity.
  - inversion Hks as [|? k' ? ks' Hk Hrest]; subst.
    inversion Hall as [|? ? Hik Hes]; subst. simpl in Hik.
    f_equal; [congruence|]. apply IH; assumption.
Qed.

(** ** The sample sorting procedure meets the contract of argsort *)

Lemma num_leb_total (a b : num) : num_leb a b = false -> num_leb b a = true.
Proof.
  destruct a as [|p| |], b as [|q| |]; simpl; try reflexivity;
    try discriminate.
  intros H. apply Qle_bool_iff. apply Qlt_le_weak. apply Qnot_le_lt.
  intros Hle. apply Qle_bool_iff in Hle. congruence.
Qed.

Lemma zip_seq_lookup {A} (l : list A) (start i : nat) (k : A) :
  (i, k) ∈ zip (seq start (length l)) l -> l !! (i - start) = Some k.
Proof.
  revert start. induction l as [|x l IH]; intros start; simpl.
  - intros H. inversion H.
  - intros H. apply elem_of_cons in H. destruct H as [H|H].
    + injection H as -> ->. replace (start - start) with 0 by lia.
      reflexivity.
    + assert (S start <= i).
      { apply elem_of_zip_l in H. apply elem_of_seq in H. lia. }
      apply IH in H. replace (i - start) with (S (i - S start)) by lia.
      exact H.
Qed.

Section ArgsortBy.

Context {A : Type}.
Variable leb : A -> A -> bool.
Hypothesis leb_total : forall a b, leb a b = false -> leb b a = true.

Lemma entry_le_total : Total (entry_le leb).
Proof.
  intros [i a] [j b]. unfold entry_le, entry_leb. simpl.
  destruct (leb a b) eqn:Eab; destruct (leb b a) eqn:Eba; auto.
  - destruct (Nat.leb_spec i j); [auto|]. right. apply Nat.leb_le. lia.
  - apply leb_total in Eab. congruence.
Qed.

Lemma entry_le_item (x y : nat * A) :
  entry_le leb x y -> leb (snd x) (snd y) = true.
Proof.
  unfold entry_le, entry_leb.
  destruct (leb (snd x) (snd y)); [reflexivity|discriminate].
Qed.

Lemma argsort_by_Permutation (a : list A) :
  Permutation (argsort_by leb a) (seq 0 (length a)).
Proof.
  unfold argsort_by.
  rewrite (merge_sort_Permutation (entry_le leb)).
  rewrite fst_zip; [reflexivity|]. rewrite length_seq. lia.
Qed.

Lemma argsort_by_Sorted (a ks : list A) :
  reindex a (argsort_by leb a) = Ok ks ->
  Sorted (fun x y => leb x y = true) ks.
Proof.
  unfold argsort_by. set (entries := zip (seq 0 (length a)) a).
  pose proof (merge_sort_Permutation (entry_le leb) entries) as Hperm.
  intros Hks.
  assert (ks = map snd (merge_sort (entry_le leb) entries)) as ->.
  { apply reindex_Forall2 in Hks.
    assert (Forall (fun e => a !! fst e = Some (snd e))
                   (merge_sort (entry_le leb) entries)) as Hall.
    { rewrite Hperm. apply Forall_forall. intros [i k] Hin.
      unfold entries in Hin.
      apply zip_seq_lookup in Hin. simpl.
      replace (i - 0) with i in Hin by lia. exact Hin. }
    eapply reindex_entries; eassumption. }
  apply (Sorted_fmap snd (entry_le leb) (fun x y => leb x y = true)).
  - intros x y. apply entry_le_item.
  - apply Sorted_merge_sort. exact entry_le_total.
Qed.

End ArgsortBy.

Lemma Sorted_weaken {A} (R R' : A -> A -> Prop) (l : list A) :
  (forall x y, R x y -> R' x y) -> Sorted R l -> Sorted R' l.
Proof.
  intros HR. induction 1 as [|x l _ IH Hhead]; constructor; [exact IH|].
  destruct Hhead; constructor; auto.
Qed.

Lemma Z_leb_total (a b : Z) : (a <=? b)%Z = false -> (b <=? a)%Z = true.
Proof. intros H. apply Z.leb_gt in H. apply Z.leb_le. lia. Qed.

Lemma float_leb_total (a b : float) :
  float_leb a b = false -> float_leb b a = true.
Proof. apply num_leb_total. Qed.

Lemma key_leb_total (a b : level_key) :
  key_leb a b = false -> key_leb b a = true.
Proof. apply num_leb_total. Qed.

Lemma argsort_stable_permutes : permutes argsort_stable.
Proof.
  intros l. unfold argsort_stable, asarray.
  destruct (forallb fits l); [destruct (forallb is_int l)|].
  - rewrite <- (length_map int_value l). apply argsort_by_Permutation.
  - rewrite <- (length_map float_value l). apply argsort_by_Permutation.
  - apply argsort_by_Permutation.
Qed.

Lemma argsort_stable_sorts : sorts argsort_stable.
Proof.
  intros l. unfold argsort_stable.
  destruct (asarray l) as [zs|fs|ks]; [| |exact I].
  - intros ks Hks.
    eapply (Sorted_weaken (fun x y => (x <=? y)%Z = true));
      [|eapply argsort_by_Sorted; [exact Z_leb_total|exact Hks]].
    intros x y. apply Z.leb_le.
  - intros ks Hks.
    eapply argsort_by_Sorted; [exact float_leb_total|exact Hks].
Qed.


(** ** The invariant of the population loops *)

Lemma met_eq {S} (P : S -> list (string * LevelMetrics) -> Prop)
      (o : option S) (e e' : list (string * LevelMetrics)) :
  met P o e -> e = e' -> met P o e'.
Proof. intros H <-. exact H. Qed.

Section AnalyzeInvariant.

Variable py_int : string -> option Z.
Variable py_float : string -> option float.

Abbreviation add_level := (AnalyzeCompression.add_level py_int py_float).
Abbreviation add_algorithm := (AnalyzeCompression.add_algorithm py_int py_float).
Abbreviation add_file := (AnalyzeCompression.add_file py_int py_float).
Abbreviation collect := (AnalyzeCompression.collect py_int py_float).

Variable P : Series -> list (string * LevelMetrics) -> Prop.

(** [P] is kept when the levels of one more object are added to a
    series, be it a recorded one or the fresh one. *)
Hypothesis P_step :
  forall o entries levels s1 s2,
    met P o entries ->
    AnalyzeCompression.record_original_size
      (match o with Some s => s | None => new_series end) levels = Ok s1 ->
    foldM add_level levels s1 = Ok s2 ->
    P s2 (entries ++ levels).

Lemma add_algorithm_met file_results algorithm levels file_results' m :
  add_algorithm file_results (algorithm, levels) = Ok file_results' ->
  (forall a, met P (dict_get a file_results) (m a)) ->
  forall a, met P (dict_get a file_results')
                (m a ++ if String.eqb a algorithm then levels else []).
Proof.
  unfold AnalyzeCompression.add_algorithm. intros H Hinv a.
  rewrite dict_item_ensure in H. simpl in H.
  bind_inv H. bind_inv H. ok_inv H.
  rewrite dict_get_ensure_set.
  destruct (String.eqb a algorithm) eqn:E.
  - apply String.eqb_eq in E. subst a. simpl.
    eapply P_step; [apply Hinv|eassumption|eassumption].
  - rewrite app_nil_r. apply Hinv.
Qed.

Lemma add_algorithms_met algorithms file_results file_results' m :
  foldM add_algorithm algorithms file_results = Ok file_results' ->
  (forall a, met P (dict_get a file_results) (m a)) ->
  forall a, met P (dict_get a file_results') (m a ++ levels_of a algorithms).
Proof.
  revert file_results m.
  induction algorithms as [|[algorithm levels] algorithms IH];
    intros file_results m H Hinv a; simpl in H.
  - ok_inv H. simpl. rewrite app_nil_r. apply Hinv.
  - bind_inv H.
    pose proof (add_algorithm_met _ _ _ _ _ Hx Hinv) as Hstep.
    specialize (IH _ _ H Hstep a).
    eapply met_eq; [exact IH|].
    unfold levels_of. simpl. rewrite <- app_assoc. reflexivity.
Qed.

Lemma add_file_met results filename algorithms results' n :
  add_file results (filename, algorithms) = Ok results' ->
  (forall f a, met P (series_at f a results) (n f a)) ->
  forall f a, met P (series_at f a results')
                  (n f a ++ if String.eqb f filename
                            then levels_of a algorithms else []).
Proof.
  unfold AnalyzeCompression.add_file, Results. intros H Hinv f a.
  rewrite dict_item_ensure in H. simpl in H.
  bind_inv H. ok_inv H.
  unfold series_at. rewrite dict_get_ensure_set.
  destruct (String.eqb f filename) eqn:E.
  - apply String.eqb_eq in E. subst f.
    apply (add_algorithms_met _ _ _ (n filename) Hx).
    intros a0. specialize (Hinv filename a0). unfold series_at in Hinv.
    destruct (dict_get filename results); exact Hinv.
  - rewrite app_nil_r. apply Hinv.
Qed.

Lemma add_files_met file_data results results' n :
  foldM add_file file_data results = Ok results' ->
  (forall f a, met P (series_at f a results) (n f a)) ->
  forall f a, met P (series_at f a results')
                  (n f a ++ levels_in_file f a file_data).
Proof.
  revert results n.
  induction file_data as [|[filename algorithms] file_data IH];
    intros results n H Hinv f a; simpl in H.
  - ok_inv H. simpl. rewrite app_nil_r. apply Hinv.
  - bind_inv H.
    pose proof (add_file_met _ _ _ _ _ Hx Hinv) as Hstep.
    specialize (IH _ _ H Hstep f a).
    eapply met_eq; [exact IH|].
    unfold levels_in_file. simpl. rewrite <- app_assoc. reflexivity.
Qed.

Lemma collect_met_from json_data results results' n :
  foldM (fun results file_data => foldM add_file file_data results)
        json_data results = Ok results' ->
  (forall f a, met P (series_at f a results) (n f a)) ->
  forall f a, met P (series_at f a results')
                  (n f a ++ encountered f a json_data).
Proof.
  revert results n.
  induction json_data as [|file_data json_data IH];
    intros results n H Hinv f a; simpl in H.
  - ok_inv H. simpl. rewrite app_nil_r. apply Hinv.
  - bind_inv H.
    pose proof (add_files_met _ _ _ _ Hx Hinv) as Hstep.
    specialize (IH _ _ H Hstep f a).
    eapply met_eq; [exact IH|].
    unfold encountered. simpl. rewrite <- app_assoc. reflexivity.
Qed.

Lemma collect_met json_data results f a s :
  collect json_data = Ok results ->
  series_at f a results = Some s ->
  P s (encountered f a json_data).
Proof.
  intros H Hs.
  pose proof (collect_met_from json_data [] results (fun _ _ => []) H)
    as Hc.
  specialize (Hc (fun _ _ => eq_refl) f a).
  rewrite Hs in Hc. exact Hc.
Qed.

End AnalyzeInvariant.

Section AnalyzeLengths.

Variable py_int : string -> option Z.
Variable py_float : string -> option float.

Lemma add_level_lengths s item s' n :
  AnalyzeCompression.add_level py_int py_float s item = Ok s' ->
  lengths s n -> lengths s' (S n).
Proof.
  destruct item as [level metrics]. unfold AnalyzeCompression.add_level.
  intros H. repeat bind_inv H. ok_inv H. unfold lengths. simpl.
  rewrite !length_app. simpl. lia.
Qed.

Lemma add_levels_lengths levels s s' n :
  foldM (AnalyzeCompression.add_level py_int py_float) levels s = Ok s' ->
  lengths s n -> lengths s' (n + length levels).
Proof.
  revert s n. induction levels as [|item levels IH]; intros s n H Hs;
    simpl in H.
  - ok_inv H. simpl. rewrite Nat.add_0_r. exact Hs.
  - bind_inv H. simpl. rewrite Nat.add_succ_r.
    apply (IH x (S n) H). eapply add_level_lengths; eassumption.
Qed.

Lemma record_original_size_lengths s levels s' n :
  AnalyzeCompression.record_original_size s levels = Ok s' ->
  lengths s n -> lengths s' n.
Proof.
  unfold AnalyzeCompression.record_original_size.
  destruct (original_size s).
  - intros H. ok_inv H. auto.
  - destruct (keys levels); [discriminate|].
    intros H. bind_inv H. ok_inv H. auto.
Qed.

Lemma collect_counted json_data results f a s :
  AnalyzeCompression.collect py_int py_float json_data = Ok results ->
  series_at f a results = Some s ->
  lengths s (length (encountered f a json_data)).
Proof.
  apply (collect_met py_int py_float
                     (fun s entries => lengths s (length entries))).
  intros o entries levels s1 s2 Ho Hrec Hlevels.
  rewrite length_app. eapply add_levels_lengths; [eassumption|].
  eapply record_original_size_lengths; [eassumption|].
  destruct o as [s0|]; simpl in Ho.
  - exact Ho.
  - subst entries. repeat split.
Qed.

(** The original size of a series is that of the first level entry met
    for its pair. *)
Lemma add_levels_original_size levels s s' :
  foldM (AnalyzeCompression.add_level py_int py_float) levels s = Ok s' ->
  original_size s' = original_size s.
Proof.
  revert s. induction levels as [|[level metrics] levels IH]; intros s H;
    simpl in H.
  - ok_inv H. reflexivity.
  - bind_inv H. rewrite (IH _ H).
    unfold AnalyzeCompression.add_level in Hx.
    repeat bind_inv Hx. ok_inv Hx. reflexivity.
Qed.

Lemma collect_first_original_size json_data results f a s :
  AnalyzeCompression.collect py_int py_float json_data = Ok results ->
  series_at f a results = Some s ->
  exists size,
    original_size s = Some size /\
    first_original_size (encountered f a json_data) = Some size.
Proof.
  apply (collect_met py_int py_float
           (fun s entries =>
              exists size, original_size s = Some size /\
                           first_original_size entries = Some size)).
  intros o entries levels s1 s2 Ho Hrec Hlevels.
  rewrite (add_levels_original_size _ _ _ Hlevels).
  unfold AnalyzeCompression.record_original_size in Hrec.
  destruct o as [s0|]; simpl in Ho, Hrec.
  - destruct Ho as (size & Hsize & Hfirst). rewrite Hsize in Hrec.
    ok_inv Hrec. exists size. split; [exact Hsize|].
    destruct entries; [discriminate|exact Hfirst].
  - subst entries. destruct levels as [|[first_level metrics] levels];
      simpl in Hrec; [discriminate|].
    unfold dict_item in Hrec. simpl in Hrec.
    rewrite String.eqb_refl in Hrec. simpl in Hrec. ok_inv Hrec.
    eexists. split; reflexivity.
Qed.

End AnalyzeLengths.

(** ** Sorting a series *)

Lemma reindex_zip {A B} (l1 : list A) (l2 : list B) (indices : list nat)
      (k1 : list A) (k2 : list B) :
  reindex l1 indices = Ok k1 -> reindex l2 indices = Ok k2 ->
  reindex (zip l1 l2) indices = Ok (zip k1 k2).
Proof.
  rewrite !reindex_Forall2. intros H1. revert k2.
  induction H1 as [|i a indices k1 Ha _ IH]; intros k2 H2.
  - inversion H2. constructor.
  - inversion H2 as [|? b ? k2' Hb Hrest]; subst. simpl. constructor.
    + rewrite lookup_zip_with. rewrite Ha, Hb. reflexivity.
    + apply IH. exact Hrest.
Qed.

Lemma sort_series_records argsort (s0 s : Series) :
  AnalyzeCompression.sort_series argsort s0 = Ok s ->
  reindex (compression_levels s0) (argsort (compression_levels s0))
  = Ok (compression_levels s) /\
  reindex (records s0) (argsort (compression_levels s0)) = Ok (records s) /\
  original_size s = original_size s0.
Proof.
  unfold AnalyzeCompression.sort_series. intros H.
  repeat bind_inv H. ok_inv H. simpl. unfold records. simpl.
  repeat split; auto.
  repeat (apply reindex_zip; [assumption|]). assumption.
Qed.

Lemma lengths_records (s : Series) (n : nat) :
  lengths s n -> length (records s) = n.
Proof.
  unfold lengths, records. intros (H1 & H2 & H3 & H4 & H5 & H6 & H7).
  rewrite !length_zip. lia.
Qed.

Lemma sort_series_lengths argsort (s0 s : Series) (n : nat) :
  permutes argsort ->
  AnalyzeCompression.sort_series argsort s0 = Ok s ->
  lengths s0 n -> lengths s n.
Proof.
  intros Hspec H Hn.
  assert (length (argsort (compression_levels s0)) = n) as Hidx.
  { pose proof (Hspec (compression_levels s0)) as Hperm.
    apply Permutation_length in Hperm. rewrite length_seq in Hperm.
    destruct Hn as [Hn _]. congruence. }
  unfold AnalyzeCompression.sort_series in H.
  repeat bind_inv H. ok_inv H. unfold lengths. simpl.
  repeat match goal with
         | Hr : reindex _ _ = Ok _ |- _ => apply reindex_length in Hr
         end.
  repeat split; congruence.
Qed.

(** *** The array of a list rebuilt from indices *)







Lemma visualize_sort_series argsort :
  Visualize.sort_series argsort = AnalyzeCompression.sort_series argsort.
Proof. reflexivity. Qed.

(** ** C8: the length of a series *)

(** C8, amended.  Every series that [extract_data] of
    analyze_compression.py returns has seven lists of one length, and that
    length is the number of level entries the document holds for the
    (file, algorithm) pair, each entry counted every time it is met:
    nothing is dropped and nothing is merged. *)
Theorem series_length_is_entries_met
        (py_int : string -> option Z) (py_float : string -> option float)
        (argsort : list level_key -> list nat)
        (json_data : JsonData) (results : Results)
        (filename algorithm : string) (s : Series) :
  permutes argsort ->
  AnalyzeCompression.extract_data py_int py_float argsort json_data
  = Ok results ->
  series_at filename algorithm results = Some s ->
  lengths s (length (encountered filename algorithm json_data)).
Proof.
  intros Hspec H Hs. unfold AnalyzeCompression.extract_data in H.
  bind_inv H.
  destruct (series_at_sorted _ _ _ _ _ _ H Hs) as (s0 & Hs0 & Hsort).
  eapply sort_series_lengths; [exact Hspec|exact Hsort|].
  eapply collect_counted; eassumption.
Qed.

(** The theorem at [repeated_doc]: two entries met, two records. *)
Lemma series_length_is_entries_met_witness :
  lengths repeated_encountered
          (length (encountered "fileA" "zstd" repeated_doc)).
Proof.
  apply (series_length_is_entries_met
           int_dec float_dec argsort_stable repeated_doc
           [("fileA", [("zstd", repeated_encountered)])]).
  - exact argsort_stable_permutes.
  - vm_compute. reflexivity.
  - reflexivity.
Defined.

(** C8 as stated fails: the document holds one distinct level for the
    pair, met twice, and the series has two records. *)
Lemma series_length_not_distinct_levels :
  AnalyzeCompression.extract_data int_dec float_dec argsort_stable repeated_doc
  = Ok [("fileA", [("zstd", repeated_encountered)])] /\
  length (compression_levels repeated_encountered) = 2 /\
  distinct_levels "fileA" "zstd" repeated_doc = 1 /\
  length (compression_levels repeated_encountered)
  <> distinct_levels "fileA" "zstd" repeated_doc.
Proof.
  repeat split; try (vm_compute; reflexivity).
  vm_compute. discriminate.
Qed.

(** ** C1: the order of a series *)






(** ** C4: parse_time *)

Lemma SFmul_comm (p e : Z) (x y : spec_float) : SFmul p e x y = SFmul p e y x.
Proof.
  destruct x as [sx|sx| |sx mx ex], y as [sy|sy| |sy my ey]; simpl;
    try reflexivity; rewrite (xorb_comm sx sy); try reflexivity.
  rewrite (Pos.mul_comm mx my), (Z.add_comm ex ey). reflexivity.
Qed.

Lemma float_mul_comm (x y : float) : (x * y = y * x)%float.
Proof. apply Prim2SF_inj. rewrite !mul_spec. apply SFmul_comm. Qed.

(** Two results that hold different floats are different. *)
Lemma Ok_float_neq (x y : float) :
  PrimFloat.eqb x x = true -> PrimFloat.eqb x y = false ->
  @Ok float x <> Ok y.
Proof. intros Hx Hxy H. ok_inv H. congruence. Qed.

(** C4, amended.  [parse_time] equals the reference definition in which
    only two-part and three-part inputs are durations: empty or null
    input returns 0.0, [MM:SS] returns 60*MM+SS, [HH:MM:SS] returns
    3600*HH+60*MM+SS, and every other part count, the single part
    included, returns 0.0.  So ["1:02"] gives 62.0, ["0:00"] gives 0.0,
    ["1:02:03"] gives 3723.0 and [""] and [None] give 0.0. *)
Theorem parse_time_is_amended_reference :
  (forall (py_float : string -> option float) (time_str : option string),
      parse_time py_float time_str = parse_time_amended py_float time_str) /\
  parse_time float_dec (Some "1:02") = Ok 62%float /\
  parse_time float_dec (Some "0:00") = Ok 0%float /\
  parse_time float_dec (Some "1:02:03") = Ok 3723%float /\
  parse_time float_dec (Some "1:02.345") = Ok 62.345%float /\
  parse_time float_dec (Some "") = Ok 0%float /\
  parse_time float_dec None = Ok 0%float.
Proof.
  split; [|repeat split; vm_compute; reflexivity].
  intros py_float [[|c s]|]; try reflexivity.
  cbv beta iota delta [parse_time parse_time_amended].
  generalize (str_split ":" (String c s)).
  intros [|p0 [|p1 [|p2 [|p3 parts]]]]; try reflexivity;
    unfold part; simpl.
  - destruct (to_float py_float p0) as [minutes|]; simpl; [|reflexivity].
    destruct (to_float py_float p1) as [seconds|]; simpl; [|reflexivity].
    rewrite (float_mul_comm minutes 60). reflexivity.
  - destruct (to_float py_float p0) as [hours|]; simpl; [|reflexivity].
    destruct (to_float py_float p1) as [minutes|]; simpl; [|reflexivity].
    destruct (to_float py_float p2) as [seconds|]; simpl; [|reflexivity].
    rewrite (float_mul_comm hours 3600), (float_mul_comm minutes 60).
    reflexivity.
Qed.

(** C4 as stated fails on the seconds-only format: ["45"] splits into
    one numeric part, the reference returns 45.0 and [parse_time]
    returns 0.0. *)
Lemma parse_time_single_part :
  str_split ":" "45" = ["45"] /\
  parse_time_reference float_dec (Some "45") = Ok 45%float /\
  parse_time float_dec (Some "45") = Ok 0%float /\
  parse_time float_dec (Some "45")
  <> parse_time_reference float_dec (Some "45").
Proof.
  repeat split; try (vm_compute; reflexivity).
  replace (parse_time float_dec (Some "45")) with (@Ok float 0%float)
    by (vm_compute; reflexivity).
  replace (parse_time_reference float_dec (Some "45"))
    with (@Ok float 45%float) by (vm_compute; reflexivity).
  apply Ok_float_neq; reflexivity.
Qed.

(** ** C6: the level key *)

(** What [level_int] of analyze_compression.py returns: the integer when
    [int] accepts the identifier, else the float when [float] accepts
    it, else ValueError; no identifier is replaced by a default. *)
Lemma analyze_level_int_cases
      (py_int : string -> option Z) (py_float : string -> option float)
      (level : string) :
  (forall z, py_int level = Some z ->
             AnalyzeCompression.level_int py_int py_float level
             = Ok (LInt z)) /\
  (forall f, py_int level = None -> py_float level = Some f ->
             AnalyzeCompression.level_int py_int py_float level
             = Ok (LFloat f)) /\
  (py_int level = None -> py_float level = None ->
   AnalyzeCompression.level_int py_int py_float level = Raise ValueError).
Proof.
  unfold AnalyzeCompression.level_int.
  repeat split; intros; repeat match goal with
                               | H : _ = _ |- _ => rewrite H
                               end; reflexivity.
Qed.

(** C6 at visualize.py: [extract_data] converts the identifier with
    [int] alone, so the decimal identifier ["1.5"] raises ValueError
    there, while analyze_compression.py returns the float 1.5 for it. *)
Theorem visualize_level_int_decimal :
  int_dec "1.5" = None /\
  float_dec "1.5" = Some 1.5%float /\
  Visualize.level_int int_dec "1.5" = Raise ValueError /\
  AnalyzeCompression.level_int int_dec float_dec "1.5" = Ok (LFloat 1.5).
Proof. repeat split; vm_compute; reflexivity. Qed.

(** ** C7: efficiency *)

(** *** A time that is not negative, plus 0.001, is not zero

    The sum of two binary64 numbers is their exact sum rounded; the
    rounding of a positive number shifts its mantissa right by fewer
    bits than it has, so the result is a positive number or the
    positive infinity, never zero. *)

Section SmoothedTime.

Local Open Scope Z_scope.

Lemma digits2_pos_le (p : positive) :
  2 ^ (Z.pos (digits2_pos p) - 1) <= Z.pos p.
Proof.
  induction p as [p IH|p IH|]; simpl digits2_pos.
  - rewrite Pos2Z.inj_succ.
    replace (Z.succ (Z.pos (digits2_pos p)) - 1)
      with (Z.succ (Z.pos (digits2_pos p) - 1)) by lia.
    rewrite Z.pow_succ_r by lia. lia.
  - rewrite Pos2Z.inj_succ.
    replace (Z.succ (Z.pos (digits2_pos p)) - 1)
      with (Z.succ (Z.pos (digits2_pos p) - 1)) by lia.
    rewrite Z.pow_succ_r by lia. lia.
  - simpl. lia.
Qed.

Lemma shr_1_m (mrs : shr_record) :
  0 <= shr_m mrs -> shr_m (shr_1 mrs) = shr_m mrs / 2.
Proof.
  intros H. rewrite <- Z.div2_div.
  destruct mrs as [[|[p|p|]|p] r s]; simpl in *; try reflexivity; lia.
Qed.

Lemma iter_shr_1_m (p : positive) :
  forall mrs : shr_record,
    0 <= shr_m mrs ->
    shr_m (SpecFloat.iter_pos shr_1 p mrs) = shr_m mrs / 2 ^ Z.pos p.
Proof.
  induction p as [p IH|p IH|]; intros mrs H; simpl SpecFloat.iter_pos.
  - assert (0 <= shr_m (shr_1 mrs)) as H1
        by (rewrite shr_1_m by exact H; apply Z.div_pos; lia).
    assert (0 <= shr_m (SpecFloat.iter_pos shr_1 p (shr_1 mrs))) as H2
        by (rewrite IH by exact H1; apply Z.div_pos; lia).
    rewrite IH by exact H2. rewrite IH by exact H1.
    rewrite shr_1_m by exact H.
    rewrite !Z.div_div by lia.
    replace (Z.pos p~1) with (1 + Z.pos p + Z.pos p) by lia.
    rewrite !Z.pow_add_r by lia. rewrite Z.pow_1_r. f_equal. ring.
  - assert (0 <= shr_m (SpecFloat.iter_pos shr_1 p mrs)) as H2
        by (rewrite IH by exact H; apply Z.div_pos; lia).
    rewrite IH by exact H2. rewrite IH by exact H.
    rewrite !Z.div_div by lia.
    replace (Z.pos p~0) with (Z.pos p + Z.pos p) by lia.
    rewrite Z.pow_add_r by lia. reflexivity.
  - rewrite shr_1_m by exact H. reflexivity.
Qed.

Lemma shr_record_of_loc_m (m : Z) (l : location) :
  shr_m (shr_record_of_loc m l) = m.
Proof. destruct l as [|[]]; reflexivity. Qed.

Lemma shr_fexp_positive (m : positive) (e : Z) (l : location) :
  SpecFloat.emin prec emax <= e ->
  0 < shr_m (fst (SpecFloat.shr_fexp prec emax (Z.pos m) e l)) /\
  SpecFloat.emin prec emax <= snd (SpecFloat.shr_fexp prec emax (Z.pos m) e l).
Proof.
  intros He. unfold SpecFloat.shr_fexp, shr. simpl Zdigits2.
  destruct (SpecFloat.fexp prec emax (Z.pos (digits2_pos m) + e) - e) as [|n|n] eqn:En;
    simpl fst; simpl snd.
  - rewrite shr_record_of_loc_m. lia.
  - rewrite iter_shr_1_m by (rewrite shr_record_of_loc_m; lia).
    rewrite shr_record_of_loc_m. split; [|lia].
    apply Z.div_str_pos. split; [lia|].
    pose proof (digits2_pos_le m) as Hm.
    assert (Z.pos n <= Z.pos (digits2_pos m) - 1) as Hn
        by (unfold SpecFloat.fexp, SpecFloat.emin, prec, emax in *; lia).
    pose proof (Z.pow_le_mono_r 2 _ _ ltac:(lia) Hn). lia.
  - rewrite shr_record_of_loc_m. lia.
Qed.

Lemma round_nearest_even_positive (m : Z) (l : location) :
  0 < m -> 0 < round_nearest_even m l.
Proof.
  intros H. destruct l as [|[]]; simpl; try destruct (Z.even m); lia.
Qed.

Lemma binary_round_aux_positive (m : positive) (e : Z) (l : location) :
  SpecFloat.emin prec emax <= e ->
  above_zero (SpecFloat.binary_round_aux prec emax false (Z.pos m) e l) = true.
Proof.
  intros He. unfold SpecFloat.binary_round_aux.
  destruct (shr_fexp_positive m e l He) as [Hm He'].
  destruct (SpecFloat.shr_fexp prec emax (Z.pos m) e l) as [mrs' e'].
  simpl fst in Hm. simpl snd in He'.
  pose proof (round_nearest_even_positive _ (loc_of_shr_record mrs') Hm)
    as Hr.
  destruct (round_nearest_even (shr_m mrs') (loc_of_shr_record mrs'))
    as [|m'|m']; try lia.
  destruct (shr_fexp_positive m' e' loc_Exact He') as [Hm' _].
  destruct (SpecFloat.shr_fexp prec emax (Z.pos m') e' loc_Exact) as [mrs'' e''].
  simpl fst in Hm'.
  destruct (shr_m mrs''); try lia.
  destruct (e'' <=? emax - prec); reflexivity.
Qed.

Lemma binary_round_positive (m : positive) (e : Z) :
  SpecFloat.emin prec emax <= e ->
  above_zero (SpecFloat.binary_round prec emax false m e) = true.
Proof.
  intros He. unfold SpecFloat.binary_round, shl_align.
  destruct (SpecFloat.fexp prec emax (Z.pos (digits2_pos m) + e) - e) eqn:En;
    apply binary_round_aux_positive; try exact He.
  unfold SpecFloat.fexp. lia.
Qed.

Lemma valid_binary_emin (s : bool) (m : positive) (e : Z) :
  SpecFloat.valid_binary prec emax (S754_finite s m e) = true -> SpecFloat.emin prec emax <= e.
Proof.
  unfold SpecFloat.valid_binary, bounded, canonical_mantissa, SpecFloat.fexp,
    SpecFloat.emin, prec, emax.
  intros H. apply andb_prop in H. destruct H as [H _].
  apply Z.eqb_eq in H. lia.
Qed.

Lemma add_smoothing_nonzero (t : float) :
  PrimFloat.ltb t 0 = false -> PrimFloat.eqb (t + 0.001) 0 = false.
Proof.
  intros Ht. rewrite FloatAxioms.ltb_spec in Ht.
  rewrite FloatAxioms.eqb_spec, add_spec.
  pose proof (Prim2SF_valid t) as Hvalid.
  pose proof (Prim2SF_valid 0.001) as Hvalid'.
  change (Prim2SF 0) with (S754_zero false) in *.
  assert (above_zero (SF64add (Prim2SF t) (Prim2SF 0.001)) = true \/
          SF64add (Prim2SF t) (Prim2SF 0.001) = S754_nan) as H.
  { remember (Prim2SF 0.001) as c eqn:Ec. vm_compute in Ec.
    destruct c as [| | |[|] mc ec]; try discriminate Ec. clear Ec.
    destruct (Prim2SF t) as [s|[|]| |[|] m e];
      try (simpl in Ht; discriminate Ht);
      try (left; reflexivity); try (right; reflexivity).
    left. unfold SF64add, SFadd. simpl cond_Zopp.
    apply valid_binary_emin in Hvalid, Hvalid'.
    apply (binary_round_positive _ (Z.min e ec)). lia. }
  destruct H as [H| ->]; [|reflexivity].
  destruct (SF64add (Prim2SF t) (Prim2SF 0.001)) as [|[|]| |[|]];
    try discriminate H; reflexivity.
Qed.

End SmoothedTime.

Lemma efficiency_items (ratios times effs : list float) :
  forM (fun '(ratio, time) => truediv ratio (time + 0.001)%float)
       (zip ratios times) = Ok effs ->
  forall i ratio time,
    ratios !! i = Some ratio -> times !! i = Some time ->
    effs !! i = Some (ratio / (time + 0.001))%float.
Proof.
  intros H. apply forM_Forall2 in H. intros i ratio time Hr Ht.
  assert (zip ratios times !! i = Some (ratio, time)) as Hz.
  { rewrite lookup_zip_with. rewrite Hr, Ht. reflexivity. }
  destruct (Forall2_lookup_l _ _ _ _ _ H Hz) as (e & He & Hdiv).
  rewrite He. simpl in Hdiv. unfold truediv in Hdiv.
  destruct (PrimFloat.eqb (time + 0.001) 0); [discriminate|].
  ok_inv Hdiv. reflexivity.
Qed.

(** The comprehension of plot_compression_efficiency returns, and
    returns the quotients, when no time plus 0.001 is zero. *)
Lemma efficiency_total (ratios times : list float) :
  Forall (fun time => PrimFloat.eqb (time + 0.001) 0 = false) times ->
  forM (fun '(ratio, time) => truediv ratio (time + 0.001)%float)
       (zip ratios times)
  = Ok (zip_with (fun ratio time => ratio / (time + 0.001))%float
                 ratios times).
Proof.
  intros H. revert ratios.
  induction H as [|time times Htime _ IH]; intros [|ratio ratios];
    try reflexivity.
  simpl. unfold truediv at 1. rewrite Htime. simpl.
  rewrite (IH ratios). reflexivity.
Qed.

(** The guard is needed: a time of -0.001, which [parse_time] returns
    for "0:-0.001", makes the divisor zero. *)
Lemma efficiency_raises_below_zero (s : Series) :
  compression_ratio s = [4.0%float] ->
  compression_time s = [(-0.001)%float] ->
  AnalyzeCompression.efficiency s = Raise ZeroDivisionError /\
  Visualize.efficiency s = Raise ZeroDivisionError.
Proof.
  intros Hr Ht. unfold AnalyzeCompression.efficiency, Visualize.efficiency.
  rewrite Hr, Ht. split; vm_compute; reflexivity.
Qed.

(** C7.  In plot_compression_efficiency of analyze_compression.py and of
    visualize.py, the comprehension raises nothing and derives one
    efficiency for every record, the float quotient of the record's
    compression ratio by its compression time plus 0.001, on every
    series in which no compression time plus 0.001 is zero; such are
    the series none of whose compression times is negative.  Whenever
    the comprehension returns, on any series, its items are these
    quotients.  For ratio 4.0 and time 0.0 the efficiency is 4000.0
    exactly, and the division does not raise. *)
Theorem efficiency_is_ratio_over_smoothed_time :
  (forall metrics : Series,
      Forall (fun time => PrimFloat.eqb (time + 0.001) 0 = false)
             (compression_time metrics) ->
      AnalyzeCompression.efficiency metrics
      = Ok (zip_with (fun ratio time => ratio / (time + 0.001))%float
                     (compression_ratio metrics) (compression_time metrics)) /\
      Visualize.efficiency metrics
      = Ok (zip_with (fun ratio time => ratio / (time + 0.001))%float
                     (compression_ratio metrics) (compression_time metrics))) /\
  (forall metrics : Series,
      Forall (fun time => PrimFloat.ltb time 0 = false)
             (compression_time metrics) ->
      AnalyzeCompression.efficiency metrics
      = Ok (zip_with (fun ratio time => ratio / (time + 0.001))%float
                     (compression_ratio metrics) (compression_time metrics)) /\
      Visualize.efficiency metrics
      = Ok (zip_with (fun ratio time => ratio / (time + 0.001))%float
                     (compression_ratio metrics) (compression_time metrics))) /\
  (forall (metrics : Series) (effs : list float),
      AnalyzeCompression.efficiency metrics = Ok effs \/
      Visualize.efficiency metrics = Ok effs ->
      forall i ratio time,
        compression_ratio metrics !! i = Some ratio ->
        compression_time metrics !! i = Some time ->
        effs !! i = Some (ratio / (time + 0.001))%float) /\
  (forall s : Series,
      compression_ratio s = [4.0%float] ->
      compression_time s = [0.0%float] ->
      AnalyzeCompression.efficiency s = Ok [4000.0%float] /\
      Visualize.efficiency s = Ok [4000.0%float]) /\
  (4.0 / 0.001 = 4000.0)%float.
Proof.
  assert (forall metrics : Series,
             Forall (fun time => PrimFloat.eqb (time + 0.001) 0 = false)
                    (compression_time metrics) ->
             AnalyzeCompression.efficiency metrics
             = Ok (zip_with (fun ratio time => ratio / (time + 0.001))%float
                            (compression_ratio metrics)
                            (compression_time metrics)) /\
             Visualize.efficiency metrics
             = Ok (zip_with (fun ratio time => ratio / (time + 0.001))%float
                            (compression_ratio metrics)
                            (compression_time metrics))) as Hguard.
  { intros metrics H.
    unfold AnalyzeCompression.efficiency, Visualize.efficiency.
    rewrite (efficiency_total _ _ H). split; reflexivity. }
  split; [exact Hguard|]. split; [|split; [|split]].
  - intros metrics H. apply Hguard.
    eapply Forall_impl; [exact H|]. apply add_smoothing_nonzero.
  - intros metrics effs [H|H]; eapply efficiency_items; exact H.
  - intros s Hr Ht.
    unfold AnalyzeCompression.efficiency, Visualize.efficiency.
    rewrite Hr, Ht. split; vm_compute; reflexivity.
  - reflexivity.
Qed.

(** ** C9: the percentage saved *)

Lemma at_index_Ok {A} (l : list A) (i : nat) (x : A) :
  AnalyzeCompression.at_index l i = Ok x <-> l !! i = Some x.
Proof. apply or_raise_Ok. Qed.

(** The record of a series at a position of its lists. *)
Lemma records_lookup (s : Series) (n i : nat) :
  lengths s n -> i < n ->
  exists level ratio percentage ctime dtime size memory,
    compression_levels s !! i = Some level /\
    compression_ratio s !! i = Some ratio /\
    compressed_percentage s !! i = Some percentage /\
    compression_time s !! i = Some ctime /\
    decompression_time s !! i = Some dtime /\
    compressed_size s !! i = Some size /\
    memory_usage s !! i = Some memory /\
    records s !! i
    = Some (level, (ratio, (percentage, (ctime, (dtime, (size, memory)))))).
Proof.
  intros (H1 & H2 & H3 & H4 & H5 & H6 & H7) Hi.
  destruct (lookup_lt_is_Some_2 (compression_levels s) i) as [level Hl];
    [lia|].
  destruct (lookup_lt_is_Some_2 (compression_ratio s) i) as [ratio Hr];
    [lia|].
  destruct (lookup_lt_is_Some_2 (compressed_percentage s) i)
    as [percentage Hp]; [lia|].
  destruct (lookup_lt_is_Some_2 (compression_time s) i) as [ctime Hc];
    [lia|].
  destruct (lookup_lt_is_Some_2 (decompression_time s) i) as [dtime Hd];
    [lia|].
  destruct (lookup_lt_is_Some_2 (compressed_size s) i) as [size Hs]; [lia|].
  destruct (lookup_lt_is_Some_2 (memory_usage s) i) as [memory Hm]; [lia|].
  exists level, ratio, percentage, ctime, dtime, size, memory.
  repeat (split; [assumption|]).
  unfold records. rewrite !lookup_zip_with.
  rewrite Hl, Hr, Hp, Hc, Hd, Hs, Hm. reflexivity.
Qed.

Lemma detail_rows_records (s : Series) (n : nat) :
  lengths s n ->
  AnalyzeCompression.detail_rows s = Ok (map row_of (records s)).
Proof.
  intros Hlen. unfold AnalyzeCompression.detail_rows. apply forM_Forall2.
  apply Forall2_same_length_lookup_2.
  - rewrite length_map, (lengths_records _ _ Hlen), length_zip, length_seq.
    destruct Hlen as [H1 _]. lia.
  - intros i [j level] row Hzip Hrow.
    change (map row_of (records s)) with (row_of <$> records s) in Hrow.
    rewrite list_lookup_fmap in Hrow.
    destruct (records s !! i) as [record|] eqn:Erecord; [|discriminate].
    simpl in Hrow. ok_inv Hrow. unfold records in Erecord.
    apply lookup_zip_with_Some in Hzip.
    destruct Hzip as (j' & level' & Hpair & Hj & Hlevel). ok_inv Hpair.
    apply lookup_seq in Hj. destruct Hj as [-> _]. simpl.
    apply lookup_zip_with_Some in Erecord.
    destruct Erecord as (k & r1 & -> & Hk & Erecord).
    apply lookup_zip_with_Some in Erecord.
    destruct Erecord as (ratio & r2 & -> & Hratio & Erecord).
    apply lookup_zip_with_Some in Erecord.
    destruct Erecord as (percentage & r3 & -> & Hpercentage & Erecord).
    apply lookup_zip_with_Some in Erecord.
    destruct Erecord as (ctime & r4 & -> & Hctime & Erecord).
    apply lookup_zip_with_Some in Erecord.
    destruct Erecord as (dtime & r5 & -> & Hdtime & Erecord).
    apply lookup_zip_with_Some in Erecord.
    destruct Erecord as (size & memory & -> & Hsize & Hmemory).
    unfold AnalyzeCompression.detail_row, AnalyzeCompression.at_index.
    rewrite Hratio, Hsize, Hpercentage, Hctime, Hdtime, Hmemory. simpl.
    rewrite Hk in Hlevel. ok_inv Hlevel. reflexivity.
Qed.

(** C9.  On a series whose seven lists have one length, the detailed
    table of generate_summary_table raises nothing and has one row for
    every record, in the order of the series, and the percentage the
    row shows is 100 minus the record's compressed percentage.  On such
    a series the row of the overview table of visualize.py is read at
    the position [np.argmax] returns, which is a position of the series,
    and shows 100 minus the compressed percentage at that position.
    For a compressed percentage of 30.0 both show 70.0. *)
Theorem percent_saved_is_complement :
  (forall (metrics : Series) (n : nat),
      lengths metrics n ->
      exists rows,
        AnalyzeCompression.detail_rows metrics = Ok rows /\
        length rows = n /\
        forall i percentage,
          compressed_percentage metrics !! i = Some percentage ->
          exists row,
            rows !! i = Some row /\
            AnalyzeCompression.row_percent_saved row
            = (100 - percentage)%float) /\
  (forall (argmax : list float -> nat) (data : Series) (n : nat),
      lengths data n ->
      argmax (compression_ratio data) < n ->
      exists row percentage,
        Visualize.overview_row argmax data = Ok row /\
        compressed_percentage data !! argmax (compression_ratio data)
        = Some percentage /\
        Visualize.perc row = (100 - percentage)%float) /\
  (exists row,
      AnalyzeCompression.detail_rows thirty_percent_series = Ok [row] /\
      AnalyzeCompression.row_percent_saved row = 70.0%float) /\
  (forall argmax : list float -> nat,
      argmax (compression_ratio thirty_percent_series) = 0 ->
      exists row,
        Visualize.overview_row argmax thirty_percent_series = Ok row /\
        Visualize.perc row = 70.0%float) /\
  (100 - 30.0 = 70.0)%float.
Proof.
  split; [|split; [|split; [|split]]].
  - intros metrics n Hlen. exists (map row_of (records metrics)).
    split; [apply (detail_rows_records _ _ Hlen)|].
    split; [rewrite length_map; apply (lengths_records _ _ Hlen)|].
    intros i percentage Hp.
    assert (i < n) as Hi.
    { apply lookup_lt_Some in Hp. destruct Hlen as (_ & _ & H3 & _). lia. }
    destruct (records_lookup _ _ _ Hlen Hi)
      as (level & ratio & percentage' & ctime & dtime & size & memory
          & _ & _ & Hp' & _ & _ & _ & _ & Hrecord).
    rewrite Hp in Hp'. injection Hp' as <-.
    eexists. split.
    + change (map row_of (records metrics))
        with (row_of <$> records metrics).
      rewrite list_lookup_fmap, Hrecord. reflexivity.
    + reflexivity.
  - intros argmax data n Hlen Hi.
    destruct (records_lookup _ _ _ Hlen Hi)
      as (level & ratio & percentage & ctime & dtime & size & memory
          & Hl & Hr & Hp & Hc & Hd & Hs & Hm & _).
    eexists. exists percentage. split; [|split; [exact Hp|]].
    + unfold Visualize.overview_row, AnalyzeCompression.at_index.
      destruct (compression_ratio data) as [|r rs] eqn:E;
        [discriminate Hr|].
      cbn [bind]. rewrite Hl, Hr, Hp, Hc, Hd, Hm. reflexivity.
    + reflexivity.
  - eexists. split; [vm_compute; reflexivity|reflexivity].
  - intros argmax Hmax. unfold Visualize.overview_row.
    rewrite Hmax. eexists. split; [vm_compute; reflexivity|reflexivity].
  - reflexivity.
Qed.

(** ** The order of floats

    [x <? y] on binary64 numbers is a strict order that leaves NaN
    unrelated to everything: it is the order of the ranks. *)

Lemma SFltb_rank (x y : spec_float) :
  SFltb x y = true <-> rank_lt (sf_rank x) (sf_rank y).
Proof.
  unfold SFltb.
  destruct x as [sx|sx| |sx mx ex], y as [sy|sy| |sy my ey]; simpl;
    try destruct sx; try destruct sy; simpl;
    try (split; [discriminate | lia]);
    try (split; [lia | reflexivity]);
    try (split; [intros _; lia | reflexivity]).
  - destruct (Z.compare_spec ex ey) as [->|H|H]; simpl.
    + change (Pos.compare_cont Eq mx my) with (Pos.compare mx my).
      destruct (Pos.compare_spec mx my) as [->|H|H]; simpl;
        split; intros; try discriminate; try reflexivity; lia.
    + split; intros; try discriminate; lia.
    + split; intros; try reflexivity; lia.
  - destruct (Z.compare_spec ex ey) as [->|H|H]; simpl.
    + change (Pos.compare_cont Eq mx my) with (Pos.compare mx my).
      destruct (Pos.compare_spec mx my) as [->|H|H]; simpl;
        split; intros; try discriminate; try reflexivity; lia.
    + split; intros; try reflexivity; lia.
    + split; intros; try discriminate; lia.
Qed.

Lemma ltb_rank (x y : float) :
  PrimFloat.ltb x y = true <-> rank_lt (float_rank x) (float_rank y).
Proof. rewrite ltb_spec. apply SFltb_rank. Qed.

Lemma ltb_false_rank (x y : float) :
  PrimFloat.ltb x y = false <-> ~ rank_lt (float_rank x) (float_rank y).
Proof.
  rewrite <- ltb_rank. destruct (PrimFloat.ltb x y); split; intros H;
    congruence.
Qed.

Lemma float_ltb_irrefl (x : float) : PrimFloat.ltb x x = false.
Proof.
  apply ltb_false_rank. unfold rank_lt.
  destruct (float_rank x) as [[[? ?] ?]|]; lia.
Qed.

Lemma float_ltb_trans (x y z : float) :
  PrimFloat.ltb x y = true -> PrimFloat.ltb y z = true ->
  PrimFloat.ltb x z = true.
Proof.
  rewrite !ltb_rank. unfold rank_lt.
  destruct (float_rank x) as [[[? ?] ?]|], (float_rank y) as [[[? ?] ?]|],
           (float_rank z) as [[[? ?] ?]|]; lia.
Qed.

(** Below a number that is not NaN: "not less" composes. *)
Lemma float_not_ltb_trans (t m v : float) :
  PrimFloat.ltb 0 m = true ->
  PrimFloat.ltb t m = false -> PrimFloat.ltb m v = false ->
  PrimFloat.ltb t v = false.
Proof.
  rewrite ltb_rank, !ltb_false_rank. unfold rank_lt.
  destruct (float_rank 0) as [[[? ?] ?]|], (float_rank t) as [[[? ?] ?]|],
           (float_rank m) as [[[? ?] ?]|], (float_rank v) as [[[? ?] ?]|];
    lia.
Qed.

(** ** min on floats *)

Lemma min_from_In (x : float) (l : list float) : In (min_from x l) (x :: l).
Proof.
  unfold min_from. revert x. induction l as [|y l IH]; intros x; simpl.
  - left. reflexivity.
  - destruct (IH (if PrimFloat.ltb y x then y else x)) as [H|H].
    + destruct (PrimFloat.ltb y x); rewrite <- H; auto.
    + right. right. exact H.
Qed.

Lemma min_from_not_above (x : float) (l : list float) :
  (forall t, In t (x :: l) -> PrimFloat.ltb t (min_from x l) = false) /\
  (PrimFloat.ltb (min_from x l) x = true \/ min_from x l = x).
Proof.
  unfold min_from. revert x. induction l as [|y l IH]; intros x; simpl.
  - split; [|right; reflexivity].
    intros t [<-|[]]. apply float_ltb_irrefl.
  - destruct (IH (if PrimFloat.ltb y x then y else x)) as [Hall Hcur].
    set (m := fold_left _ l _) in *.
    destruct (PrimFloat.ltb y x) eqn:Eyx.
    + assert (PrimFloat.ltb m x = true) as Hmx.
      { destruct Hcur as [Hcur|Hcur].
        - eapply float_ltb_trans; eassumption.
        - rewrite Hcur. exact Eyx. }
      split; [|left; exact Hmx].
      intros t [<-|Ht]; [|apply Hall; exact Ht].
      destruct (PrimFloat.ltb x m) eqn:Exm; [|reflexivity].
      pose proof (float_ltb_trans _ _ _ Exm Hmx) as Hxx.
      rewrite float_ltb_irrefl in Hxx. discriminate.
    + split; [|exact Hcur].
      intros t [Ht|[<-|Ht]].
      * apply Hall. left. exact Ht.
      * destruct Hcur as [Hcur|Hcur].
        -- destruct (PrimFloat.ltb y m) eqn:Eym; [|reflexivity].
           pose proof (float_ltb_trans _ _ _ Eym Hcur). congruence.
        -- rewrite Hcur. exact Eyx.
      * apply Hall. right. exact Ht.
Qed.

Lemma pymin_spec (l : list float) (m : float) :
  pymin l = Ok m ->
  In m l /\ forall t, In t l -> PrimFloat.ltb t m = false.
Proof.
  destruct l as [|x l]; simpl; [discriminate|].
  intros H. ok_inv H. split.
  - apply min_from_In.
  - apply min_from_not_above.
Qed.

(** ** C2 and C3: the fastest times *)

(** The minima line 301 keeps: those of the algorithms whose minimum is
    positive. *)
Lemma positive_minima_spec (field : Series -> list float)
      (algorithms : list Series) (ms : list float) :
  AnalyzeCompression.positive_minima field algorithms = Ok ms ->
  forall m, In m ms <->
            exists alg, In alg algorithms /\
                        pymin (field alg) = Ok m /\
                        PrimFloat.ltb 0 m = true.
Proof.
  revert ms. induction algorithms as [|alg rest IH]; intros ms H m;
    simpl in H.
  - ok_inv H. split; [intros []|intros (alg & [] & _)].
  - bind_inv H. destruct (PrimFloat.ltb 0 x) eqn:Epos.
    + rewrite Hx in H. simpl in H. bind_inv H. ok_inv H.
      specialize (IH _ Hx0 m). split.
      * intros [<-|Hm].
        -- exists alg. split; [left; reflexivity|]. auto.
        -- apply IH in Hm. destruct Hm as (alg' & Hin & Hmin).
           exists alg'. split; [right; exact Hin|exact Hmin].
      * intros (alg' & [<-|Hin] & Hmin & Hpos).
        -- left. congruence.
        -- right. apply IH. exists alg'. auto.
    + specialize (IH _ H m). rewrite IH. split.
      * intros (alg' & Hin & Hmin). exists alg'. split; [right|]; auto.
      * intros (alg' & [<-|Hin] & Hmin & Hpos).
        -- congruence.
        -- exists alg'. auto.
Qed.

(** What generate_summary_table of analyze_compression.py computes as
    the fastest time of a file: a positive duration, the minimum of an
    algorithm that is kept, and not above any duration of any algorithm
    that is kept; an algorithm is kept when its own minimum is
    positive, so a series whose minimum is 0.0 takes no part. *)
Lemma analyze_best_time_spec (field : Series -> list float)
      (algorithms : dict Series) (v : float) :
  AnalyzeCompression.best_time field algorithms = Ok v ->
  PrimFloat.ltb 0 v = true /\
  (exists alg, In alg (values algorithms) /\ pymin (field alg) = Ok v /\
               In v (field alg)) /\
  (forall alg m t,
      In alg (values algorithms) -> pymin (field alg) = Ok m ->
      PrimFloat.ltb 0 m = true -> In t (field alg) ->
      PrimFloat.ltb t v = false).
Proof.
  unfold AnalyzeCompression.best_time. intros H. bind_inv H.
  pose proof (positive_minima_spec _ _ _ Hx) as Hms.
  apply pymin_spec in H. destruct H as [Hv Hleast].
  destruct (proj1 (Hms v) Hv) as (alg & Hin & Hmin & Hpos).
  split; [exact Hpos|]. split.
  - exists alg. split; [exact Hin|]. split; [exact Hmin|].
    apply pymin_spec in Hmin. tauto.
  - intros alg' m t Hin' Hmin' Hpos' Ht.
    assert (In m x) as Hm by (apply Hms; exists alg'; auto).
    apply pymin_spec in Hmin'. destruct Hmin' as [_ Hleast'].
    eapply float_not_ltb_trans; [exact Hpos'|apply Hleast'|apply Hleast];
      assumption.
Qed.

Lemma forM_Raise_ValueError {A B} (f : A -> result B) (l : list A) (e : exn) :
  (forall x e, f x = Raise e -> e = ValueError) ->
  forM f l = Raise e -> e = ValueError.
Proof.
  intros Hf. induction l as [|x l IH]; simpl; [discriminate|].
  destruct (f x) as [y|e'] eqn:Ex; simpl.
  - destruct (forM f l) as [ys|e'']; simpl; [discriminate|].
    intros H. injection H as <-. apply IH. reflexivity.
  - intros H. injection H as <-. eapply Hf. exact Ex.
Qed.

Lemma pymax_Raise (l : list float) (e : exn) :
  pymax l = Raise e -> e = ValueError.
Proof. destruct l; simpl; congruence. Qed.

Lemma pymin_Raise (l : list float) (e : exn) :
  pymin l = Raise e -> e = ValueError.
Proof. destruct l; simpl; congruence. Qed.

Lemma min_from_zeros (l : list float) :
  Forall (fun t => t = 0%float) l -> min_from 0 l = 0%float.
Proof.
  unfold min_from. induction 1 as [|t l -> _ IH]; simpl; [reflexivity|].
  exact IH.
Qed.

Lemma positive_minima_zeros (field : Series -> list float)
      (algorithms : list Series) :
  Forall (fun alg => Forall (fun t => t = 0%float) (field alg)) algorithms ->
  AnalyzeCompression.positive_minima field algorithms = Ok [] \/
  AnalyzeCompression.positive_minima field algorithms = Raise ValueError.
Proof.
  induction 1 as [|alg rest Hzero _ IH]; simpl; [left; reflexivity|].
  destruct (field alg) as [|t times]; simpl; [right; reflexivity|].
  inversion Hzero as [|? ? -> Hrest]; subst.
  rewrite (min_from_zeros _ Hrest). simpl. exact IH.
Qed.

Lemma best_time_zeros (field : Series -> list float)
      (algorithms : dict Series) :
  Forall (fun alg => Forall (fun t => t = 0%float) (field alg))
         (values algorithms) ->
  AnalyzeCompression.best_time field algorithms = Raise ValueError.
Proof.
  intros H. unfold AnalyzeCompression.best_time.
  destruct (positive_minima_zeros field _ H) as [-> | ->]; reflexivity.
Qed.

Lemma best_time_Raise (field : Series -> list float)
      (algorithms : dict Series) (e : exn) :
  AnalyzeCompression.best_time field algorithms = Raise e -> e = ValueError.
Proof.
  unfold AnalyzeCompression.best_time.
  generalize (values algorithms). intros algs.
  destruct (AnalyzeCompression.positive_minima field algs) as [ms|e'] eqn:E;
    simpl.
  - apply pymin_Raise.
  - intros H. injection H as <-. revert e' E.
    induction algs as [|alg rest IH]; intros e' E; simpl in E;
      [discriminate|].
    destruct (pymin (field alg)) as [m|e''] eqn:Em; simpl in E.
    + destruct (PrimFloat.ltb 0 m).
      * simpl in E.
        destruct (AnalyzeCompression.positive_minima field rest); simpl in E;
          [discriminate|].
        injection E as <-. eapply IH. reflexivity.
      * eapply IH. exact E.
    + injection E as <-. eapply pymin_Raise. exact Em.
Qed.

(** C2 at visualize_json.py: with algorithm A at durations [0.0, 0.0]
    and algorithm B at [0.5, 0.3], the first pass of create_html_summary
    leaves 0.0 (from A) as the fastest compression, where
    generate_summary_table of analyze_compression.py gives 0.3 (from
    B). *)
Theorem html_summary_fastest_is_zero :
  (exists best,
      VisualizeJson.best_values
        [("A", two_level_jseries [0.0; 0.0]%float);
         ("B", two_level_jseries [0.5; 0.3]%float)] = Ok best /\
      VisualizeJson.best_comp_time best = 0.0%float) /\
  (exists best,
      AnalyzeCompression.best_values
        [("A", two_level_series [0.0; 0.0]%float);
         ("B", two_level_series [0.5; 0.3]%float)] = Ok best /\
      AnalyzeCompression.best_comp_time best = 0.3%float).
Proof.
  split; eexists; (split; [vm_compute; reflexivity|reflexivity]).
Qed.

(** C3 at analyze_compression.py: when every compression time of a
    file is zero, or every decompression time is, the computation of the
    best values raises ValueError ([min] of an empty sequence): no
    summary is produced. *)
Theorem best_values_without_positive_time_raise (algorithms : dict Series) :
  Forall (fun alg => Forall (fun t => t = 0%float) (compression_time alg))
         (values algorithms) \/
  Forall (fun alg => Forall (fun t => t = 0%float) (decompression_time alg))
         (values algorithms) ->
  AnalyzeCompression.best_values algorithms = Raise ValueError.
Proof.
  intros H. unfold AnalyzeCompression.best_values.
  destruct (forM _ (values algorithms)) as [ratio_maxima|e] eqn:Eratios;
    simpl.
  2:{ f_equal. eapply forM_Raise_ValueError; [|exact Eratios].
      intros alg e'. apply pymax_Raise. }
  destruct (pymax ratio_maxima) as [best_ratio|e] eqn:Eratio; simpl.
  2:{ f_equal. eapply pymax_Raise. exact Eratio. }
  destruct H as [H|H].
  - rewrite (best_time_zeros _ _ H). reflexivity.
  - destruct (AnalyzeCompression.best_time compression_time algorithms)
      as [best_comp|e] eqn:Ecomp; simpl.
    + rewrite (best_time_zeros _ _ H). reflexivity.
    + f_equal. eapply best_time_Raise. exact Ecomp.
Qed.

(** The theorem at a file whose only algorithm has durations
    [0.0, 0.0]. *)
Lemma best_values_without_positive_time_raise_witness :
  AnalyzeCompression.best_values
    [("A", two_level_series [0.0; 0.0]%float)] = Raise ValueError.
Proof.
  apply best_values_without_positive_time_raise.
  left. repeat constructor.
Defined.

(** ** C5: the original size *)

Lemma foldM_map {A B S} (f : S -> B -> result S) (h : A -> B) (l : list A)
      (s : S) :
  foldM f (map h l) s = foldM (fun s x => f s (h x)) l s.
Proof.
  revert s. induction l as [|x l IH]; intros s; simpl; [reflexivity|].
  destruct (f s (h x)); simpl; [apply IH|reflexivity].
Qed.

Section ChangeLaterSizes.

Variable py_int : string -> option Z.
Variable py_float : string -> option float.
Variable argsort : list level_key -> list nat.
Variable g : Z -> Z -> Z.

Lemma analyze_add_levels_changed levels size s :
  foldM (AnalyzeCompression.add_level py_int py_float)
        (map (fun '(level, metrics) =>
                (level,
                 with_original_size
                   (g size (originalSize (compression metrics))) metrics))
             levels) s
  = foldM (AnalyzeCompression.add_level py_int py_float) levels s.
Proof.
  rewrite foldM_map. apply foldM_ext. intros s0 [level metrics] _.
  reflexivity.
Qed.

Lemma analyze_add_algorithm_changed file_results algorithm levels :
  AnalyzeCompression.add_algorithm py_int py_float file_results
    (algorithm, change_later_sizes g levels)
  = AnalyzeCompression.add_algorithm py_int py_float file_results
      (algorithm, levels).
Proof.
  unfold AnalyzeCompression.add_algorithm.
  destruct levels as [|[first_level first] later]; [reflexivity|].
  destruct (dict_item algorithm _) as [s|e]; [|reflexivity].
  cbn [bind change_later_sizes].
  replace (AnalyzeCompression.record_original_size
             s ((first_level, first) :: map _ later))
    with (AnalyzeCompression.record_original_size
            s ((first_level, first) :: later)).
  2:{ unfold AnalyzeCompression.record_original_size.
      destruct (original_size s); [reflexivity|].
      unfold dict_item. simpl. rewrite String.eqb_refl. reflexivity. }
  destruct (AnalyzeCompression.record_original_size _ _) as [s1|e];
    [|reflexivity].
  cbn [bind foldM].
  destruct (AnalyzeCompression.add_level py_int py_float s1
                                         (first_level, first)) as [s2|e];
    [|reflexivity].
  cbn [bind]. rewrite analyze_add_levels_changed. reflexivity.
Qed.

Lemma analyze_collect_changed json_data :
  AnalyzeCompression.collect py_int py_float (change_later_sizes_in g json_data)
  = AnalyzeCompression.collect py_int py_float json_data.
Proof.
  unfold AnalyzeCompression.collect, change_later_sizes_in.
  rewrite foldM_map. apply foldM_ext. intros results file_data _.
  rewrite foldM_map. apply foldM_ext. clear results.
  intros results [filename algorithms] _.
  unfold AnalyzeCompression.add_file.
  destruct (dict_item filename _) as [file_results|e]; [|reflexivity].
  cbn [bind]. rewrite foldM_map.
  erewrite foldM_ext; [reflexivity|].
  intros file_results' [algorithm levels] _.
  apply analyze_add_algorithm_changed.
Qed.

Lemma json_add_algorithm_changed test_results algorithm levels :
  VisualizeJson.add_algorithm py_int py_float argsort test_results
    (algorithm, change_later_sizes g levels)
  = VisualizeJson.add_algorithm py_int py_float argsort test_results
      (algorithm, levels).
Proof.
  unfold VisualizeJson.add_algorithm.
  destruct levels as [|[first_level first] later]; [reflexivity|].
  cbn [bind change_later_sizes values map snd foldM].
  destruct (VisualizeJson.add_level py_int py_float _ (first_level, first))
    as [s|e]; [|reflexivity].
  cbn [bind]. rewrite foldM_map.
  erewrite foldM_ext; [reflexivity|].
  intros s0 [level metrics] _. reflexivity.
Qed.

Lemma json_process_data_changed json_data :
  VisualizeJson.process_data py_int py_float argsort
                             (change_later_sizes_in g json_data)
  = VisualizeJson.process_data py_int py_float argsort json_data.
Proof.
  unfold VisualizeJson.process_data, change_later_sizes_in.
  rewrite foldM_map. apply foldM_ext. intros results test_data _.
  rewrite foldM_map. apply foldM_ext. clear results.
  intros results [test_name algorithms] _.
  unfold VisualizeJson.add_test.
  destruct (dict_item test_name _) as [test_results|e]; [|reflexivity].
  cbn [bind]. rewrite foldM_map.
  erewrite foldM_ext; [reflexivity|].
  intros test_results' [algorithm levels] _.
  apply json_add_algorithm_changed.
Qed.

End ChangeLaterSizes.

(** C5, amended.  Neither [extract_data] of analyze_compression.py nor
    [process_data] of visualize_json.py looks at the original size of a
    level after the first of its object: whatever those levels report,
    the outcome is the same, so a mismatch is not flagged.
    [extract_data] records for every series the original size of the
    first level entry met for its (file, algorithm) pair and keeps
    it. *)
Theorem original_size_is_first_seen
        (py_int : string -> option Z) (py_float : string -> option float)
        (argsort : list level_key -> list nat) (json_data : JsonData) :
  (forall g,
      AnalyzeCompression.extract_data py_int py_float argsort
                                      (change_later_sizes_in g json_data)
      = AnalyzeCompression.extract_data py_int py_float argsort json_data) /\
  (forall g,
      VisualizeJson.process_data py_int py_float argsort
                                 (change_later_sizes_in g json_data)
      = VisualizeJson.process_data py_int py_float argsort json_data) /\
  (forall results filename algorithm s,
      AnalyzeCompression.extract_data py_int py_float argsort json_data
      = Ok results ->
      series_at filename algorithm results = Some s ->
      exists size,
        original_size s = Some size /\
        first_original_size (encountered filename algorithm json_data)
        = Some size).
Proof.
  split; [|split].
  - intros g. unfold AnalyzeCompression.extract_data.
    rewrite analyze_collect_changed. reflexivity.
  - intros g. apply json_process_data_changed.
  - intros results filename algorithm s H Hs.
    unfold AnalyzeCompression.extract_data in H. bind_inv H.
    destruct (series_at_sorted _ _ _ _ _ _ H Hs) as (s0 & Hs0 & Hsort).
    apply sort_series_records in Hsort. destruct Hsort as (_ & _ & ->).
    eapply collect_first_original_size; eassumption.
Qed.

(** C5 as stated fails: the second level of [mismatch_doc] reports
    2000 where the first reports 1000, and both normalisers return
    what they return for the agreeing document; the series keeps
    1000. *)
Lemma size_mismatch_not_surfaced :
  reported_sizes mismatch_doc = [1000; 2000]%Z /\
  reported_sizes (agreeing mismatch_doc) = [1000; 1000]%Z /\
  AnalyzeCompression.extract_data int_dec float_dec argsort_stable mismatch_doc
  = Ok [("fileA", [("zstd", scenario_series)])] /\
  ~ surfaces_mismatch
      (AnalyzeCompression.extract_data int_dec float_dec argsort_stable)
      mismatch_doc /\
  ~ surfaces_mismatch
      (VisualizeJson.process_data int_dec float_dec argsort_stable)
      mismatch_doc.
Proof.
  split; [reflexivity|]. split; [reflexivity|].
  split; [vm_compute; reflexivity|].
  unfold surfaces_mismatch.
  split; intros H; apply H; vm_compute; reflexivity.
Qed.

(** ** C10: the two normalisers *)

Lemma dict_get_app {V} (k : string) (d d' : dict V) :
  dict_get k (d ++ d') =
  match dict_get k d with
  | Some v => Some v
  | None => dict_get k d'
  end.
Proof.
  induction d as [|[k' v'] d IH]; simpl; [reflexivity|].
  destruct (String.eqb k k'); [reflexivity|exact IH].
Qed.

Lemma dict_set_fresh {V} (k : string) (v : V) (d : dict V) :
  dict_get k d = None -> dict_set k v d = d ++ [(k, v)].
Proof.
  induction d as [|[k' v'] d IH]; simpl; [reflexivity|].
  destruct (String.eqb k k'); [discriminate|].
  intros H. rewrite (IH H). reflexivity.
Qed.

Lemma dict_set_last {V} (k : string) (v v' : V) (d : dict V) :
  dict_get k d = None -> dict_set k v' (d ++ [(k, v)]) = d ++ [(k, v')].
Proof.
  induction d as [|[k0 v0] d IH]; simpl.
  - rewrite String.eqb_refl. reflexivity.
  - destruct (String.eqb k k0); [discriminate|].
    intros H. rewrite (IH H). reflexivity.
Qed.

Lemma dict_item_last {V} (k : string) (v : V) (d : dict V) :
  dict_get k d = None -> dict_item k (d ++ [(k, v)]) = Ok v.
Proof.
  intros H. unfold dict_item. rewrite dict_get_app, H. simpl.
  rewrite String.eqb_refl. reflexivity.
Qed.

Lemma foldM_concat {A S} (f : S -> A -> result S) (ls : list (list A))
      (s : S) :
  foldM (fun s l => foldM f l s) ls s = foldM f (concat ls) s.
Proof.
  revert s. induction ls as [|l ls IH]; intros s; simpl; [reflexivity|].
  rewrite foldM_app. destruct (foldM f l s); simpl; [apply IH|reflexivity].
Qed.

(** A loop over a dictionary whose every step appends a new key is a
    comprehension over its items. *)
Section FreshKeys.

Context {V X : Type}.
Variable step : dict V -> string * X -> result (dict V).
Variable g : X -> result V.
Variable ok : X -> Prop.

Hypothesis step_fresh :
  forall d k x,
    ok x -> dict_get k d = None ->
    step d (k, x) = (let* v := g x in Ok (d ++ [(k, v)])).

Lemma foldM_fresh (items : dict X) (d : dict V) :
  NoDup (keys items) ->
  Forall ok (values items) ->
  (forall k, In k (keys items) -> dict_get k d = None) ->
  foldM step items d
  = (let* new := forM (fun '(k, x) => let* v := g x in Ok (k, v)) items in
     Ok (d ++ new)).
Proof.
  revert d. induction items as [|[k x] items IH]; intros d Hnodup Hok Hfresh;
    simpl.
  - rewrite app_nil_r. reflexivity.
  - apply NoDup_cons in Hnodup. destruct Hnodup as [Hk Hnodup].
    inversion Hok as [|? ? Hx Hok']; subst.
    rewrite step_fresh; [|exact Hx|apply Hfresh; left; reflexivity].
    destruct (g x) as [v|e]; simpl; [|reflexivity].
    rewrite IH; [| assumption | assumption |].
    + destruct (forM _ items) as [new|e]; simpl; [|reflexivity].
      rewrite <- app_assoc. reflexivity.
    + intros k' Hk'. rewrite dict_get_app.
      rewrite (Hfresh k') by (right; exact Hk'). simpl.
      destruct (String.eqb k' k) eqn:E; [|reflexivity].
      apply String.eqb_eq in E. subst k'. exfalso. apply Hk.
      apply list_elem_of_In. exact Hk'.
Qed.

End FreshKeys.

Section TwoNormalisers.

Variable py_int : string -> option Z.
Variable py_float : string -> option float.
Variable argsort : list level_key -> list nat.

Lemma bind_Ok_nil_app {A} (m : result (list A)) :
  (let* new := m in Ok ([] ++ new)) = m.
Proof. destruct m; reflexivity. Qed.

Lemma analyze_add_algorithm_fresh file_results algorithm levels :
  dict_get algorithm file_results = None ->
  AnalyzeCompression.add_algorithm py_int py_float file_results
                                   (algorithm, levels)
  = (let* s := analyze_build py_int py_float levels in
     Ok (file_results ++ [(algorithm, s)])).
Proof.
  intros Hfresh. unfold AnalyzeCompression.add_algorithm, analyze_build.
  rewrite dict_item_ensure. unfold dict_mem. rewrite Hfresh. simpl.
  destruct (AnalyzeCompression.record_original_size new_series levels)
    as [s1|e]; simpl; [|reflexivity].
  destruct (foldM _ levels s1) as [s2|e]; simpl; [|reflexivity].
  rewrite (dict_set_fresh _ new_series _ Hfresh).
  rewrite (dict_set_last _ _ _ _ Hfresh). reflexivity.
Qed.

Lemma analyze_add_file_fresh results filename algorithms :
  NoDup (keys algorithms) ->
  dict_get filename results = None ->
  AnalyzeCompression.add_file py_int py_float results (filename, algorithms)
  = (let* file_results := analyze_algorithms py_int py_float algorithms in
     Ok (results ++ [(filename, file_results)])).
Proof.
  intros Hnodup Hfresh. unfold AnalyzeCompression.add_file, Results.
  rewrite dict_item_ensure. unfold dict_mem. rewrite Hfresh.
  cbn [bind].
  rewrite (foldM_fresh _ (analyze_build py_int py_float) (fun _ => True));
    [| intros d k x _; apply analyze_add_algorithm_fresh
     | exact Hnodup
     | apply Forall_forall; intros; exact I
     | reflexivity].
  rewrite bind_Ok_nil_app. unfold analyze_algorithms.
  destruct (forM _ algorithms) as [new|e]; simpl; [|reflexivity].
  rewrite (dict_set_fresh _ [] _ Hfresh).
  rewrite (dict_set_last _ _ _ _ Hfresh). reflexivity.
Qed.

Lemma json_add_algorithm_fresh test_results algorithm levels :
  dict_get algorithm test_results = None ->
  VisualizeJson.add_algorithm py_int py_float argsort test_results
                              (algorithm, levels)
  = (let* s := json_build py_int py_float argsort levels in
     Ok (test_results ++ [(algorithm, s)])).
Proof.
  intros Hfresh. unfold VisualizeJson.add_algorithm, json_build.
  destruct (values levels) as [|first_level rest]; simpl; [reflexivity|].
  destruct (foldM _ levels _) as [s|e]; simpl; [|reflexivity].
  destruct (VisualizeJson.sort_series argsort s) as [s'|e]; simpl;
    [|reflexivity].
  rewrite (dict_set_fresh _ _ _ Hfresh). reflexivity.
Qed.

Lemma json_add_test_fresh results test_name algorithms :
  NoDup (keys algorithms) ->
  dict_get test_name results = None ->
  VisualizeJson.add_test py_int py_float argsort results
                         (test_name, algorithms)
  = (let* test_results :=
       json_algorithms py_int py_float argsort algorithms in
     Ok (results ++ [(test_name, test_results)])).
Proof.
  intros Hnodup Hfresh. unfold VisualizeJson.add_test.
  rewrite (dict_set_fresh _ [] _ Hfresh).
  rewrite (dict_item_last _ _ _ Hfresh). cbn [bind].
  rewrite (foldM_fresh _ (json_build py_int py_float argsort) (fun _ => True));
    [| intros d k x _; apply json_add_algorithm_fresh
     | exact Hnodup
     | apply Forall_forall; intros; exact I
     | reflexivity].
  rewrite bind_Ok_nil_app. unfold json_algorithms.
  destruct (forM _ algorithms) as [new|e]; simpl; [|reflexivity].
  rewrite (dict_set_last _ _ _ _ Hfresh). reflexivity.
Qed.

(** On a document without repeated names, each normaliser is a nested
    comprehension over the files and their algorithms. *)
Lemma analyze_collect_comprehension json_data :
  distinct_files json_data -> distinct_algorithms json_data ->
  AnalyzeCompression.collect py_int py_float json_data
  = forM (fun '(f, algorithms) =>
            let* series := analyze_algorithms py_int py_float algorithms in
            Ok (f, series))
         (concat json_data).
Proof.
  intros Hfiles Halgs. unfold AnalyzeCompression.collect.
  rewrite foldM_concat.
  rewrite (foldM_fresh _ (analyze_algorithms py_int py_float)
                       (fun algorithms => NoDup (keys algorithms)));
    [| intros d k x Hx Hk; apply analyze_add_file_fresh; assumption
     | exact Hfiles | exact Halgs | reflexivity].
  apply bind_Ok_nil_app.
Qed.

Lemma json_process_data_comprehension json_data :
  distinct_files json_data -> distinct_algorithms json_data ->
  VisualizeJson.process_data py_int py_float argsort json_data
  = forM (fun '(f, algorithms) =>
            let* series := json_algorithms py_int py_float argsort algorithms in
            Ok (f, series))
         (concat json_data).
Proof.
  intros Hfiles Halgs. unfold VisualizeJson.process_data.
  rewrite foldM_concat.
  rewrite (foldM_fresh _ (json_algorithms py_int py_float argsort)
                       (fun algorithms => NoDup (keys algorithms)));
    [| intros d k x Hx Hk; apply json_add_test_fresh; assumption
     | exact Hfiles | exact Halgs | reflexivity].
  apply bind_Ok_nil_app.
Qed.

End TwoNormalisers.

Lemma reindex_map {A B} (h : A -> B) (l : list A) (indices : list nat)
      (ks : list B) :
  reindex (map h l) indices = Ok ks ->
  exists zs, reindex l indices = Ok zs /\ ks = map h zs.
Proof.
  rewrite reindex_Forall2. intros H.
  induction H as [|i k indices ks Hk _ (zs & Hzs & ->)].
  - exists []. split; reflexivity.
  - change (map h l) with (h <$> l) in Hk. rewrite list_lookup_fmap in Hk.
    destruct (l !! i) as [z|] eqn:Ez; [|discriminate]. simpl in Hk.
    injection Hk as <-. exists (z :: zs). split; [|reflexivity].
    unfold reindex in *. simpl. rewrite Ez. simpl. rewrite Hzs. reflexivity.
Qed.

Section Agreement.

Variable py_int : string -> option Z.
Variable py_float : string -> option float.
Variable argsort : list level_key -> list nat.

Lemma add_level_same s j level metrics s' :
  AnalyzeCompression.add_level py_int py_float s (level, metrics) = Ok s' ->
  py_int level <> None ->
  same_series s j ->
  exists j',
    VisualizeJson.add_level py_int py_float j (level, metrics) = Ok j' /\
    same_series s' j'.
Proof.
  unfold AnalyzeCompression.add_level, VisualizeJson.add_level.
  intros H Hint (H1 & H2 & H3 & H4 & H5 & H6 & H7).
  unfold AnalyzeCompression.level_int in H.
  destruct (py_int level) as [z|]; [|contradiction]. simpl in *.
  bind_inv H. bind_inv H. bind_inv H. ok_inv H.
  rewrite Hx0, Hx1. simpl. eexists. split; [reflexivity|].
  unfold same_series. simpl. rewrite map_app. simpl.
  repeat split; congruence.
Qed.

Lemma add_levels_same levels s j s' :
  foldM (AnalyzeCompression.add_level py_int py_float) levels s = Ok s' ->
  integer_levels py_int levels ->
  same_series s j ->
  exists j',
    foldM (VisualizeJson.add_level py_int py_float) levels j = Ok j' /\
    same_series s' j'.
Proof.
  revert s j. induction levels as [|[level metrics] levels IH];
    intros s j H Hint Hsame; simpl in H.
  - ok_inv H. exists j. split; [reflexivity|exact Hsame].
  - bind_inv H. inversion Hint as [|? ? Hlevel Hrest]; subst.
    destruct (add_level_same _ _ _ _ _ Hx Hlevel Hsame) as (j1 & Hj1 & Hsame1).
    destruct (IH _ _ H Hrest Hsame1) as (j' & Hj' & Hsame').
    exists j'. split; [|exact Hsame']. cbn [foldM]. rewrite Hj1. exact Hj'.
Qed.

Lemma sort_series_same s0 j0 s :
  AnalyzeCompression.sort_series argsort s0 = Ok s ->
  same_series s0 j0 ->
  exists j,
    VisualizeJson.sort_series argsort j0 = Ok j /\ same_series s j.
Proof.
  unfold AnalyzeCompression.sort_series, VisualizeJson.sort_series.
  intros H (H1 & H2 & H3 & H4 & H5 & H6 & H7).
  rewrite H1, H2, H3, H4, H5, H6 in H.
  bind_inv H. bind_inv H. bind_inv H. bind_inv H. bind_inv H. bind_inv H.
  bind_inv H. ok_inv H.
  destruct (reindex_map _ _ _ _ Hx) as (zs & Hzs & ->).
  rewrite Hzs, Hx0, Hx2, Hx3, Hx4, Hx5. simpl.
  eexists. split; [reflexivity|].
  unfold same_series. simpl. repeat split; assumption.
Qed.

Lemma build_same levels s0 s :
  analyze_build py_int py_float levels = Ok s0 ->
  AnalyzeCompression.sort_series argsort s0 = Ok s ->
  integer_levels py_int levels ->
  exists j,
    json_build py_int py_float argsort levels = Ok j /\ same_series s j.
Proof.
  unfold analyze_build, json_build. intros H Hsort Hint. bind_inv H.
  unfold AnalyzeCompression.record_original_size in Hx. simpl in Hx.
  destruct levels as [|[first_level first] later]; [discriminate|].
  unfold dict_item in Hx. simpl in Hx. rewrite String.eqb_refl in Hx.
  simpl in Hx. ok_inv Hx.
  cbn [values map snd bind].
  match goal with
  | |- context [foldM _ _ ?j1] =>
      assert (same_series
                (AnalyzeCompression.set_original_size
                   new_series (originalSize (compression first))) j1)
        as Hsame1 by (repeat split);
      destruct (add_levels_same _ _ _ _ H Hint Hsame1) as (j0 & Hj0 & Hsame0)
  end.
  rewrite Hj0. cbn [bind].
  eapply sort_series_same; eassumption.
Qed.

Lemma algorithms_same algorithms unsorted sorted :
  analyze_algorithms py_int py_float algorithms = Ok unsorted ->
  AnalyzeCompression.for_values (AnalyzeCompression.sort_series argsort)
                                unsorted = Ok sorted ->
  Forall (integer_levels py_int) (values algorithms) ->
  exists jseries,
    json_algorithms py_int py_float argsort algorithms = Ok jseries /\
    Forall2 (fun u v => fst u = fst v /\ same_series (snd u) (snd v))
            sorted jseries.
Proof.
  unfold analyze_algorithms, json_algorithms, AnalyzeCompression.for_values.
  revert unsorted sorted.
  induction algorithms as [|[a levels] algorithms IH];
    intros unsorted sorted H Hsort Hint; simpl in H.
  - ok_inv H. simpl in Hsort. ok_inv Hsort. exists []. split; constructor.
  - destruct (analyze_build py_int py_float levels) as [s0|] eqn:Ebuild;
      simpl in H; [|discriminate].
    destruct (forM _ algorithms) as [rest|] eqn:Erest; simpl in H;
      [|discriminate].
    ok_inv H. simpl in Hsort.
    destruct (AnalyzeCompression.sort_series argsort s0) as [s|] eqn:Esort;
      simpl in Hsort; [|discriminate].
    destruct (forM _ rest) as [rest'|] eqn:Erest'; simpl in Hsort;
      [|discriminate].
    ok_inv Hsort.
    inversion Hint as [|? ? Hlevels Hrest]; subst.
    destruct (build_same _ _ _ Ebuild Esort Hlevels) as (j & Hj & Hsame).
    destruct (IH _ _ eq_refl Erest' Hrest) as (js & Hjs & Hall).
    exists ((a, j) :: js). split.
    + simpl. rewrite Hj. simpl. rewrite Hjs. reflexivity.
    + constructor; [split; [reflexivity|exact Hsame]|exact Hall].
Qed.

Lemma files_same (items : dict Algorithms) unsorted sorted :
  forM (fun '(f, algorithms) =>
          let* series := analyze_algorithms py_int py_float algorithms in
          Ok (f, series)) items = Ok unsorted ->
  AnalyzeCompression.sort_results argsort unsorted = Ok sorted ->
  Forall (fun algorithms : Algorithms =>
            Forall (integer_levels py_int) (values algorithms))
         (values items) ->
  exists jresults,
    forM (fun '(f, algorithms) =>
            let* series := json_algorithms py_int py_float argsort algorithms in
            Ok (f, series)) items = Ok jresults /\
    same_model sorted jresults.
Proof.
  unfold AnalyzeCompression.sort_results, same_model.
  unfold AnalyzeCompression.for_values at 1.
  revert unsorted sorted.
  induction items as [|[f algorithms] items IH];
    intros unsorted sorted H Hsort Hint; simpl in H.
  - ok_inv H. simpl in Hsort. ok_inv Hsort. exists []. split; constructor.
  - destruct (analyze_algorithms py_int py_float algorithms) as [series0|]
      eqn:Ealgs; simpl in H; [|discriminate].
    destruct (forM _ items) as [rest|] eqn:Erest; simpl in H;
      [|discriminate].
    ok_inv H. simpl in Hsort.
    destruct (AnalyzeCompression.for_values _ series0) as [series|]
      eqn:Esort; simpl in Hsort; [|discriminate].
    destruct (forM _ rest) as [rest'|] eqn:Erest'; simpl in Hsort;
      [|discriminate].
    ok_inv Hsort.
    inversion Hint as [|? ? Halgs Hrest]; subst.
    destruct (algorithms_same _ _ _ Ealgs Esort Halgs) as (js & Hjs & Hsame).
    destruct (IH _ _ eq_refl Erest' Hrest) as (jr & Hjr & Hall).
    exists ((f, js) :: jr). split.
    + simpl. rewrite Hjs. simpl. rewrite Hjr. reflexivity.
    + constructor; [split; [reflexivity|exact Hsame]|exact Hall].
Qed.

End Agreement.

(** C10, amended.  On a document in which no file name and no
    algorithm of a file comes twice and every level identifier is an
    integer literal, whenever [extract_data] of analyze_compression.py
    returns a model, [process_data] of visualize_json.py returns the
    same model: the same files and algorithms in the same order and, for
    each pair, the same levels, ratios, compressed sizes, compression
    and decompression times, memory usages and original size. *)
Theorem extract_data_process_data_agree
        (py_int : string -> option Z) (py_float : string -> option float)
        (argsort : list level_key -> list nat)
        (json_data : JsonData) (results : Results) :
  distinct_files json_data ->
  distinct_algorithms json_data ->
  integer_levels_in py_int json_data ->
  AnalyzeCompression.extract_data py_int py_float argsort json_data
  = Ok results ->
  exists jresults,
    VisualizeJson.process_data py_int py_float argsort json_data
    = Ok jresults /\
    same_model results jresults.
Proof.
  intros Hfiles Halgs Hint H.
  unfold AnalyzeCompression.extract_data in H. bind_inv H.
  rewrite analyze_collect_comprehension in Hx by assumption.
  rewrite json_process_data_comprehension by assumption.
  eapply files_same; eassumption.
Qed.

(** The theorem at the scenario. *)
Lemma extract_data_process_data_agree_witness :
  exists jresults,
    VisualizeJson.process_data int_dec float_dec argsort_stable scenario_doc
    = Ok jresults /\
    same_model [("fileA", [("zstd", scenario_series)])] jresults.
Proof.
  apply (extract_data_process_data_agree
           int_dec float_dec argsort_stable scenario_doc).
  - unfold distinct_files. simpl. apply NoDup_singleton.
  - unfold distinct_algorithms. simpl.
    constructor; [apply NoDup_singleton|constructor].
  - unfold integer_levels_in, integer_levels. simpl.
    repeat (constructor; try (vm_compute; discriminate)).
  - vm_compute. reflexivity.
Defined.

(** C10 as stated fails.  On a document with the level identifier
    ["1.5"], [extract_data] returns a model and [process_data] raises
    ValueError; on a document that holds a file twice, [extract_data]
    returns a series of two records and [process_data] a series of
    one. *)
Lemma normalisers_disagree :
  (AnalyzeCompression.extract_data int_dec float_dec argsort_stable decimal_doc
   = Ok [("fileA", [("zstd", decimal_series)])] /\
   VisualizeJson.process_data int_dec float_dec argsort_stable decimal_doc
   = Raise ValueError) /\
  (AnalyzeCompression.extract_data int_dec float_dec argsort_stable
                                   repeated_doc
   = Ok [("fileA", [("zstd", repeated_encountered)])] /\
   VisualizeJson.process_data int_dec float_dec argsort_stable repeated_doc
   = Ok [("fileA", [("zstd", repeated_last)])] /\
   ~ same_model [("fileA", [("zstd", repeated_encountered)])]
                [("fileA", [("zstd", repeated_last)])]).
Proof.
  split; [split; vm_compute; reflexivity|].
  split; [vm_compute; reflexivity|].
  split; [vm_compute; reflexivity|].
  intros H. inversion H as [|? ? ? ? [_ Hseries] _]; subst.
  inversion Hseries as [|? ? ? ? [_ Hsame] _]; subst.
  destruct Hsame as (Hlevels & _). simpl in Hlevels. discriminate.
Qed.

(** * Further properties of the scripts *)

(** ** parse_time: what decides its outcome *)

Lemma str_split_length (sep : ascii) (s : string) :
  length (str_split sep s) = S (count_char sep s).
Proof.
  induction s as [|c s IH]; simpl; [reflexivity|].
  destruct (Ascii.eqb c sep); simpl.
  - rewrite IH. reflexivity.
  - destruct (str_split sep s) as [|p ps]; simpl in *; [discriminate|].
    exact IH.
Qed.

(** X1.  The number of colons decides what [parse_time] does with a
    text: with none, or with three and more, it returns 0.0 whatever
    the text holds and never raises; it raises only when there are one
    or two colons, and then only ValueError (a part that [float]
    rejects). *)
Theorem parse_time_outcome_by_colons
        (py_float : string -> option float) (s : string) :
  (count_char ":" s <> 1 -> count_char ":" s <> 2 ->
   parse_time py_float (Some s) = Ok 0%float) /\
  (forall e,
      parse_time py_float (Some s) = Raise e ->
      e = ValueError /\ (count_char ":" s = 1 \/ count_char ":" s = 2)).
Proof.
  pose proof (str_split_length ":" s) as Hlen.
  destruct s as [|c s]; [split; [reflexivity|intros e H; discriminate H]|].
  cbv beta iota delta [parse_time].
  revert Hlen. generalize (str_split ":" (String c s)).
  generalize (count_char ":" (String c s)). intros n parts Hlen.
  destruct parts as [|p0 [|p1 [|p2 [|p3 parts]]]]; simpl in Hlen;
    try (split; [reflexivity|intros e H; discriminate H]).
  - split; [intros H1 _; exfalso; apply H1; lia|].
    intros e. unfold to_float.
    destruct (py_float p0); simpl; [destruct (py_float p1); simpl|];
      intros H; try discriminate H; injection H as <-;
      (split; [reflexivity|left; lia]).
  - split; [intros _ H2; exfalso; apply H2; lia|].
    intros e. unfold to_float.
    destruct (py_float p0); simpl;
      [destruct (py_float p1); simpl; [destruct (py_float p2); simpl|]|];
      intros H; try discriminate H; injection H as <-;
      (split; [reflexivity|right; lia]).
Qed.

(** ** extract_data of analyze_compression.py: where records come from *)

Section AnalyzeRecords.

Variable py_int : string -> option Z.
Variable py_float : string -> option float.

Lemma add_level_record s item s' n :
  AnalyzeCompression.add_level py_int py_float s item = Ok s' ->
  lengths s n ->
  exists record,
    converted py_int py_float item record /\
    records s' = records s ++ [record].
Proof.
  destruct item as [level metrics]. unfold AnalyzeCompression.add_level.
  intros H (H1 & H2 & H3 & H4 & H5 & H6 & H7).
  repeat bind_inv H. ok_inv H.
  eexists (_, (_, (_, (_, (_, (_, _)))))). split.
  - unfold converted. repeat split; try reflexivity; eassumption.
  - unfold records.
    cbn [compression_levels compression_ratio compressed_percentage
         compression_time decompression_time compressed_size memory_usage].
    repeat (rewrite zip_with_app; [|rewrite ?length_zip_with; lia]).
    reflexivity.
Qed.

Lemma add_levels_records levels s s' n :
  foldM (AnalyzeCompression.add_level py_int py_float) levels s = Ok s' ->
  lengths s n ->
  exists new,
    Forall2 (converted py_int py_float) levels new /\
    records s' = records s ++ new.
Proof.
  revert s n. induction levels as [|item levels IH]; intros s n H Hn;
    simpl in H.
  - ok_inv H. exists []. split; [constructor|]. rewrite app_nil_r.
    reflexivity.
  - bind_inv H.
    destruct (add_level_record _ _ _ _ Hx Hn) as (record & Hrec & Hrecs).
    pose proof (add_level_lengths _ _ _ _ _ _ Hx Hn) as Hn'.
    destruct (IH _ _ H Hn') as (new & Hnew & Hrecs').
    exists (record :: new). split; [constructor; assumption|].
    rewrite Hrecs', Hrecs, <- app_assoc. reflexivity.
Qed.

Lemma record_original_size_records s levels s' :
  AnalyzeCompression.record_original_size s levels = Ok s' ->
  records s' = records s /\ levels <> [] \/ s' = s.
Proof.
  unfold AnalyzeCompression.record_original_size.
  destruct (original_size s).
  - intros H. ok_inv H. right. reflexivity.
  - destruct levels as [|[first_level metrics] levels]; [discriminate|].
    simpl. intros H. bind_inv H. ok_inv H. left. split; [reflexivity|].
    discriminate.
Qed.

(** Before sorting, the records of a series are the conversions of the
    level entries met for its pair, in the order they were met; a
    recorded pair has met one entry at least. *)
Lemma collect_records_from json_data results results' n :
  foldM (fun results file_data =>
           foldM (AnalyzeCompression.add_file py_int py_float)
                 file_data results)
        json_data results = Ok results' ->
  (forall f a,
      met (fun s entries =>
             entries <> [] /\
             lengths s (length entries) /\
             Forall2 (converted py_int py_float) entries (records s))
          (series_at f a results) (n f a)) ->
  forall f a,
    met (fun s entries =>
           entries <> [] /\
           lengths s (length entries) /\
           Forall2 (converted py_int py_float) entries (records s))
        (series_at f a results') (n f a ++ encountered f a json_data).
Proof.
  apply collect_met_from.
  intros o entries levels s1 s2 Ho Hrec Hlevels.
  assert (lengths s1 (length entries) /\
          Forall2 (converted py_int py_float) entries (records s1) /\
          (entries = [] -> levels <> [])) as (Hlen1 & Hall1 & Hne).
  { destruct o as [s0|]; simpl in Ho.
    - destruct Ho as (Hne0 & Hlen0 & Hall0).
      split; [eapply record_original_size_lengths; eassumption|].
      split; [|intros ->; contradiction].
      destruct (record_original_size_records _ _ _ Hrec) as [[-> _]| ->];
        exact Hall0.
    - subst entries.
      split; [eapply record_original_size_lengths;
              [eassumption|repeat split]|].
      destruct (record_original_size_records _ _ _ Hrec) as [[Hr Hl]|Hs].
      + rewrite Hr. split; [constructor|intros _; exact Hl].
      + subst s1. unfold AnalyzeCompression.record_original_size in Hrec.
        simpl in Hrec. destruct levels; [discriminate|].
        split; [constructor|discriminate]. }
  destruct (add_levels_records _ _ _ _ Hlevels Hlen1) as (new & Hnew & Hrecs).
  split; [|split].
  - intros Happ. apply app_eq_nil in Happ. destruct Happ as [-> ->].
    apply (Hne eq_refl). reflexivity.
  - rewrite length_app. eapply add_levels_lengths; eassumption.
  - rewrite Hrecs. apply Forall2_app; assumption.
Qed.

End AnalyzeRecords.

(** X2.  Every series [extract_data] of analyze_compression.py returns
    holds, up to the order of sorting, exactly one record per level
    entry met for its (file, algorithm) pair, and each record holds the
    converted fields of that one entry: the seven lists stay aligned. *)
Theorem series_records_are_converted_entries
        (py_int : string -> option Z) (py_float : string -> option float)
        (argsort : list level_key -> list nat)
        (json_data : JsonData) (results : Results)
        (filename algorithm : string) (s : Series) :
  permutes argsort ->
  AnalyzeCompression.extract_data py_int py_float argsort json_data
  = Ok results ->
  series_at filename algorithm results = Some s ->
  exists converted_entries,
    Forall2 (converted py_int py_float)
            (encountered filename algorithm json_data) converted_entries /\
    Permutation converted_entries (records s).
Proof.
  intros Hspec H Hs. unfold AnalyzeCompression.extract_data in H.
  bind_inv H.
  destruct (series_at_sorted _ _ _ _ _ _ H Hs) as (s0 & Hs0 & Hsort).
  pose proof (collect_records_from py_int py_float json_data [] x
                                   (fun _ _ => []) Hx
                                   (fun _ _ => eq_refl)
                                   filename algorithm) as Hmet.
  rewrite Hs0 in Hmet. simpl in Hmet. destruct Hmet as (_ & Hlen & Hall).
  exists (records s0). split; [exact Hall|].
  apply sort_series_records in Hsort. destruct Hsort as (_ & Hrec & _).
  eapply reindex_Permutation; [|exact Hrec].
  rewrite (lengths_records _ _ Hlen).
  pose proof (Hspec (compression_levels s0)) as Hperm.
  destruct Hlen as [Hlen _]. rewrite <- Hlen. exact Hperm.
Qed.

(** The theorem at the scenario. *)
Lemma series_records_are_converted_entries_witness :
  exists converted_entries,
    Forall2 (converted int_dec float_dec)
            (encountered "fileA" "zstd" scenario_doc) converted_entries /\
    Permutation converted_entries (records scenario_series).
Proof.
  apply (series_records_are_converted_entries
           int_dec float_dec argsort_stable scenario_doc
           [("fileA", [("zstd", scenario_series)])]).
  - exact argsort_stable_permutes.
  - vm_compute. reflexivity.
  - reflexivity.
Defined.

(** X3.  [extract_data] of analyze_compression.py returns a series for
    exactly the (file, algorithm) pairs for which the document holds a
    level entry. *)
Theorem series_exists_iff_entries
        (py_int : string -> option Z) (py_float : string -> option float)
        (argsort : list level_key -> list nat)
        (json_data : JsonData) (results : Results)
        (filename algorithm : string) :
  AnalyzeCompression.extract_data py_int py_float argsort json_data
  = Ok results ->
  (series_at filename algorithm results = None <->
   encountered filename algorithm json_data = []).
Proof.
  intros H. unfold AnalyzeCompression.extract_data in H. bind_inv H.
  rewrite (series_at_sorted_None _ _ _ filename algorithm H).
  pose proof (collect_records_from py_int py_float json_data [] x
                                   (fun _ _ => []) Hx
                                   (fun _ _ => eq_refl)
                                   filename algorithm) as Hmet.
  simpl in Hmet.
  destruct (series_at filename algorithm x) as [s0|]; simpl in Hmet.
  - destruct Hmet as (Hne & _). split; [discriminate|contradiction].
  - tauto.
Qed.

(** The theorem at the scenario: "gz" has no entry and no series. *)
Lemma series_exists_iff_entries_witness :
  series_at "fileA" "gz" [("fileA", [("zstd", scenario_series)])] = None <->
  encountered "fileA" "gz" scenario_doc = [].
Proof.
  apply (series_exists_iff_entries int_dec float_dec argsort_stable).
  vm_compute. reflexivity.
Defined.

(** ** An algorithm that comes without levels *)

Lemma dict_set_same {V} (k : string) (v : V) (d : dict V) :
  dict_get k d = Some v -> dict_set k v d = d.
Proof.
  induction d as [|[k' v'] d IH]; simpl; [discriminate|].
  destruct (String.eqb k k').
  - intros H. ok_inv H. reflexivity.
  - intros H. rewrite (IH H). reflexivity.
Qed.

(** What the loops of analyze_compression.py do with a last object that
    names one file and one algorithm without any level. *)
Lemma add_file_without_levels py_int py_float (results : Results)
      (filename algorithm : string) :
  (forall s, series_at filename algorithm results = Some s ->
             original_size s <> None) ->
  AnalyzeCompression.add_file py_int py_float results
                              (filename, [(algorithm, [])]) =
  match series_at filename algorithm results with
  | Some _ => Ok results
  | None => Raise IndexError
  end.
Proof.
  intros Hsize. unfold AnalyzeCompression.add_file, Results in *.
  rewrite dict_item_ensure. simpl.
  unfold AnalyzeCompression.add_algorithm. rewrite dict_item_ensure. simpl.
  unfold series_at in *. unfold dict_mem.
  destruct (dict_get filename results) as [file_results|] eqn:Efile.
  - unfold dict_mem.
    destruct (dict_get algorithm file_results) as [s|] eqn:Ealg.
    + unfold AnalyzeCompression.record_original_size.
      destruct (original_size s) eqn:Es;
        [|exfalso; exact (Hsize s eq_refl Es)].
      simpl. rewrite (dict_set_same _ _ _ Ealg).
      rewrite (dict_set_same _ _ _ Efile). reflexivity.
    + reflexivity.
  - reflexivity.
Qed.

(** X4.  An object that names an algorithm without any level, coming
    last in the document: [extract_data] of analyze_compression.py
    ignores it when it has a series for the pair already (the model is
    unchanged), and raises IndexError when the pair is new. *)
Theorem extract_data_algorithm_without_levels
        (py_int : string -> option Z) (py_float : string -> option float)
        (argsort : list level_key -> list nat)
        (json_data : JsonData) (results : Results)
        (filename algorithm : string) :
  AnalyzeCompression.extract_data py_int py_float argsort json_data
  = Ok results ->
  AnalyzeCompression.extract_data
    py_int py_float argsort (json_data ++ [[(filename, [(algorithm, [])])]]) =
  match series_at filename algorithm results with
  | Some _ => Ok results
  | None => Raise IndexError
  end.
Proof.
  intros H. unfold AnalyzeCompression.extract_data in *. bind_inv H.
  unfold AnalyzeCompression.collect in *. rewrite foldM_app, Hx.
  cbn [bind foldM]. rewrite add_file_without_levels.
  - pose proof (series_at_sorted_None _ _ _ filename algorithm H) as Hnone.
    destruct (series_at filename algorithm x) as [s0|];
      destruct (series_at filename algorithm results) as [s|]; simpl.
    + exact H.
    + destruct Hnone as [Hnone _]. discriminate (Hnone eq_refl).
    + destruct Hnone as [_ Hnone]. discriminate (Hnone eq_refl).
    + reflexivity.
  - intros s Hs.
    destruct (collect_first_original_size py_int py_float json_data x
                filename algorithm s Hx Hs) as (size & -> & _).
    discriminate.
Qed.

(** The theorem at the scenario: "zstd" of "fileA" is known. *)
Lemma extract_data_algorithm_without_levels_witness :
  AnalyzeCompression.extract_data
    int_dec float_dec argsort_stable
    (scenario_doc ++ [[("fileA", [("zstd", [])])]]) =
  Ok [("fileA", [("zstd", scenario_series)])].
Proof.
  apply (extract_data_algorithm_without_levels
           int_dec float_dec argsort_stable scenario_doc
           [("fileA", [("zstd", scenario_series)])] "fileA" "zstd").
  vm_compute. reflexivity.
Defined.

(** X5.  The same object makes [process_data] of visualize_json.py
    raise StopIteration, whatever came before it. *)
Theorem process_data_algorithm_without_levels
        (py_int : string -> option Z) (py_float : string -> option float)
        (argsort : list level_key -> list nat)
        (json_data : JsonData) (results : dict (dict VisualizeJson.JSeries))
        (test_name algorithm : string) :
  VisualizeJson.process_data py_int py_float argsort json_data = Ok results ->
  VisualizeJson.process_data
    py_int py_float argsort (json_data ++ [[(test_name, [(algorithm, [])])]])
  = Raise StopIteration.
Proof.
  intros H. unfold VisualizeJson.process_data in *.
  rewrite foldM_app, H. simpl. unfold dict_item.
  rewrite dict_get_set_eq. reflexivity.
Qed.

(** The theorem at the scenario. *)
Lemma process_data_algorithm_without_levels_witness :
  VisualizeJson.process_data
    int_dec float_dec argsort_stable
    (scenario_doc ++ [[("fileA", [("zstd", [])])]])
  = Raise StopIteration.
Proof.
  eapply (process_data_algorithm_without_levels
            int_dec float_dec argsort_stable scenario_doc).
  vm_compute. reflexivity.
Defined.

(** ** A test name that comes again *)

(** X6.  [process_data] of visualize_json.py keeps for a test name
    what the last object naming it holds, and nothing of the objects
    before: after a document that ends with an object for one test, the
    algorithms recorded for the test are those the object gives on its
    own. *)
Theorem process_data_last_object_wins
        (py_int : string -> option Z) (py_float : string -> option float)
        (argsort : list level_key -> list nat)
        (json_data : JsonData) (test_name : string) (algorithms : Algorithms)
        (results : dict (dict VisualizeJson.JSeries)) :
  VisualizeJson.process_data
    py_int py_float argsort (json_data ++ [[(test_name, algorithms)]])
  = Ok results ->
  exists alone,
    VisualizeJson.process_data
      py_int py_float argsort [[(test_name, algorithms)]] = Ok alone /\
    dict_get test_name results = dict_get test_name alone.
Proof.
  intros H. unfold VisualizeJson.process_data in *.
  rewrite foldM_app in H. bind_inv H. cbn [foldM bind] in *.
  unfold VisualizeJson.add_test, dict_item in *.
  rewrite dict_get_set_eq in H. rewrite dict_get_set_eq.
  cbn [or_raise bind] in *.
  destruct (foldM (VisualizeJson.add_algorithm py_int py_float argsort)
                  algorithms []) as [test_results|e] eqn:E;
    cbn [bind] in *; [|discriminate].
  ok_inv H. eexists. split; [reflexivity|].
  rewrite !dict_get_set_eq. reflexivity.
Qed.

(** The theorem at the document in which "fileA" comes twice. *)
Lemma process_data_last_object_wins_witness :
  exists alone,
    VisualizeJson.process_data
      int_dec float_dec argsort_stable
      [[("fileA",
         [("zstd",
           [("1", measurement 1000 400 2.5 "40.0" "0:02" 600 "0:00.2" 120)])])]]
    = Ok alone /\
    dict_get "fileA" [("fileA", [("zstd", repeated_last)])]
    = dict_get "fileA" alone.
Proof.
  apply (process_data_last_object_wins
           int_dec float_dec argsort_stable
           [[("fileA",
              [("zstd",
                [("1", measurement 1000 600 1.67 "60.0" "0:01" 500
                                   "0:00.1" 100)])])]]).
  vm_compute. reflexivity.
Defined.

(** ** visualize.py against analyze_compression.py *)

Lemma foldM_Ok_both {A S} (f g : S -> A -> result S) (P : A -> Prop)
      (l : list A) (s s' : S) :
  (forall s x s', f s x = Ok s' -> g s x = Ok s' /\ P x) ->
  foldM f l s = Ok s' -> foldM g l s = Ok s' /\ Forall P l.
Proof.
  intros Hfg. revert s. induction l as [|x l IH]; intros s H; simpl in *.
  - split; [exact H|constructor].
  - destruct (f s x) as [s1|e] eqn:E; simpl in H; [|discriminate].
    destruct (Hfg _ _ _ E) as [-> Hx]. simpl.
    destruct (IH _ H) as [Hg Hl]. split; [exact Hg|].
    constructor; assumption.
Qed.

Section VisualizeRefines.

Variable py_int : string -> option Z.
Variable py_float : string -> option float.

Lemma visualize_add_level_Ok s item s' :
  Visualize.add_level py_int py_float s item = Ok s' ->
  AnalyzeCompression.add_level py_int py_float s item = Ok s' /\
  py_int (fst item) <> None.
Proof.
  destruct item as [level metrics].
  unfold Visualize.add_level, AnalyzeCompression.add_level,
    Visualize.level_int, AnalyzeCompression.level_int. simpl.
  destruct (py_int level); [|discriminate]. split; [assumption|discriminate].
Qed.

Lemma visualize_add_level_integer s item :
  py_int (fst item) <> None ->
  Visualize.add_level py_int py_float s item =
  AnalyzeCompression.add_level py_int py_float s item.
Proof.
  destruct item as [level metrics].
  unfold Visualize.add_level, AnalyzeCompression.add_level,
    Visualize.level_int, AnalyzeCompression.level_int. simpl.
  destruct (py_int level); [reflexivity|contradiction].
Qed.

Lemma visualize_add_algorithm_Ok file_results item file_results' :
  Visualize.add_algorithm py_int py_float file_results item
  = Ok file_results' ->
  AnalyzeCompression.add_algorithm py_int py_float file_results item
  = Ok file_results' /\
  integer_levels py_int (snd item).
Proof.
  destruct item as [algorithm levels].
  unfold Visualize.add_algorithm, AnalyzeCompression.add_algorithm.
  intros H. bind_inv H. bind_inv H. bind_inv H. ok_inv H.
  rewrite Hx. simpl. rewrite Hx0. simpl.
  destruct (foldM_Ok_both _ (AnalyzeCompression.add_level py_int py_float)
                          (fun item => py_int (fst item) <> None)
                          _ _ _ visualize_add_level_Ok Hx1) as [-> Hint].
  split; [reflexivity|].
  unfold integer_levels, keys. apply Forall_map. exact Hint.
Qed.

Lemma visualize_add_algorithm_integer file_results item :
  integer_levels py_int (snd item) ->
  Visualize.add_algorithm py_int py_float file_results item =
  AnalyzeCompression.add_algorithm py_int py_float file_results item.
Proof.
  destruct item as [algorithm levels]. intros Hint.
  unfold Visualize.add_algorithm, AnalyzeCompression.add_algorithm.
  destruct (dict_item algorithm _) as [s|e]; simpl; [|reflexivity].
  destruct (AnalyzeCompression.record_original_size s levels) as [s1|e];
    simpl; [|reflexivity].
  rewrite (foldM_ext (Visualize.add_level py_int py_float)
                     (AnalyzeCompression.add_level py_int py_float));
    [reflexivity|].
  intros s2 item Hitem. apply visualize_add_level_integer.
  unfold integer_levels, keys in Hint. rewrite List.Forall_forall in Hint.
  apply Hint. apply in_map. exact Hitem.
Qed.

Lemma visualize_add_file_Ok results item results' :
  Visualize.add_file py_int py_float results item = Ok results' ->
  AnalyzeCompression.add_file py_int py_float results item = Ok results' /\
  Forall (integer_levels py_int) (values (snd item)).
Proof.
  destruct item as [filename algorithms].
  unfold Visualize.add_file, AnalyzeCompression.add_file.
  intros H. bind_inv H. bind_inv H. ok_inv H.
  rewrite Hx. simpl.
  destruct (foldM_Ok_both _ (AnalyzeCompression.add_algorithm py_int py_float)
                          (fun item => integer_levels py_int (snd item))
                          _ _ _ visualize_add_algorithm_Ok Hx0) as [-> Hint].
  split; [reflexivity|].
  unfold values. apply Forall_map. exact Hint.
Qed.

Lemma visualize_add_file_integer results item :
  Forall (integer_levels py_int) (values (snd item)) ->
  Visualize.add_file py_int py_float results item =
  AnalyzeCompression.add_file py_int py_float results item.
Proof.
  destruct item as [filename algorithms]. intros Hint.
  unfold Visualize.add_file, AnalyzeCompression.add_file.
  destruct (dict_item filename _) as [file_results|e]; simpl; [|reflexivity].
  rewrite (foldM_ext (Visualize.add_algorithm py_int py_float)
                     (AnalyzeCompression.add_algorithm py_int py_float));
    [reflexivity|].
  intros s item Hitem. apply visualize_add_algorithm_integer.
  unfold values in Hint. rewrite List.Forall_forall in Hint.
  apply Hint. apply (in_map snd). exact Hitem.
Qed.

End VisualizeRefines.

(** X7.  visualize.py returns a model exactly when analyze_compression.py
    returns it and [int] accepts every level identifier of the document:
    the two normalisations differ in nothing but the identifiers they
    accept. *)
Theorem visualize_normalize_iff_extract_data_on_integer_levels
        (py_int : string -> option Z) (py_float : string -> option float)
        (argsort : list level_key -> list nat)
        (json_data : JsonData) (results : Results) :
  Visualize.normalize py_int py_float argsort json_data = Ok results <->
  AnalyzeCompression.extract_data py_int py_float argsort json_data
  = Ok results /\
  integer_levels_in py_int json_data.
Proof.
  unfold Visualize.normalize, AnalyzeCompression.extract_data,
    Visualize.extract_data, AnalyzeCompression.collect,
    Visualize.sort_data_by_level, AnalyzeCompression.sort_results,
    integer_levels_in.
  rewrite !foldM_concat. split.
  - intros H. bind_inv H.
    destruct (foldM_Ok_both
                _ (AnalyzeCompression.add_file py_int py_float)
                (fun item => Forall (integer_levels py_int) (values (snd item)))
                _ _ _ (visualize_add_file_Ok py_int py_float) Hx)
      as [-> Hint].
    split; [exact H|]. unfold values. apply Forall_map. exact Hint.
  - intros [H Hint].
    rewrite (foldM_ext (Visualize.add_file py_int py_float)
                       (AnalyzeCompression.add_file py_int py_float));
      [exact H|].
    intros s item Hitem. apply visualize_add_file_integer.
    unfold values in Hint. rewrite List.Forall_forall in Hint.
    apply (Hint (snd item)). apply (in_map snd). exact Hitem.
Qed.

(** ** The series of visualize_json.py *)

Lemma foldM_invariant {A S} (f : S -> A -> result S) (I : S -> Prop)
      (l : list A) (s s' : S) :
  (forall s x s', I s -> f s x = Ok s' -> I s') ->
  I s -> foldM f l s = Ok s' -> I s'.
Proof.
  intros Hf. revert s. induction l as [|x l IH]; intros s Hs H; simpl in H.
  - ok_inv H. exact Hs.
  - bind_inv H. eapply IH; [|exact H]. eapply Hf; eassumption.
Qed.

Section JsonSeries.

Variable py_int : string -> option Z.
Variable py_float : string -> option float.
Variable argsort : list level_key -> list nat.

Lemma json_add_algorithm_build test_results algorithm lvls test_results' :
  VisualizeJson.add_algorithm py_int py_float argsort test_results
                              (algorithm, lvls) = Ok test_results' ->
  exists s, json_build py_int py_float argsort lvls = Ok s /\
            test_results' = dict_set algorithm s test_results.
Proof.
  unfold VisualizeJson.add_algorithm, json_build. intros H.
  bind_inv H. bind_inv H. bind_inv H. ok_inv H.
  rewrite Hx. simpl. rewrite Hx0. simpl. exists x1. split; [exact Hx1|].
  reflexivity.
Qed.

Lemma json_add_levels_original_size lvls s s' :
  foldM (VisualizeJson.add_level py_int py_float) lvls s = Ok s' ->
  VisualizeJson.original_size s' = VisualizeJson.original_size s.
Proof.
  intros H0.
  refine (foldM_invariant
            _ (fun s' => VisualizeJson.original_size s'
                         = VisualizeJson.original_size s)
            _ _ _ _ eq_refl H0).
  intros s1 [level data] s2 Hs1 H. unfold VisualizeJson.add_level in H.
  bind_inv H. bind_inv H. bind_inv H. ok_inv H. exact Hs1.
Qed.

Lemma json_sort_series_lengths s0 s :
  VisualizeJson.sort_series argsort s0 = Ok s ->
  json_lengths s (length (VisualizeJson.levels s)) /\
  VisualizeJson.original_size s = VisualizeJson.original_size s0.
Proof.
  unfold VisualizeJson.sort_series. intros H.
  bind_inv H. bind_inv H. bind_inv H. bind_inv H. bind_inv H. bind_inv H.
  ok_inv H. unfold json_lengths. simpl.
  apply reindex_length in Hx, Hx0, Hx1, Hx2, Hx3, Hx4.
  repeat split; congruence.
Qed.

Lemma asarray_ints (l : list Z) :
  Forall (fun z => int64 z = true) l -> asarray (map LInt l) = Int64 l.
Proof.
  intros H. unfold asarray.
  assert (forallb fits (map LInt l) = true) as ->.
  { apply forallb_forall. intros k Hk. apply in_map_iff in Hk.
    destruct Hk as (z & <- & Hz). rewrite List.Forall_forall in H.
    apply H. exact Hz. }
  assert (forallb is_int (map LInt l) = true) as ->.
  { apply forallb_forall. intros k Hk. apply in_map_iff in Hk.
    destruct Hk as (z & <- & _). reflexivity. }
  rewrite map_map. simpl. rewrite map_id. reflexivity.
Qed.

Lemma json_sort_series_sorted s0 s :
  permutes argsort -> sorts argsort ->
  VisualizeJson.sort_series argsort s0 = Ok s ->
  Forall (fun z => int64 z = true) (VisualizeJson.levels s) ->
  Sorted Z.le (VisualizeJson.levels s).
Proof.
  unfold VisualizeJson.sort_series. intros Hperm Hsorts H.
  bind_inv H. bind_inv H. bind_inv H. bind_inv H. bind_inv H. bind_inv H.
  ok_inv H. simpl. intros Hfit.
  specialize (Hperm (map LInt (VisualizeJson.levels s0))).
  specialize (Hsorts (map LInt (VisualizeJson.levels s0))).
  rewrite length_map in Hperm.
  assert (Permutation (VisualizeJson.levels s0) x) as Hx'
      by (eapply reindex_Permutation; eassumption).
  rewrite <- Hx' in Hfit. rewrite (asarray_ints _ Hfit) in Hsorts.
  apply Hsorts. exact Hx.
Qed.

Section Every.

Variable P : VisualizeJson.JSeries -> Prop.
Hypothesis build_P :
  forall lvls s, json_build py_int py_float argsort lvls = Ok s -> P s.

Lemma json_add_algorithms_every algorithms test_results test_results' :
  foldM (VisualizeJson.add_algorithm py_int py_float argsort)
        algorithms test_results = Ok test_results' ->
  (forall a s, dict_get a test_results = Some s -> P s) ->
  forall a s, dict_get a test_results' = Some s -> P s.
Proof.
  intros H0 Hinv.
  refine (foldM_invariant
            _ (fun tr => forall a s, dict_get a tr = Some s -> P s)
            _ _ _ _ Hinv H0).
  intros tr [algorithm lvls] tr' Htr H a s.
  apply json_add_algorithm_build in H. destruct H as (s1 & Hs1 & ->).
  rewrite dict_get_set. destruct (String.eqb a algorithm).
  - intros Hs. ok_inv Hs. eapply build_P. exact Hs1.
  - apply Htr.
Qed.

Lemma json_process_data_every json_data results t a s :
  VisualizeJson.process_data py_int py_float argsort json_data = Ok results ->
  series_at t a results = Some s -> P s.
Proof.
  unfold VisualizeJson.process_data. rewrite foldM_concat. intros H0.
  revert t a s.
  refine (foldM_invariant
            _ (fun results => forall t a s,
                   series_at t a results = Some s -> P s)
            _ _ _ _ _ H0); [|discriminate].
  intros r [test_name algorithms] r' Hr H t a s.
  unfold VisualizeJson.add_test, dict_item in H.
  rewrite dict_get_set_eq in H. simpl in H. bind_inv H. ok_inv H.
  unfold series_at. rewrite !dict_get_set.
  destruct (String.eqb t test_name).
  - eapply json_add_algorithms_every; [exact Hx|]. discriminate.
  - apply Hr.
Qed.

End Every.
End JsonSeries.

(** X8.  Every series [process_data] of visualize_json.py returns has
    six lists of one length and an original size, whatever [np.argsort]
    returns. *)
Theorem process_data_series_shape
        (py_int : string -> option Z) (py_float : string -> option float)
        (argsort : list level_key -> list nat)
        (json_data : JsonData) (results : dict (dict VisualizeJson.JSeries))
        (test_name algorithm : string) (s : VisualizeJson.JSeries) :
  VisualizeJson.process_data py_int py_float argsort json_data = Ok results ->
  series_at test_name algorithm results = Some s ->
  json_lengths s (length (VisualizeJson.levels s)) /\
  VisualizeJson.original_size s <> None.
Proof.
  apply (json_process_data_every
           py_int py_float argsort
           (fun s => json_lengths s (length (VisualizeJson.levels s)) /\
                     VisualizeJson.original_size s <> None)).
  clear. intros lvls s H. unfold json_build in H.
  bind_inv H. bind_inv H.
  apply json_sort_series_lengths in H. destruct H as [Hlen Hsize].
  split; [exact Hlen|]. rewrite Hsize.
  rewrite (json_add_levels_original_size _ _ _ _ _ Hx0). discriminate.
Qed.

(** The theorem at the document in which "fileA" comes twice. *)
Lemma process_data_series_shape_witness :
  json_lengths repeated_last (length (VisualizeJson.levels repeated_last)) /\
  VisualizeJson.original_size repeated_last <> None.
Proof.
  apply (process_data_series_shape
           int_dec float_dec argsort_stable repeated_doc
           [("fileA", [("zstd", repeated_last)])] "fileA" "zstd").
  - vm_compute. reflexivity.
  - reflexivity.
Defined.

(** X9.  When [np.argsort] returns a permutation of the positions that
    picks the items of its array in ascending order, the levels of
    every series [process_data] of visualize_json.py returns are in
    ascending order, provided they all fit 64 bits: they make an int64
    array, which numpy compares exactly. *)
Theorem process_data_levels_sorted
        (py_int : string -> option Z) (py_float : string -> option float)
        (argsort : list level_key -> list nat)
        (json_data : JsonData) (results : dict (dict VisualizeJson.JSeries))
        (test_name algorithm : string) (s : VisualizeJson.JSeries) :
  permutes argsort -> sorts argsort ->
  VisualizeJson.process_data py_int py_float argsort json_data = Ok results ->
  series_at test_name algorithm results = Some s ->
  Forall (fun z => int64 z = true) (VisualizeJson.levels s) ->
  Sorted Z.le (VisualizeJson.levels s).
Proof.
  intros Hperm Hsorts.
  apply (json_process_data_every
           py_int py_float argsort
           (fun s => Forall (fun z => int64 z = true)
                            (VisualizeJson.levels s) ->
                     Sorted Z.le (VisualizeJson.levels s))).
  intros lvls s0 H. unfold json_build in H. bind_inv H. bind_inv H.
  eapply json_sort_series_sorted; eassumption.
Qed.

(** The theorem at the scenario, whose levels come in descending
    order. *)
Lemma process_data_levels_sorted_witness :
  Sorted Z.le (VisualizeJson.levels scenario_jseries).
Proof.
  apply (process_data_levels_sorted
           int_dec float_dec argsort_stable scenario_doc
           [("fileA", [("zstd", scenario_jseries)])] "fileA" "zstd").
  - exact argsort_stable_permutes.
  - exact argsort_stable_sorts.
  - vm_compute. reflexivity.
  - reflexivity.
  - repeat constructor.
Defined.

(** ** The best values of a file *)

Lemma is_nan_rank (x : float) :
  PrimFloat.is_nan x = false <-> float_rank x <> None.
Proof.
  unfold PrimFloat.is_nan, float_rank. rewrite FloatAxioms.eqb_spec.
  unfold SFeqb.
  destruct (Prim2SF x) as [s|s| |s m e]; simpl.
  - split; [intros _; discriminate|reflexivity].
  - destruct s; (split; [intros _; discriminate|reflexivity]).
  - split; [discriminate|intros H; contradiction].
  - rewrite Z.compare_refl, Pos.compare_cont_refl.
    destruct s; (split; [intros _; discriminate|reflexivity]).
Qed.

(** "Not less" composes through a number that is not NaN. *)
Lemma float_not_ltb_number (t m v : float) :
  PrimFloat.is_nan m = false ->
  PrimFloat.ltb t m = false -> PrimFloat.ltb m v = false ->
  PrimFloat.ltb t v = false.
Proof.
  intros Hm. apply is_nan_rank in Hm. revert Hm.
  rewrite !ltb_false_rank. unfold rank_lt.
  destruct (float_rank t) as [[[? ?] ?]|], (float_rank m) as [[[? ?] ?]|],
           (float_rank v) as [[[? ?] ?]|]; try lia; congruence.
Qed.

Lemma max_from_In (x : float) (l : list float) : In (max_from x l) (x :: l).
Proof.
  unfold max_from. revert x. induction l as [|y l IH]; intros x; simpl.
  - left. reflexivity.
  - destruct (IH (if PrimFloat.ltb x y then y else x)) as [H|H].
    + destruct (PrimFloat.ltb x y); rewrite <- H; auto.
    + right. right. exact H.
Qed.

Lemma max_from_not_below (x : float) (l : list float) :
  (forall t, In t (x :: l) -> PrimFloat.ltb (max_from x l) t = false) /\
  (PrimFloat.ltb x (max_from x l) = true \/ max_from x l = x).
Proof.
  unfold max_from. revert x. induction l as [|y l IH]; intros x; simpl.
  - split; [|right; reflexivity].
    intros t [<-|[]]. apply float_ltb_irrefl.
  - destruct (IH (if PrimFloat.ltb x y then y else x)) as [Hall Hcur].
    set (m := fold_left _ l _) in *.
    destruct (PrimFloat.ltb x y) eqn:Exy.
    + assert (PrimFloat.ltb x m = true) as Hxm.
      { destruct Hcur as [Hcur|Hcur].
        - eapply float_ltb_trans; eassumption.
        - rewrite Hcur. exact Exy. }
      split; [|left; exact Hxm].
      intros t [<-|Ht]; [|apply Hall; exact Ht].
      destruct (PrimFloat.ltb m x) eqn:Emx; [|reflexivity].
      pose proof (float_ltb_trans _ _ _ Hxm Emx) as Hxx.
      rewrite float_ltb_irrefl in Hxx. discriminate.
    + split; [|exact Hcur].
      intros t [Ht|[<-|Ht]].
      * apply Hall. left. exact Ht.
      * destruct Hcur as [Hcur|Hcur].
        -- destruct (PrimFloat.ltb m y) eqn:Emy; [|reflexivity].
           pose proof (float_ltb_trans _ _ _ Hcur Emy). congruence.
        -- rewrite Hcur. exact Exy.
      * apply Hall. right. exact Ht.
Qed.

Lemma pymax_spec (l : list float) (m : float) :
  pymax l = Ok m ->
  In m l /\ forall t, In t l -> PrimFloat.ltb m t = false.
Proof.
  destruct l as [|x l]; simpl; [discriminate|].
  intros H. ok_inv H. split.
  - apply max_from_In.
  - apply max_from_not_below.
Qed.

Lemma zmin_from_spec (x : Z) (l : list Z) :
  In (zmin_from x l) (x :: l) /\
  forall t, In t (x :: l) -> (zmin_from x l <= t)%Z.
Proof.
  unfold zmin_from. revert x. induction l as [|y l IH]; intros x; simpl.
  - split; [left; reflexivity|]. intros t [<-|[]]. lia.
  - destruct (IH (if (y <? x)%Z then y else x)) as [Hin Hle].
    set (m := fold_left _ l _) in *.
    assert (m <= (if (y <? x)%Z then y else x))%Z as Hcur
        by (apply Hle; left; reflexivity).
    split.
    + destruct Hin as [Hin|Hin]; [|right; right; exact Hin].
      rewrite <- Hin. destruct (y <? x)%Z; auto.
    + intros t [<-|[<-|Ht]].
      * destruct (Z.ltb_spec y x); lia.
      * destruct (Z.ltb_spec y x); lia.
      * apply Hle. right. exact Ht.
Qed.

Lemma zmin_spec (l : list Z) (m : Z) :
  zmin l = Ok m -> In m l /\ forall t, In t l -> (m <= t)%Z.
Proof.
  destruct l as [|x l]; simpl; [discriminate|].
  intros H. ok_inv H. apply zmin_from_spec.
Qed.

Lemma forM_In_l {A B} (f : A -> result B) (l : list A) (ys : list B) (x : A) :
  forM f l = Ok ys -> In x l -> exists y, f x = Ok y /\ In y ys.
Proof.
  rewrite forM_Forall2. induction 1 as [|x0 y0 l ys Hxy _ IH].
  - intros [].
  - intros [<-|Hx].
    + exists y0. split; [exact Hxy|left; reflexivity].
    + destruct (IH Hx) as (y & Hy & Hin). exists y. split; [exact Hy|].
      right. exact Hin.
Qed.

Lemma forM_In_r {A B} (f : A -> result B) (l : list A) (ys : list B) (y : B) :
  forM f l = Ok ys -> In y ys -> exists x, In x l /\ f x = Ok y.
Proof.
  rewrite forM_Forall2. induction 1 as [|x0 y0 l ys Hxy _ IH].
  - intros [].
  - intros [<-|Hy].
    + exists x0. split; [left; reflexivity|exact Hxy].
    + destruct (IH Hy) as (x & Hin & Hx). exists x. split; [|exact Hx].
      right. exact Hin.
Qed.

(** X10.  The best ratio and the lowest memory generate_summary_table
    of analyze_compression.py highlights are values of the file, and
    extremal over all its algorithms and levels: no memory value is
    below the lowest memory, and no ratio of an algorithm whose own
    maximum is a number is above the best ratio. *)
Theorem best_values_ratio_and_memory_extremal
        (algorithms : dict Series) (best : AnalyzeCompression.BestValues) :
  AnalyzeCompression.best_values algorithms = Ok best ->
  value_of compression_ratio (values algorithms)
           (AnalyzeCompression.best_ratio best) /\
  none_above compression_ratio (values algorithms)
             (AnalyzeCompression.best_ratio best) /\
  value_of memory_usage (values algorithms)
           (AnalyzeCompression.best_memory best) /\
  none_less memory_usage (values algorithms)
            (AnalyzeCompression.best_memory best).
Proof.
  unfold AnalyzeCompression.best_values. intros H.
  bind_inv H. bind_inv H. bind_inv H. bind_inv H. bind_inv H. bind_inv H.
  ok_inv H. simpl.
  apply pymax_spec in Hx0. destruct Hx0 as [Hbest Hmost].
  apply zmin_spec in Hx4. destruct Hx4 as [Hlow Hleast].
  repeat split.
  - destruct (forM_In_r _ _ _ _ Hx Hbest) as (alg & Hin & Hmax).
    exists alg. split; [exact Hin|]. apply pymax_spec in Hmax. tauto.
  - intros alg top ratio Hin Htop Hnum Hratio.
    destruct (forM_In_l _ _ _ _ Hx Hin) as (top' & Htop' & Hin').
    rewrite Htop in Htop'. ok_inv Htop'. apply pymax_spec in Htop.
    eapply float_not_ltb_number; [exact Hnum|apply Hmost|apply Htop];
      assumption.
  - destruct (forM_In_r _ _ _ _ Hx3 Hlow) as (alg & Hin & Hmin).
    exists alg. split; [exact Hin|]. apply zmin_spec in Hmin. tauto.
  - intros alg memory Hin Hmemory.
    destruct (forM_In_l _ _ _ _ Hx3 Hin) as (low & Hmin & Hin').
    apply zmin_spec in Hmin. destruct Hmin as [_ Hmin].
    specialize (Hmin _ Hmemory). specialize (Hleast _ Hin'). lia.
Qed.

(** The theorem at a file of two algorithms. *)
Lemma best_values_ratio_and_memory_extremal_witness :
  value_of compression_ratio (values two_algorithms) 2.5%float /\
  none_above compression_ratio (values two_algorithms) 2.5%float /\
  value_of memory_usage (values two_algorithms) 500%Z /\
  none_less memory_usage (values two_algorithms) 500%Z.
Proof.
  apply (best_values_ratio_and_memory_extremal
           two_algorithms
           {| AnalyzeCompression.best_ratio := 2.5;
              AnalyzeCompression.best_comp_time := 0.3;
              AnalyzeCompression.best_decomp_time := 0.1;
              AnalyzeCompression.best_memory := 500 |}).
  vm_compute. reflexivity.
Defined.

Lemma forM_total {A B} (f : A -> result B) (l : list A) :
  (exists ys, forM f l = Ok ys) <-> Forall (fun x => exists y, f x = Ok y) l.
Proof.
  split.
  - intros (ys & H). apply forM_Forall2 in H.
    induction H as [|x y l ys Hxy _ IH]; constructor; eauto.
  - induction 1 as [|x l (y & Hy) _ (ys & Hys)]; simpl.
    + exists []. reflexivity.
    + rewrite Hy. simpl. rewrite Hys. simpl. eexists. reflexivity.
Qed.

Lemma pymax_Ok_iff (l : list float) : (exists m, pymax l = Ok m) <-> l <> [].
Proof.
  destruct l; simpl; split.
  - intros (m & H). discriminate.
  - intros H. contradiction.
  - discriminate.
  - intros _. eexists. reflexivity.
Qed.

Lemma pymin_Ok_iff (l : list float) : (exists m, pymin l = Ok m) <-> l <> [].
Proof.
  destruct l; simpl; split.
  - intros (m & H). discriminate.
  - intros H. contradiction.
  - discriminate.
  - intros _. eexists. reflexivity.
Qed.

Lemma zmin_Ok_iff (l : list Z) : (exists m, zmin l = Ok m) <-> l <> [].
Proof.
  destruct l; simpl; split.
  - intros (m & H). discriminate.
  - intros H. contradiction.
  - discriminate.
  - intros _. eexists. reflexivity.
Qed.

Lemma zmin_Raise (l : list Z) (e : exn) : zmin l = Raise e -> e = ValueError.
Proof. destruct l; simpl; congruence. Qed.

Lemma positive_minima_Ok_iff (field : Series -> list float)
      (algorithms : list Series) :
  (exists ms, AnalyzeCompression.positive_minima field algorithms = Ok ms) <->
  Forall (fun alg => field alg <> []) algorithms.
Proof.
  induction algorithms as [|alg rest IH]; simpl.
  - split; [constructor|]. intros _. eexists. reflexivity.
  - destruct (field alg) as [|t times] eqn:E; simpl.
    + split.
      * intros (ms & H). discriminate.
      * intros H. inversion H; subst. contradiction.
    + destruct (PrimFloat.ltb 0 (min_from t times)); simpl.
      * split.
        -- intros (ms & H). bind_inv H. constructor; [congruence|].
           apply IH. eauto.
        -- intros H. inversion H as [|? ? _ Hrest]; subst.
           apply IH in Hrest. destruct Hrest as (ms & ->). simpl.
           eexists. reflexivity.
      * rewrite IH. split.
        -- intros H. constructor; [congruence|exact H].
        -- intros H. inversion H; subst. assumption.
Qed.

Lemma best_time_Ok_iff (field : Series -> list float)
      (algorithms : dict Series) :
  (exists v, AnalyzeCompression.best_time field algorithms = Ok v) <->
  Forall (fun alg => field alg <> []) (values algorithms) /\
  List.Exists (positive_minimum field) (values algorithms).
Proof.
  unfold AnalyzeCompression.best_time. split.
  - intros (v & H). bind_inv H. split.
    + apply positive_minima_Ok_iff. eauto.
    + apply pymin_spec in H. destruct H as [Hv _].
      apply (positive_minima_spec _ _ _ Hx) in Hv.
      destruct Hv as (alg & Hin & Hmin & Hpos).
      apply List.Exists_exists. exists alg. split; [exact Hin|].
      exists v. auto.
  - intros [Hall Hex]. apply positive_minima_Ok_iff in Hall.
    destruct Hall as (ms & Hms). rewrite Hms. simpl.
    apply pymin_Ok_iff. apply List.Exists_exists in Hex.
    destruct Hex as (alg & Hin & m & Hmin & Hpos).
    assert (In m ms) as Hm
        by (apply (positive_minima_spec _ _ _ Hms); exists alg; auto).
    destruct ms; [destruct Hm|discriminate].
Qed.

Lemma best_values_Ok_iff (algorithms : dict Series) :
  (exists best, AnalyzeCompression.best_values algorithms = Ok best) <->
  Forall measured (values algorithms) /\
  List.Exists (positive_minimum compression_time) (values algorithms) /\
  List.Exists (positive_minimum decompression_time) (values algorithms).
Proof.
  unfold AnalyzeCompression.best_values. split.
  - intros (best & H).
    bind_inv H. bind_inv H. bind_inv H. bind_inv H. bind_inv H. bind_inv H.
    assert (Forall (fun alg => exists y, pymax (compression_ratio alg) = Ok y)
                   (values algorithms)) as Hratio
        by (apply forM_total; eauto).
    assert (Forall (fun alg => exists y, zmin (memory_usage alg) = Ok y)
                   (values algorithms)) as Hmemory
        by (apply forM_total; eauto).
    assert (exists v, AnalyzeCompression.best_time compression_time algorithms
                      = Ok v) as Hcomp by eauto.
    assert (exists v, AnalyzeCompression.best_time decompression_time
                                                   algorithms
                      = Ok v) as Hdecomp by eauto.
    apply best_time_Ok_iff in Hcomp, Hdecomp.
    destruct Hcomp as [Hcomp Hcpos], Hdecomp as [Hdecomp Hdpos].
    split; [|split; assumption].
    rewrite List.Forall_forall in *. intros alg Hin. unfold measured.
    specialize (Hratio alg Hin). apply pymax_Ok_iff in Hratio.
    specialize (Hmemory alg Hin). apply zmin_Ok_iff in Hmemory.
    auto.
  - intros (Hall & Hcpos & Hdpos).
    assert (exists maxima,
               forM (fun alg => pymax (compression_ratio alg))
                    (values algorithms) = Ok maxima) as (maxima & Hmaxima).
    { apply forM_total. eapply Forall_impl; [exact Hall|].
      intros alg Halg. apply pymax_Ok_iff. apply Halg. }
    assert (exists minima,
               forM (fun alg => zmin (memory_usage alg))
                    (values algorithms) = Ok minima) as (minima & Hminima).
    { apply forM_total. eapply Forall_impl; [exact Hall|].
      intros alg Halg. apply zmin_Ok_iff. apply Halg. }
    assert (values algorithms <> []) as Hsome.
    { intros Hnil. rewrite Hnil in Hcpos. inversion Hcpos. }
    assert (exists v, pymax maxima = Ok v) as (best_ratio & Hratio).
    { apply pymax_Ok_iff. intros ->. apply forM_length in Hmaxima.
      destruct (values algorithms); [contradiction|discriminate]. }
    assert (exists v, zmin minima = Ok v) as (best_memory & Hmemory).
    { apply zmin_Ok_iff. intros ->. apply forM_length in Hminima.
      destruct (values algorithms); [contradiction|discriminate]. }
    assert (exists v, AnalyzeCompression.best_time compression_time algorithms
                      = Ok v) as (best_comp & Hcomp).
    { apply best_time_Ok_iff. split; [|exact Hcpos].
      eapply Forall_impl; [exact Hall|]. intros alg Halg. apply Halg. }
    assert (exists v, AnalyzeCompression.best_time decompression_time
                                                   algorithms
                      = Ok v) as (best_decomp & Hdecomp).
    { apply best_time_Ok_iff. split; [|exact Hdpos].
      eapply Forall_impl; [exact Hall|]. intros alg Halg. apply Halg. }
    rewrite Hmaxima. simpl. rewrite Hratio. simpl. rewrite Hcomp. simpl.
    rewrite Hdecomp. simpl. rewrite Hminima. simpl. rewrite Hmemory. simpl.
    eexists. reflexivity.
Qed.

Lemma best_values_Raise (algorithms : dict Series) (e : exn) :
  AnalyzeCompression.best_values algorithms = Raise e -> e = ValueError.
Proof.
  unfold AnalyzeCompression.best_values. revert e.
  - intros e.
    destruct (forM _ (values algorithms)) as [maxima|e1] eqn:E1; simpl.
    2:{ intros H. ok_inv H. eapply forM_Raise_ValueError; [|exact E1].
        intros alg e'. apply pymax_Raise. }
    destruct (pymax maxima) as [best_ratio|e2] eqn:E2; simpl.
    2:{ intros H. ok_inv H. eapply pymax_Raise. exact E2. }
    destruct (AnalyzeCompression.best_time compression_time algorithms)
      as [best_comp|e3] eqn:E3; simpl.
    2:{ intros H. ok_inv H. eapply best_time_Raise. exact E3. }
    destruct (AnalyzeCompression.best_time decompression_time algorithms)
      as [best_decomp|e4] eqn:E4; simpl.
    2:{ intros H. ok_inv H. eapply best_time_Raise. exact E4. }
    destruct (forM (fun alg => zmin (memory_usage alg)) (values algorithms))
      as [minima|e5] eqn:E5; simpl.
    2:{ intros H. ok_inv H. eapply forM_Raise_ValueError; [|exact E5].
        intros alg e'. apply zmin_Raise. }
    destruct (zmin minima) as [best_memory|e6] eqn:E6; simpl.
    2:{ intros H. ok_inv H. eapply zmin_Raise. exact E6. }
    discriminate.
Qed.

(** X11.  The best values generate_summary_table of
    analyze_compression.py computes for a file exist exactly when every
    algorithm of the file has a record and, for compression and for
    decompression, some algorithm has a positive least duration; in
    every other case the computation raises ValueError and nothing
    else. *)
Theorem best_values_completes_iff (algorithms : dict Series) :
  ((exists best, AnalyzeCompression.best_values algorithms = Ok best) <->
   Forall measured (values algorithms) /\
   List.Exists (positive_minimum compression_time) (values algorithms) /\
   List.Exists (positive_minimum decompression_time) (values algorithms)) /\
  (forall e, AnalyzeCompression.best_values algorithms = Raise e ->
             e = ValueError).
Proof.
  split; [apply best_values_Ok_iff|apply best_values_Raise].
Qed.

(** ** The first pass of create_html_summary *)

Lemma ltb_numbers (x y : float) :
  PrimFloat.ltb x y = true ->
  PrimFloat.is_nan x = false /\ PrimFloat.is_nan y = false.
Proof.
  rewrite ltb_rank, !is_nan_rank. unfold rank_lt.
  destruct (float_rank x) as [[[? ?] ?]|], (float_rank y) as [[[? ?] ?]|];
    intros H; try contradiction; split; discriminate.
Qed.

Lemma pymin2_fold {A} (g : A -> float) (l : list A) (cur : float) :
  PrimFloat.is_nan cur = false ->
  PrimFloat.is_nan (fold_left (fun cur m => pymin2 cur (g m)) l cur) = false /\
  PrimFloat.ltb cur (fold_left (fun cur m => pymin2 cur (g m)) l cur) = false /\
  forall m, In m l ->
            PrimFloat.ltb (g m) (fold_left (fun cur m => pymin2 cur (g m)) l cur)
            = false.
Proof.
  revert cur. induction l as [|a l IH]; intros cur Hcur; simpl.
  - split; [exact Hcur|]. split; [apply float_ltb_irrefl|]. intros m [].
  - destruct (PrimFloat.ltb (g a) cur) eqn:E.
    + assert (pymin2 cur (g a) = g a) as ->
          by (unfold pymin2; rewrite E; reflexivity).
      destruct (ltb_numbers _ _ E) as [Ha _].
      destruct (IH _ Ha) as (Hnum & Hbest & Hall).
      set (best := fold_left _ l (g a)) in *.
      split; [exact Hnum|]. split.
      * destruct (PrimFloat.ltb cur best) eqn:Ecur; [|reflexivity].
        pose proof (float_ltb_trans _ _ _ E Ecur). congruence.
      * intros m [<-|Hm]; [exact Hbest|apply Hall; exact Hm].
    + assert (pymin2 cur (g a) = cur) as ->
          by (unfold pymin2; rewrite E; reflexivity).
      destruct (IH _ Hcur) as (Hnum & Hbest & Hall).
      set (best := fold_left _ l cur) in *.
      split; [exact Hnum|]. split; [exact Hbest|].
      intros m [<-|Hm]; [|apply Hall; exact Hm].
      apply (float_not_ltb_number _ cur); assumption.
Qed.

Lemma pymax2_fold (l : list float) (cur : float) :
  PrimFloat.is_nan cur = false ->
  PrimFloat.is_nan (fold_left pymax2 l cur) = false /\
  PrimFloat.ltb (fold_left pymax2 l cur) cur = false /\
  forall m, In m l -> PrimFloat.ltb (fold_left pymax2 l cur) m = false.
Proof.
  revert cur. induction l as [|a l IH]; intros cur Hcur; simpl.
  - split; [exact Hcur|]. split; [apply float_ltb_irrefl|]. intros m [].
  - destruct (PrimFloat.ltb cur a) eqn:E.
    + assert (pymax2 cur a = a) as ->
          by (unfold pymax2; rewrite E; reflexivity).
      destruct (ltb_numbers _ _ E) as [_ Ha].
      destruct (IH _ Ha) as (Hnum & Hbest & Hall).
      set (best := fold_left _ l a) in *.
      split; [exact Hnum|]. split.
      * destruct (PrimFloat.ltb best cur) eqn:Ecur; [|reflexivity].
        pose proof (float_ltb_trans _ _ _ Ecur E). congruence.
      * intros m [<-|Hm]; [exact Hbest|apply Hall; exact Hm].
    + assert (pymax2 cur a = cur) as ->
          by (unfold pymax2; rewrite E; reflexivity).
      destruct (IH _ Hcur) as (Hnum & Hbest & Hall).
      set (best := fold_left _ l cur) in *.
      split; [exact Hnum|]. split; [exact Hbest|].
      intros m [<-|Hm]; [|apply Hall; exact Hm].
      apply (float_not_ltb_number _ cur); assumption.
Qed.

Lemma memory_min_fold {A} (g : A -> list Z) (l : list A) (cur : option Z) :
  (forall c, cur = Some c ->
             exists z,
               fold_left (fun cur m => VisualizeJson.memory_min cur (g m)) l cur
               = Some z /\ (z <= c)%Z) /\
  (forall m x, In m l -> In x (g m) ->
               exists z,
                 fold_left (fun cur m => VisualizeJson.memory_min cur (g m))
                           l cur
                 = Some z /\ (z <= x)%Z).
Proof.
  revert cur. induction l as [|a l IH]; intros cur; simpl.
  - split; [|intros m x []]. intros c ->. exists c. split; [reflexivity|lia].
  - destruct (IH (VisualizeJson.memory_min cur (g a))) as [Hcur Hall].
    set (best := fold_left _ l _) in *.
    unfold VisualizeJson.memory_min in Hcur.
    destruct (g a) as [|x0 rest] eqn:Ega.
    + split; [exact Hcur|].
      intros m x [<-|Hm] Hx; [rewrite Ega in Hx; destruct Hx|].
      eapply Hall; eassumption.
    + destruct (zmin_from_spec x0 rest) as [_ Hleast].
      destruct cur as [b|].
      * destruct (Hcur _ eq_refl) as (z & Hz & Hle).
        split.
        -- intros c Hc. ok_inv Hc. exists z. split; [exact Hz|].
           destruct (Z.ltb_spec (zmin_from x0 rest) c); lia.
        -- intros m x [<-|Hm] Hx; [|eapply Hall; eassumption].
           rewrite Ega in Hx. specialize (Hleast _ Hx).
           exists z. split; [exact Hz|].
           destruct (Z.ltb_spec (zmin_from x0 rest) b); lia.
      * destruct (Hcur _ eq_refl) as (z & Hz & Hle).
        split; [discriminate|].
        intros m x [<-|Hm] Hx; [|eapply Hall; eassumption].
        rewrite Ega in Hx. specialize (Hleast _ Hx).
        exists z. split; [exact Hz|lia].
Qed.

Lemma json_first_pass_fields (l : list VisualizeJson.JSeries)
      (b0 b : VisualizeJson.BestValues) :
  foldM VisualizeJson.first_pass l b0 = Ok b ->
  (exists maxima,
      forM (fun m => pymax (VisualizeJson.ratios m)) l = Ok maxima /\
      VisualizeJson.best_ratio b
      = fold_left pymax2 maxima (VisualizeJson.best_ratio b0)) /\
  VisualizeJson.best_comp_time b
  = fold_left (fun cur m =>
                 pymin2 cur (VisualizeJson.series_min
                               (VisualizeJson.compression_times m)))
              l (VisualizeJson.best_comp_time b0) /\
  VisualizeJson.best_decomp_time b
  = fold_left (fun cur m =>
                 pymin2 cur (VisualizeJson.series_min
                               (VisualizeJson.decompression_times m)))
              l (VisualizeJson.best_decomp_time b0) /\
  VisualizeJson.best_memory b
  = fold_left (fun cur m =>
                 VisualizeJson.memory_min cur (VisualizeJson.memory_usage m))
              l (VisualizeJson.best_memory b0).
Proof.
  revert b0. induction l as [|m l IH]; intros b0 H; simpl in H.
  - ok_inv H. simpl. split; [|auto]. exists []. auto.
  - bind_inv H. unfold VisualizeJson.first_pass in Hx. bind_inv Hx.
    ok_inv Hx. destruct (IH _ H) as ((maxima & Hmaxima & Hratio) & Hrest).
    simpl in *. split; [|exact Hrest].
    exists (x0 :: maxima). rewrite Hx0. simpl. rewrite Hmaxima. simpl.
    split; [reflexivity|exact Hratio].
Qed.

Lemma json_first_pass_Ok_iff (l : list VisualizeJson.JSeries)
      (b0 : VisualizeJson.BestValues) :
  (exists b, foldM VisualizeJson.first_pass l b0 = Ok b) <->
  Forall (fun m => VisualizeJson.ratios m <> []) l.
Proof.
  revert b0. induction l as [|m l IH]; intros b0; simpl.
  - split; [constructor|]. intros _. eexists. reflexivity.
  - unfold VisualizeJson.first_pass at 1.
    destruct (VisualizeJson.ratios m) as [|r ratios] eqn:E; simpl.
    + split.
      * intros (b & H). discriminate.
      * intros H. inversion H; subst. contradiction.
    + rewrite IH. split.
      * intros H. constructor; [congruence|exact H].
      * intros H. inversion H; subst. assumption.
Qed.

Lemma json_first_pass_Raise (l : list VisualizeJson.JSeries)
      (b0 : VisualizeJson.BestValues) (e : exn) :
  foldM VisualizeJson.first_pass l b0 = Raise e -> e = ValueError.
Proof.
  revert b0. induction l as [|m l IH]; intros b0; simpl; [discriminate|].
  unfold VisualizeJson.first_pass at 1.
  destruct (VisualizeJson.ratios m) as [|r ratios]; simpl.
  - intros H. ok_inv H. reflexivity.
  - apply IH.
Qed.

(** X12.  The best values the first pass of create_html_summary
    (visualize_json.py) leaves for a test are numbers, never NaN; no
    ratio of an algorithm whose own maximum is a number is above the
    best ratio, no duration of an algorithm whose own minimum is a
    number is below the fastest time, and no memory value of any
    algorithm is below the lowest memory. *)
Theorem html_summary_best_values_bound
        (algorithms : dict VisualizeJson.JSeries)
        (best : VisualizeJson.BestValues) :
  VisualizeJson.best_values algorithms = Ok best ->
  (PrimFloat.is_nan (VisualizeJson.best_ratio best) = false /\
   PrimFloat.is_nan (VisualizeJson.best_comp_time best) = false /\
   PrimFloat.is_nan (VisualizeJson.best_decomp_time best) = false) /\
  none_above VisualizeJson.ratios (values algorithms)
             (VisualizeJson.best_ratio best) /\
  none_below VisualizeJson.compression_times (values algorithms)
             (VisualizeJson.best_comp_time best) /\
  none_below VisualizeJson.decompression_times (values algorithms)
             (VisualizeJson.best_decomp_time best) /\
  (forall alg x,
      In alg (values algorithms) -> In x (VisualizeJson.memory_usage alg) ->
      exists z, VisualizeJson.best_memory best = Some z /\ (z <= x)%Z).
Proof.
  unfold VisualizeJson.best_values. intros H.
  apply json_first_pass_fields in H.
  destruct H as ((maxima & Hmaxima & ->) & -> & -> & ->). simpl.
  assert (PrimFloat.is_nan 0 = false) as Hzero by reflexivity.
  assert (PrimFloat.is_nan infinity = false) as Hinf by reflexivity.
  destruct (pymax2_fold maxima 0 Hzero) as (Hratio & _ & Hmost).
  destruct (pymin2_fold
              (fun m => VisualizeJson.series_min
                          (VisualizeJson.compression_times m))
              (values algorithms) infinity Hinf) as (Hcomp & _ & Hfast).
  destruct (pymin2_fold
              (fun m => VisualizeJson.series_min
                          (VisualizeJson.decompression_times m))
              (values algorithms) infinity Hinf) as (Hdecomp & _ & Hdfast).
  split; [auto|]. split; [|split; [|split]].
  - intros alg top x Hin Htop Hnum Hx.
    destruct (forM_In_l _ _ _ _ Hmaxima Hin) as (top' & Htop' & Hin').
    rewrite Htop in Htop'. ok_inv Htop'. apply pymax_spec in Htop.
    eapply float_not_ltb_number; [exact Hnum|apply Hmost|apply Htop];
      assumption.
  - intros alg low x Hin Hlow Hnum Hx. specialize (Hfast _ Hin).
    unfold VisualizeJson.series_min in Hfast.
    destruct (VisualizeJson.compression_times alg) as [|t times];
      [destruct Hx|].
    simpl in Hlow. ok_inv Hlow.
    eapply float_not_ltb_number;
      [exact Hnum|apply min_from_not_above; exact Hx|exact Hfast].
  - intros alg low x Hin Hlow Hnum Hx. specialize (Hdfast _ Hin).
    unfold VisualizeJson.series_min in Hdfast.
    destruct (VisualizeJson.decompression_times alg) as [|t times];
      [destruct Hx|].
    simpl in Hlow. ok_inv Hlow.
    eapply float_not_ltb_number;
      [exact Hnum|apply min_from_not_above; exact Hx|exact Hdfast].
  - intros alg x Hin Hx.
    eapply (memory_min_fold VisualizeJson.memory_usage); eassumption.
Qed.

(** The theorem at a test of two algorithms, the first with
    compression times of zero. *)
Lemma html_summary_best_values_bound_witness :
  (PrimFloat.is_nan 2.5 = false /\ PrimFloat.is_nan 0 = false /\
   PrimFloat.is_nan 0.1 = false) /\
  none_above VisualizeJson.ratios (values two_jalgorithms) 2.5%float /\
  none_below VisualizeJson.compression_times (values two_jalgorithms)
             0%float /\
  none_below VisualizeJson.decompression_times (values two_jalgorithms)
             0.1%float /\
  (forall alg x,
      In alg (values two_jalgorithms) ->
      In x (VisualizeJson.memory_usage alg) ->
      exists z, Some 500%Z = Some z /\ (z <= x)%Z).
Proof.
  apply (html_summary_best_values_bound
           two_jalgorithms
           {| VisualizeJson.best_ratio := 2.5;
              VisualizeJson.best_comp_time := 0;
              VisualizeJson.best_decomp_time := 0.1;
              VisualizeJson.best_memory := Some 500%Z |}).
  vm_compute. reflexivity.
Defined.

(** X13.  The first pass of create_html_summary completes exactly when
    every algorithm of the test has at least one ratio (empty lists of
    durations or of memory values are skipped); in every other case it
    raises ValueError and nothing else. *)
Theorem html_summary_best_values_completes_iff
        (algorithms : dict VisualizeJson.JSeries) :
  ((exists best, VisualizeJson.best_values algorithms = Ok best) <->
   Forall (fun alg => VisualizeJson.ratios alg <> []) (values algorithms)) /\
  (forall e, VisualizeJson.best_values algorithms = Raise e ->
             e = ValueError).
Proof.
  unfold VisualizeJson.best_values. split.
  - apply json_first_pass_Ok_iff.
  - intros e. apply json_first_pass_Raise.
Qed.

(** ** The tables on the models the normalisers return *)

Lemma dict_set_Forall {V} (P : V -> Prop) (k : string) (v : V) (d : dict V) :
  P v -> Forall P (values d) -> Forall P (values (dict_set k v d)).
Proof.
  intros Hv. induction d as [|[k' v'] d IH]; simpl; intros H.
  - constructor; [exact Hv|constructor].
  - inversion H; subst.
    destruct (String.eqb k k'); simpl; constructor; auto.
Qed.

Lemma dict_set_set {V} (k : string) (v v' : V) (d : dict V) :
  dict_set k v' (dict_set k v d) = dict_set k v' d.
Proof.
  induction d as [|[k0 v0] d IH]; simpl.
  - rewrite String.eqb_refl. reflexivity.
  - destruct (String.eqb k k0) eqn:E; simpl; rewrite E; [reflexivity|].
    rewrite IH. reflexivity.
Qed.

Lemma dict_get_In {V} (k : string) (d : dict V) (v : V) :
  dict_get k d = Some v -> In v (values d).
Proof.
  induction d as [|[k' v'] d IH]; simpl; [discriminate|].
  destruct (String.eqb k k').
  - intros H. ok_inv H. left. reflexivity.
  - intros H. right. apply IH. exact H.
Qed.

Lemma dict_set_ensure_Forall {V} (P : V -> Prop) (k : string) (fresh v : V)
      (d : dict V) :
  P v -> Forall P (values d) ->
  Forall P (values (dict_set k v (if dict_mem k d then d
                                  else dict_set k fresh d))).
Proof.
  intros Hv Hd. destruct (dict_mem k d).
  - apply dict_set_Forall; assumption.
  - rewrite dict_set_set. apply dict_set_Forall; assumption.
Qed.

Lemma for_values_Forall {V W} (f : V -> result W) (P : V -> Prop)
      (Q : W -> Prop) (d : dict V) (d' : dict W) :
  (forall v w, P v -> f v = Ok w -> Q w) ->
  AnalyzeCompression.for_values f d = Ok d' ->
  Forall P (values d) -> Forall Q (values d').
Proof.
  intros Hf H. unfold AnalyzeCompression.for_values in H.
  apply forM_Forall2 in H.
  induction H as [|[k v] [k' w] d d' Hx _ IH]; simpl; intros Hd;
    [constructor|].
  bind_inv Hx. ok_inv Hx. inversion Hd; subst.
  constructor; [eapply Hf; eassumption|apply IH; assumption].
Qed.

Section ModelsForall.

Variable py_int : string -> option Z.
Variable py_float : string -> option float.
Variable argsort : list level_key -> list nat.
Hypothesis argsort_ok : permutes argsort.

Lemma analyze_add_algorithm_recorded file_results item file_results' :
  AnalyzeCompression.add_algorithm py_int py_float file_results item
  = Ok file_results' ->
  Forall recorded (values file_results) ->
  Forall recorded (values file_results').
Proof.
  destruct item as [algorithm levels].
  unfold AnalyzeCompression.add_algorithm. rewrite dict_item_ensure.
  intros H Hall. simpl in H. bind_inv H. bind_inv H. ok_inv H.
  apply dict_set_ensure_Forall; [|exact Hall].
  destruct (dict_get algorithm file_results) as [s|] eqn:E.
  - apply dict_get_In in E. rewrite List.Forall_forall in Hall.
    destruct (Hall _ E) as (n & Hn & Hlen).
    exists (n + length levels). split; [lia|].
    eapply add_levels_lengths; [exact Hx0|].
    eapply record_original_size_lengths; eassumption.
  - exists (0 + length levels). split.
    + unfold AnalyzeCompression.record_original_size in Hx. simpl in Hx.
      destruct levels; [discriminate|]. simpl. lia.
    + eapply add_levels_lengths; [exact Hx0|].
      eapply record_original_size_lengths; [exact Hx|]. repeat split.
Qed.

Lemma analyze_collect_recorded json_data results :
  AnalyzeCompression.collect py_int py_float json_data = Ok results ->
  Forall (fun algorithms => Forall recorded (values algorithms))
         (values results).
Proof.
  unfold AnalyzeCompression.collect. rewrite foldM_concat. intros H0.
  refine (foldM_invariant
            _ (fun results : Results =>
                 Forall (fun algorithms => Forall recorded (values algorithms))
                        (values results))
            _ _ _ _ _ H0); [|constructor].
  intros r [filename algorithms] r' Hr H.
  unfold AnalyzeCompression.add_file, Results in *.
  rewrite dict_item_ensure in H. simpl in H. bind_inv H. ok_inv H.
  apply dict_set_ensure_Forall; [|exact Hr].
  refine (foldM_invariant
            _ (fun file_results => Forall recorded (values file_results))
            _ _ _ _ _ Hx).
  - intros fr item fr' Hfr Hitem.
    eapply analyze_add_algorithm_recorded; eassumption.
  - destruct (dict_get filename r) as [fr|] eqn:E; [|constructor].
    apply dict_get_In in E. rewrite List.Forall_forall in Hr.
    apply Hr. exact E.
Qed.

Lemma extract_data_recorded json_data results filename algorithms :
  AnalyzeCompression.extract_data py_int py_float argsort json_data
  = Ok results ->
  dict_get filename results = Some algorithms ->
  Forall recorded (values algorithms).
Proof.
  unfold AnalyzeCompression.extract_data. intros H Hfile. bind_inv H.
  apply analyze_collect_recorded in Hx.
  unfold AnalyzeCompression.sort_results in H.
  assert (Forall (fun algorithms => Forall recorded (values algorithms))
                 (values results)) as Hsorted.
  { eapply for_values_Forall; [|exact H|exact Hx].
    intros algs0 algs Halgs0 Hsort.
    eapply for_values_Forall; [|exact Hsort|exact Halgs0].
    intros s0 s (n & Hn & Hlen) Hs. exists n. split; [exact Hn|].
    eapply sort_series_lengths; eassumption. }
  apply dict_get_In in Hfile. rewrite List.Forall_forall in Hsorted.
  apply Hsorted. exact Hfile.
Qed.

Lemma json_add_levels_length lvls s s' :
  foldM (VisualizeJson.add_level py_int py_float) lvls s = Ok s' ->
  length (VisualizeJson.ratios s')
  = length (VisualizeJson.ratios s) + length lvls /\
  length (VisualizeJson.levels s')
  = length (VisualizeJson.levels s) + length lvls.
Proof.
  revert s. induction lvls as [|[level data] lvls IH]; intros s H;
    simpl in H.
  - ok_inv H. simpl. lia.
  - bind_inv H. destruct (IH _ H) as [-> ->].
    unfold VisualizeJson.add_level in Hx.
    bind_inv Hx. bind_inv Hx. bind_inv Hx. ok_inv Hx. simpl.
    rewrite !length_app. simpl. lia.
Qed.

Lemma json_build_ratios lvls s :
  json_build py_int py_float argsort lvls = Ok s ->
  VisualizeJson.ratios s <> [].
Proof.
  unfold json_build. intros H. bind_inv H. bind_inv H.
  apply json_add_levels_length in Hx0. simpl in Hx0.
  destruct Hx0 as [_ Hlevels].
  pose proof (argsort_ok (map LInt (VisualizeJson.levels x0))) as Hperm.
  apply Permutation_length in Hperm.
  rewrite length_seq, length_map, Hlevels in Hperm.
  unfold VisualizeJson.sort_series in H.
  bind_inv H. bind_inv H. bind_inv H. bind_inv H. bind_inv H. bind_inv H.
  ok_inv H. simpl. apply reindex_length in Hx1. rewrite Hperm in Hx1.
  destruct lvls; [discriminate|]. destruct x2; [discriminate|discriminate].
Qed.

Lemma json_process_data_ratios json_data results :
  VisualizeJson.process_data py_int py_float argsort json_data = Ok results ->
  Forall (fun algorithms =>
            Forall (fun s => VisualizeJson.ratios s <> []) (values algorithms))
         (values results).
Proof.
  unfold VisualizeJson.process_data. rewrite foldM_concat. intros H0.
  refine (foldM_invariant
            _ (fun results : dict (dict VisualizeJson.JSeries) =>
                 Forall (fun algorithms =>
                           Forall (fun s => VisualizeJson.ratios s <> [])
                                  (values algorithms))
                        (values results))
            _ _ _ _ _ H0); [|constructor].
  intros r [test_name algorithms] r' Hr H.
  unfold VisualizeJson.add_test, dict_item in H.
  rewrite dict_get_set_eq in H. simpl in H. bind_inv H. ok_inv H.
  rewrite dict_set_set. apply dict_set_Forall; [|exact Hr].
  refine (foldM_invariant
            _ (fun test_results : dict VisualizeJson.JSeries =>
                 Forall (fun s => VisualizeJson.ratios s <> [])
                        (values test_results))
            _ _ _ _ _ Hx); [|constructor].
  intros tr [algorithm lvls] tr' Htr Hitem.
  apply json_add_algorithm_build in Hitem.
  destruct Hitem as (s & Hs & ->).
  apply dict_set_Forall; [|exact Htr]. eapply json_build_ratios. exact Hs.
Qed.

End ModelsForall.

(** X14.  On the model [process_data] of visualize_json.py returns,
    the first pass of create_html_summary finds best values for every
    test: it never raises there. *)
Theorem html_summary_best_values_on_model
        (py_int : string -> option Z) (py_float : string -> option float)
        (argsort : list level_key -> list nat)
        (json_data : JsonData) (results : dict (dict VisualizeJson.JSeries))
        (test_name : string) (algorithms : dict VisualizeJson.JSeries) :
  permutes argsort ->
  VisualizeJson.process_data py_int py_float argsort json_data = Ok results ->
  dict_get test_name results = Some algorithms ->
  exists best, VisualizeJson.best_values algorithms = Ok best.
Proof.
  intros Hspec H Htest. unfold VisualizeJson.best_values.
  apply json_first_pass_Ok_iff.
  apply (json_process_data_ratios _ _ _ Hspec) in H.
  apply dict_get_In in Htest. rewrite List.Forall_forall in H.
  apply H. exact Htest.
Qed.

(** The theorem at the scenario. *)
Lemma html_summary_best_values_on_model_witness :
  exists best,
    VisualizeJson.best_values [("zstd", scenario_jseries)] = Ok best.
Proof.
  apply (html_summary_best_values_on_model
           int_dec float_dec argsort_stable scenario_doc
           [("fileA", [("zstd", scenario_jseries)])] "fileA").
  - exact argsort_stable_permutes.
  - vm_compute. reflexivity.
  - reflexivity.
Defined.

(** X15.  On the model [extract_data] of analyze_compression.py
    returns, generate_summary_table finds the best values of a file
    exactly when some algorithm of the file has a positive least
    compression time and some algorithm has a positive least
    decompression time; otherwise it raises ValueError. *)
Theorem summary_best_values_on_model
        (py_int : string -> option Z) (py_float : string -> option float)
        (argsort : list level_key -> list nat)
        (json_data : JsonData) (results : Results)
        (filename : string) (algorithms : dict Series) :
  permutes argsort ->
  AnalyzeCompression.extract_data py_int py_float argsort json_data
  = Ok results ->
  dict_get filename results = Some algorithms ->
  ((exists best, AnalyzeCompression.best_values algorithms = Ok best) <->
   List.Exists (positive_minimum compression_time) (values algorithms) /\
   List.Exists (positive_minimum decompression_time) (values algorithms)) /\
  ((forall best, AnalyzeCompression.best_values algorithms <> Ok best) ->
   AnalyzeCompression.best_values algorithms = Raise ValueError).
Proof.
  intros Hspec H Hfile.
  pose proof (extract_data_recorded _ _ _ Hspec _ _ _ _ H Hfile) as Hall.
  split.
  - rewrite best_values_Ok_iff. split; [tauto|].
    intros [Hcomp Hdecomp]. split; [|tauto].
    eapply Forall_impl; [exact Hall|].
    intros s (n & Hn & H1 & H2 & H3 & H4 & H5 & H6 & H7).
    unfold measured.
    destruct (compression_ratio s), (compression_time s),
      (decompression_time s), (memory_usage s); simpl in *;
      try lia; repeat split; discriminate.
  - intros Hnone.
    destruct (AnalyzeCompression.best_values algorithms) as [best|e] eqn:E.
    + exfalso. exact (Hnone best eq_refl).
    + f_equal. eapply best_values_Raise. exact E.
Qed.

(** The theorem at the scenario. *)
Lemma summary_best_values_on_model_witness :
  ((exists best,
       AnalyzeCompression.best_values [("zstd", scenario_series)] = Ok best) <->
   List.Exists (positive_minimum compression_time)
               (values [("zstd", scenario_series)]) /\
   List.Exists (positive_minimum decompression_time)
               (values [("zstd", scenario_series)])) /\
  ((forall best,
       AnalyzeCompression.best_values [("zstd", scenario_series)] <> Ok best) ->
   AnalyzeCompression.best_values [("zstd", scenario_series)]
   = Raise ValueError).
Proof.
  apply (summary_best_values_on_model
           int_dec float_dec argsort_stable scenario_doc
           [("fileA", [("zstd", scenario_series)])] "fileA").
  - exact argsort_stable_permutes.
  - vm_compute. reflexivity.
  - reflexivity.
Defined.

(** X16.  On every series [extract_data] of analyze_compression.py
    returns, the detailed table of generate_summary_table raises
    nothing and shows one row per record of the series, in the order of
    the series; a row holds the fields of its record, the percentage as
    its complement to 100; and there are as many rows as level entries
    met for the pair. *)
Theorem detail_rows_on_model
        (py_int : string -> option Z) (py_float : string -> option float)
        (argsort : list level_key -> list nat)
        (json_data : JsonData) (results : Results)
        (filename algorithm : string) (s : Series) :
  permutes argsort ->
  AnalyzeCompression.extract_data py_int py_float argsort json_data
  = Ok results ->
  series_at filename algorithm results = Some s ->
  AnalyzeCompression.detail_rows s = Ok (map row_of (records s)) /\
  length (records s) = length (encountered filename algorithm json_data).
Proof.
  intros Hspec H Hs. unfold AnalyzeCompression.extract_data in H.
  bind_inv H.
  destruct (series_at_sorted _ _ _ _ _ _ H Hs) as (s0 & Hs0 & Hsort).
  assert (lengths s (length (encountered filename algorithm json_data)))
    as Hlen.
  { eapply sort_series_lengths; [exact Hspec|exact Hsort|].
    eapply collect_counted; eassumption. }
  split.
  - eapply detail_rows_records. exact Hlen.
  - apply lengths_records. exact Hlen.
Qed.

(** The theorem at the scenario. *)
Lemma detail_rows_on_model_witness :
  AnalyzeCompression.detail_rows scenario_series
  = Ok (map row_of (records scenario_series)) /\
  length (records scenario_series)
  = length (encountered "fileA" "zstd" scenario_doc).
Proof.
  apply (detail_rows_on_model
           int_dec float_dec argsort_stable scenario_doc
           [("fileA", [("zstd", scenario_series)])]).
  - exact argsort_stable_permutes.
  - vm_compute. reflexivity.
  - reflexivity.
Defined.

(** ** The cells of the fastest times *)

Lemma eqb_number (x y : float) :
  PrimFloat.eqb x y = true -> PrimFloat.is_nan x = false.
Proof.
  rewrite FloatAxioms.eqb_spec. intros H. apply is_nan_rank.
  unfold float_rank. unfold SFeqb in H.
  destruct (Prim2SF x); simpl in *; discriminate.
Qed.

Lemma eqb_not_ltb (x y : float) :
  PrimFloat.eqb x y = true -> PrimFloat.ltb x y = false.
Proof.
  rewrite FloatAxioms.eqb_spec, ltb_spec. unfold SFeqb, SFltb.
  destruct (SFcompare (Prim2SF x) (Prim2SF y)) as [[| |]|];
    congruence.
Qed.

(** A number not above a number that is not positive is below every
    positive number. *)
Lemma below_not_positive (v low best : float) :
  PrimFloat.is_nan v = false -> PrimFloat.is_nan low = false ->
  PrimFloat.ltb low v = false -> PrimFloat.ltb 0 low = false ->
  PrimFloat.ltb 0 best = true ->
  PrimFloat.ltb v best = true.
Proof.
  intros Hv Hlow Hlv Hzl Hzb.
  apply is_nan_rank in Hv, Hlow. apply ltb_false_rank in Hlv, Hzl.
  apply ltb_rank in Hzb. apply ltb_rank. unfold rank_lt in *.
  destruct (float_rank 0) as [[[? ?] ?]|], (float_rank v) as [[[? ?] ?]|],
           (float_rank low) as [[[? ?] ?]|],
           (float_rank best) as [[[? ?] ?]|];
    try contradiction; try congruence; lia.
Qed.

Lemma fastest_cell_not_best (argmin : list float -> nat)
      (times : list float) (best low : float) :
  argmin_spec argmin ->
  PrimFloat.ltb 0 best = true ->
  In low times -> PrimFloat.is_nan low = false ->
  PrimFloat.ltb 0 low = false ->
  exists v, fastest_cell argmin times best = Ok (v, false).
Proof.
  intros Hspec Hbest Hin Hlow Hzero.
  destruct (Hspec times) as (v & Hv & Hleast).
  { intros ->. destruct Hin. }
  unfold fastest_cell, AnalyzeCompression.at_index.
  destruct times as [|t times]; [destruct Hin|].
  rewrite Hv. simpl. exists v. f_equal. f_equal.
  destruct (PrimFloat.eqb v best) eqn:E; [|reflexivity].
  pose proof (eqb_number _ _ E) as Hnum.
  pose proof (eqb_not_ltb _ _ E) as Hnot.
  rewrite (below_not_positive v low best) in Hnot; auto.
Qed.

Lemma argmin_first_from_lookup (l pre : list float) (cur : float)
      (at_cur : nat) :
  pre !! at_cur = Some cur ->
  (pre ++ l) !! argmin_first_from cur at_cur (length pre) l
  = Some (min_from cur l).
Proof.
  revert pre cur at_cur. induction l as [|x l IH]; intros pre cur at_cur H.
  - simpl. rewrite app_nil_r. exact H.
  - unfold min_from. simpl. fold (min_from (if PrimFloat.ltb x cur
                                            then x else cur) l).
    replace (pre ++ x :: l) with ((pre ++ [x]) ++ l)
      by (rewrite <- app_assoc; reflexivity).
    replace (S (length pre)) with (length (pre ++ [x]))
      by (rewrite length_app; simpl; lia).
    destruct (PrimFloat.ltb x cur).
    + apply IH. rewrite lookup_app_r by lia.
      replace (length pre - length pre) with 0 by lia. reflexivity.
    + apply IH. apply lookup_app_l_Some. exact H.
Qed.

Lemma argmin_first_spec : argmin_spec argmin_first.
Proof.
  intros [|x l] Hl; [contradiction|].
  exists (min_from x l). split.
  - apply (argmin_first_from_lookup l [x] x 0). reflexivity.
  - apply min_from_not_above.
Qed.

(** X17.  In the summary table of analyze_compression.py, an
    algorithm that has a compression time which is a number and not
    positive (a duration of zero) never gets its fastest-compression
    cell highlighted, whatever the other algorithms of the file
    measured; the same holds of decompression.  The value shown is the
    one [np.argmin] picks. *)
Theorem zero_time_cell_never_best
        (argmin : list float -> nat)
        (algorithms : dict Series) (best : AnalyzeCompression.BestValues) :
  argmin_spec argmin ->
  AnalyzeCompression.best_values algorithms = Ok best ->
  (forall metrics low,
      In metrics (values algorithms) ->
      In low (compression_time metrics) ->
      PrimFloat.is_nan low = false -> PrimFloat.ltb 0 low = false ->
      exists v,
        fastest_cell argmin (compression_time metrics)
                     (AnalyzeCompression.best_comp_time best)
        = Ok (v, false)) /\
  (forall metrics low,
      In metrics (values algorithms) ->
      In low (decompression_time metrics) ->
      PrimFloat.is_nan low = false -> PrimFloat.ltb 0 low = false ->
      exists v,
        fastest_cell argmin (decompression_time metrics)
                     (AnalyzeCompression.best_decomp_time best)
        = Ok (v, false)).
Proof.
  intros Hspec H. unfold AnalyzeCompression.best_values in H.
  bind_inv H. bind_inv H. bind_inv H. bind_inv H. bind_inv H. bind_inv H.
  ok_inv H. simpl.
  apply analyze_best_time_spec in Hx1, Hx2.
  destruct Hx1 as [Hcomp _], Hx2 as [Hdecomp _].
  split; intros metrics low _ Hin Hnum Hzero;
    eapply fastest_cell_not_best; eassumption.
Qed.

(** The theorem at a file of two algorithms, the first with
    compression times of zero. *)
Lemma zero_time_cell_never_best_witness :
  (forall metrics low,
      In metrics (values two_algorithms) ->
      In low (compression_time metrics) ->
      PrimFloat.is_nan low = false -> PrimFloat.ltb 0 low = false ->
      exists v,
        fastest_cell argmin_first (compression_time metrics) 0.3%float
        = Ok (v, false)) /\
  (forall metrics low,
      In metrics (values two_algorithms) ->
      In low (decompression_time metrics) ->
      PrimFloat.is_nan low = false -> PrimFloat.ltb 0 low = false ->
      exists v,
        fastest_cell argmin_first (decompression_time metrics) 0.1%float
        = Ok (v, false)).
Proof.
  apply (zero_time_cell_never_best
           argmin_first two_algorithms
           {| AnalyzeCompression.best_ratio := 2.5;
              AnalyzeCompression.best_comp_time := 0.3;
              AnalyzeCompression.best_decomp_time := 0.1;
              AnalyzeCompression.best_memory := 500 |}).
  - exact argmin_first_spec.
  - vm_compute. reflexivity.
Defined.

(** ** What the normalisers raise *)

Lemma bind_Raise {A B} (m : result A) (k : A -> result B) (e : exn) :
  bind m k = Raise e <-> m = Raise e \/ exists a, m = Ok a /\ k a = Raise e.
Proof.
  destruct m as [a|e']; simpl; split.
  - intros H. right. exists a. auto.
  - intros [H|(a' & H1 & H2)]; [discriminate|]. injection H1 as <-. exact H2.
  - intros H. left. injection H as <-. reflexivity.
  - intros [H|(a' & H1 & _)]; [|discriminate]. injection H as <-.
    reflexivity.
Qed.

(** Splits a hypothesis [bind m k = Raise e] into its two cases. *)
Ltac raise_inv H :=
  let x := fresh "x" in
  let Hx := fresh "Hx" in
  apply bind_Raise in H; destruct H as [H|(x & Hx & H)].

Lemma foldM_Raise {A S} (f : S -> A -> result S) (P : exn -> Prop)
      (l : list A) (s : S) (e : exn) :
  (forall s x e, f s x = Raise e -> P e) -> foldM f l s = Raise e -> P e.
Proof.
  intros Hf. revert s. induction l as [|x l IH]; intros s H; simpl in H;
    [discriminate|].
  raise_inv H; [eapply Hf; exact H|eapply IH; exact H].
Qed.

Lemma foldM_Raise_In {A S} (f : S -> A -> result S) (l : list A) (s : S)
      (e : exn) :
  foldM f l s = Raise e -> exists s' x, In x l /\ f s' x = Raise e.
Proof.
  revert s. induction l as [|x l IH]; intros s H; simpl in H;
    [discriminate|].
  raise_inv H.
  - exists s, x. split; [left; reflexivity|exact H].
  - destruct (IH _ H) as (s' & y & Hy & Hraise).
    exists s', y. split; [right; exact Hy|exact Hraise].
Qed.

Lemma to_float_Raise (py_float : string -> option float) (s : string)
      (e : exn) :
  to_float py_float s = Raise e -> e = ValueError.
Proof. unfold to_float. destruct (py_float s); simpl; congruence. Qed.

Lemma parse_time_Raise (py_float : string -> option float)
      (time_str : option string) (e : exn) :
  parse_time py_float time_str = Raise e -> e = ValueError.
Proof.
  destruct time_str as [[|c s]|]; try discriminate.
  cbv beta iota delta [parse_time].
  generalize (str_split ":" (String c s)). intros parts.
  destruct parts as [|p0 [|p1 [|p2 [|p3 parts]]]]; try discriminate;
    intros H; repeat (raise_inv H; [eapply to_float_Raise; exact H|]);
    discriminate.
Qed.

Lemma reindex_total {A} (l : list A) (indices : list nat) :
  Forall (fun i => i < length l) indices ->
  exists ks, reindex l indices = Ok ks.
Proof.
  intros H. unfold reindex. apply forM_total.
  eapply Forall_impl; [exact H|]. intros i Hi. simpl in Hi.
  destruct (lookup_lt_is_Some_2 l i Hi) as [x Hx].
  exists x. rewrite Hx. reflexivity.
Qed.

Lemma for_values_total {V W} (f : V -> result W) (P : V -> Prop)
      (d : dict V) :
  (forall v, P v -> exists w, f v = Ok w) ->
  Forall P (values d) ->
  exists d', AnalyzeCompression.for_values f d = Ok d'.
Proof.
  intros Hf Hd. unfold AnalyzeCompression.for_values. apply forM_total.
  induction d as [|[k v] d IH]; simpl in *; [constructor|].
  inversion Hd; subst. constructor; [|apply IH; assumption].
  destruct (Hf v) as [w Hw]; [assumption|]. rewrite Hw. simpl.
  eexists. reflexivity.
Qed.

Lemma argsort_in_range (argsort : list level_key -> list nat)
      (l : list level_key) :
  permutes argsort -> Forall (fun i => i < length l) (argsort l).
Proof.
  intros Hspec. pose proof (Hspec l) as Hperm.
  apply List.Forall_forall. intros i Hi.
  eapply Permutation_in in Hi; [|exact Hperm].
  apply in_seq in Hi. lia.
Qed.

Section NormalisersRaise.

Variable py_int : string -> option Z.
Variable py_float : string -> option float.
Variable argsort : list level_key -> list nat.
Hypothesis argsort_ok : permutes argsort.

Lemma sort_series_total (s0 : Series) (n : nat) :
  lengths s0 n -> exists s, AnalyzeCompression.sort_series argsort s0 = Ok s.
Proof.
  intros (H1 & H2 & H3 & H4 & H5 & H6 & H7).
  pose proof (argsort_in_range argsort (compression_levels s0) argsort_ok)
    as Hrange.
  unfold AnalyzeCompression.sort_series.
  destruct (reindex_total (compression_levels s0) _ Hrange) as (k1 & ->).
  rewrite H1 in Hrange.
  destruct (reindex_total (compression_ratio s0)
                          (argsort (compression_levels s0))) as (k2 & ->);
    [rewrite H2; exact Hrange|].
  destruct (reindex_total (compressed_percentage s0)
                          (argsort (compression_levels s0))) as (k3 & ->);
    [rewrite H3; exact Hrange|].
  destruct (reindex_total (compression_time s0)
                          (argsort (compression_levels s0))) as (k4 & ->);
    [rewrite H4; exact Hrange|].
  destruct (reindex_total (decompression_time s0)
                          (argsort (compression_levels s0))) as (k5 & ->);
    [rewrite H5; exact Hrange|].
  destruct (reindex_total (compressed_size s0)
                          (argsort (compression_levels s0))) as (k6 & ->);
    [rewrite H6; exact Hrange|].
  destruct (reindex_total (memory_usage s0)
                          (argsort (compression_levels s0))) as (k7 & ->);
    [rewrite H7; exact Hrange|].
  simpl. eexists. reflexivity.
Qed.

Lemma sort_results_total json_data results :
  AnalyzeCompression.collect py_int py_float json_data = Ok results ->
  exists sorted, AnalyzeCompression.sort_results argsort results = Ok sorted.
Proof.
  intros H. apply analyze_collect_recorded in H.
  unfold AnalyzeCompression.sort_results.
  eapply for_values_total; [|exact H].
  intros algorithms Halgorithms.
  eapply for_values_total; [|exact Halgorithms].
  intros s (n & _ & Hlen). eapply sort_series_total. exact Hlen.
Qed.

Lemma record_original_size_Raise s (levels : Levels) e :
  AnalyzeCompression.record_original_size s levels = Raise e ->
  e = IndexError /\ levels = [].
Proof.
  unfold AnalyzeCompression.record_original_size.
  destruct (original_size s); [discriminate|].
  destruct levels as [|[first_level metrics] levels]; simpl.
  - intros H. injection H as <-. split; reflexivity.
  - unfold dict_item. simpl. rewrite String.eqb_refl. discriminate.
Qed.

Lemma analyze_add_level_Raise s item e :
  AnalyzeCompression.add_level py_int py_float s item = Raise e ->
  e = ValueError.
Proof.
  destruct item as [level metrics]. unfold AnalyzeCompression.add_level.
  intros H. raise_inv H.
  { unfold AnalyzeCompression.level_int in H.
    destruct (py_int level); [discriminate|].
    destruct (py_float level); congruence. }
  raise_inv H; [eapply to_float_Raise; exact H|].
  raise_inv H; [eapply parse_time_Raise; exact H|].
  raise_inv H; [eapply parse_time_Raise; exact H|].
  discriminate.
Qed.

Lemma visualize_add_level_Raise s item e :
  Visualize.add_level py_int py_float s item = Raise e -> e = ValueError.
Proof.
  destruct item as [level metrics]. unfold Visualize.add_level.
  intros H. raise_inv H.
  { unfold Visualize.level_int in H.
    destruct (py_int level); congruence. }
  raise_inv H; [eapply to_float_Raise; exact H|].
  raise_inv H; [eapply parse_time_Raise; exact H|].
  raise_inv H; [eapply parse_time_Raise; exact H|].
  discriminate.
Qed.

Lemma analyze_add_file_Raise results filename algorithms e :
  AnalyzeCompression.add_file py_int py_float results (filename, algorithms)
  = Raise e ->
  e = ValueError \/
  (e = IndexError /\ exists algorithm, In (algorithm, []) algorithms).
Proof.
  unfold AnalyzeCompression.add_file, Results in *.
  rewrite dict_item_ensure. intros H. simpl in H.
  raise_inv H; [|discriminate].
  apply foldM_Raise_In in H.
  destruct H as (file_results & [algorithm levels] & Hin & H).
  unfold AnalyzeCompression.add_algorithm in H.
  rewrite dict_item_ensure in H. simpl in H.
  raise_inv H.
  - apply record_original_size_Raise in H. destruct H as [-> ->].
    right. split; [reflexivity|]. exists algorithm. exact Hin.
  - raise_inv H; [|discriminate]. left.
    refine (foldM_Raise _ (fun e => e = ValueError) _ _ _ _ H).
    intros s item e'. apply analyze_add_level_Raise.
Qed.

Lemma visualize_add_file_Raise results filename algorithms e :
  Visualize.add_file py_int py_float results (filename, algorithms)
  = Raise e ->
  e = ValueError \/
  (e = IndexError /\ exists algorithm, In (algorithm, []) algorithms).
Proof.
  unfold Visualize.add_file, Results in *.
  rewrite dict_item_ensure. intros H. simpl in H.
  raise_inv H; [|discriminate].
  apply foldM_Raise_In in H.
  destruct H as (file_results & [algorithm levels] & Hin & H).
  unfold Visualize.add_algorithm in H.
  rewrite dict_item_ensure in H. simpl in H.
  raise_inv H.
  - apply record_original_size_Raise in H. destruct H as [-> ->].
    right. split; [reflexivity|]. exists algorithm. exact Hin.
  - raise_inv H; [|discriminate]. left.
    refine (foldM_Raise _ (fun e => e = ValueError) _ _ _ _ H).
    intros s item e'. apply visualize_add_level_Raise.
Qed.

(** What the population loops raise, and on which documents. *)
Lemma population_Raise
      (add_file : Results -> string * Algorithms -> result Results)
      (json_data : JsonData) (e : exn) :
  (forall results filename algorithms e,
      add_file results (filename, algorithms) = Raise e ->
      e = ValueError \/
      (e = IndexError /\ exists algorithm, In (algorithm, []) algorithms)) ->
  foldM (fun results file_data => foldM add_file file_data results)
        json_data [] = Raise e ->
  e = ValueError \/ (e = IndexError /\ without_levels json_data).
Proof.
  intros Hadd H. rewrite foldM_concat in H. apply foldM_Raise_In in H.
  destruct H as (results & [filename algorithms] & Hin & H).
  apply List.in_concat in Hin. destruct Hin as (file_data & Hfile & Hin).
  destruct (Hadd _ _ _ _ H) as [->|(-> & algorithm & Halgorithm)];
    [left; reflexivity|right].
  split; [reflexivity|].
  exists file_data, filename, algorithms, algorithm. auto.
Qed.

(** The sorting of visualize.py returns on what its population
    returns. *)
Lemma sort_data_by_level_total json_data results :
  Visualize.extract_data py_int py_float json_data = Ok results ->
  exists sorted, Visualize.sort_data_by_level argsort results = Ok sorted.
Proof.
  intros Hx. unfold Visualize.extract_data in Hx.
  rewrite foldM_concat in Hx.
  destruct (foldM_Ok_both
              _ (AnalyzeCompression.add_file py_int py_float)
              (fun item =>
                 Forall (integer_levels py_int) (values (snd item)))
              _ _ _ (visualize_add_file_Ok py_int py_float) Hx)
    as [Hcollect _].
  rewrite <- foldM_concat in Hcollect.
  destruct (sort_results_total _ _ Hcollect) as (sorted & Hsorted).
  exists sorted. unfold Visualize.sort_data_by_level.
  unfold AnalyzeCompression.sort_results in Hsorted.
  rewrite visualize_sort_series. exact Hsorted.
Qed.

End NormalisersRaise.

(** X18.  When [np.argsort] returns a permutation of the positions,
    the sorting never raises: [extract_data] of analyze_compression.py
    raises exactly when its population loops raise, and raises what
    they raise, and so does the normalisation of visualize.py.  The
    population loops raise nothing but ValueError (a level identifier,
    a percentage or a part of a duration that the conversions reject)
    and IndexError, and IndexError only on a document in which some
    algorithm comes without levels. *)
Theorem normalisers_raise_value_or_index_error
        (py_int : string -> option Z) (py_float : string -> option float)
        (argsort : list level_key -> list nat)
        (json_data : JsonData) :
  permutes argsort ->
  (forall e,
      AnalyzeCompression.extract_data py_int py_float argsort json_data
      = Raise e <->
      AnalyzeCompression.collect py_int py_float json_data = Raise e) /\
  (forall e,
      AnalyzeCompression.collect py_int py_float json_data = Raise e ->
      e = ValueError \/ (e = IndexError /\ without_levels json_data)) /\
  (forall e,
      Visualize.normalize py_int py_float argsort json_data = Raise e <->
      Visualize.extract_data py_int py_float json_data = Raise e) /\
  (forall e,
      Visualize.extract_data py_int py_float json_data = Raise e ->
      e = ValueError \/ (e = IndexError /\ without_levels json_data)).
Proof.
  intros Hspec. split; [|split; [|split]].
  - intros e. unfold AnalyzeCompression.extract_data. split.
    + intros H. raise_inv H; [exact H|].
      destruct (sort_results_total _ _ _ Hspec _ _ Hx) as (sorted & Hsorted).
      congruence.
    + intros ->. reflexivity.
  - intros e. apply population_Raise. apply analyze_add_file_Raise.
  - intros e. unfold Visualize.normalize. split.
    + intros H. raise_inv H; [exact H|].
      destruct (sort_data_by_level_total _ _ _ Hspec _ _ Hx)
        as (sorted & Hsorted).
      congruence.
    + intros ->. reflexivity.
  - intros e. apply population_Raise. apply visualize_add_file_Raise.
Qed.

(** The theorem at the document whose only algorithm comes without
    levels: both normalisers raise IndexError there. *)
Lemma normalisers_raise_value_or_index_error_witness :
  AnalyzeCompression.collect int_dec float_dec no_levels_doc
  = Raise IndexError /\
  Visualize.extract_data int_dec float_dec no_levels_doc
  = Raise IndexError /\
  without_levels no_levels_doc.
Proof.
  destruct (normalisers_raise_value_or_index_error
              int_dec float_dec argsort_stable no_levels_doc
              argsort_stable_permutes) as (Hanalyze & Hcollect & Hvisualize & _).
  assert (AnalyzeCompression.collect int_dec float_dec no_levels_doc
          = Raise IndexError) as H
      by (apply Hanalyze; vm_compute; reflexivity).
  split; [exact H|].
  split; [apply Hvisualize; vm_compute; reflexivity|].
  destruct (Hcollect IndexError H) as [Hvalue|[_ Hwithout]];
    [discriminate Hvalue|exact Hwithout].
Defined.

Section ProcessDataRaises.

Variable py_int : string -> option Z.
Variable py_float : string -> option float.
Variable argsort : list level_key -> list nat.
Hypothesis argsort_ok : permutes argsort.

Lemma json_add_levels_lengths lvls s s' n :
  foldM (VisualizeJson.add_level py_int py_float) lvls s = Ok s' ->
  json_lengths s n -> json_lengths s' (n + length lvls).
Proof.
  revert s n. induction lvls as [|[level data] lvls IH]; intros s n H Hs;
    simpl in H.
  - ok_inv H. simpl. rewrite Nat.add_0_r. exact Hs.
  - bind_inv H. simpl. rewrite Nat.add_succ_r. apply (IH x (S n) H).
    unfold VisualizeJson.add_level in Hx.
    bind_inv Hx. bind_inv Hx. bind_inv Hx. ok_inv Hx.
    unfold json_lengths in *. simpl. rewrite !length_app. simpl. lia.
Qed.

Lemma json_sort_series_total s0 n :
  json_lengths s0 n -> exists s, VisualizeJson.sort_series argsort s0 = Ok s.
Proof.
  intros (H1 & H2 & H3 & H4 & H5 & H6).
  pose proof (argsort_in_range argsort (map LInt (VisualizeJson.levels s0))
                               argsort_ok) as Hrange.
  rewrite length_map, H1 in Hrange.
  unfold VisualizeJson.sort_series.
  destruct (reindex_total (VisualizeJson.levels s0)
                          (argsort (map LInt (VisualizeJson.levels s0))))
    as (k1 & ->); [rewrite H1; exact Hrange|].
  destruct (reindex_total (VisualizeJson.ratios s0)
                          (argsort (map LInt (VisualizeJson.levels s0))))
    as (k2 & ->); [rewrite H2; exact Hrange|].
  destruct (reindex_total (VisualizeJson.compressed_sizes s0)
                          (argsort (map LInt (VisualizeJson.levels s0))))
    as (k3 & ->); [rewrite H3; exact Hrange|].
  destruct (reindex_total (VisualizeJson.compression_times s0)
                          (argsort (map LInt (VisualizeJson.levels s0))))
    as (k4 & ->); [rewrite H4; exact Hrange|].
  destruct (reindex_total (VisualizeJson.decompression_times s0)
                          (argsort (map LInt (VisualizeJson.levels s0))))
    as (k5 & ->); [rewrite H5; exact Hrange|].
  destruct (reindex_total (VisualizeJson.memory_usage s0)
                          (argsort (map LInt (VisualizeJson.levels s0))))
    as (k6 & ->); [rewrite H6; exact Hrange|].
  simpl. eexists. reflexivity.
Qed.

Lemma json_add_level_Raise s item e :
  VisualizeJson.add_level py_int py_float s item = Raise e -> e = ValueError.
Proof.
  destruct item as [level data]. unfold VisualizeJson.add_level.
  intros H. raise_inv H.
  { destruct (py_int level); simpl in H; congruence. }
  raise_inv H; [eapply parse_time_Raise; exact H|].
  raise_inv H; [eapply parse_time_Raise; exact H|].
  discriminate.
Qed.

Lemma json_add_test_Raise results item e :
  VisualizeJson.add_test py_int py_float argsort results item = Raise e ->
  e = ValueError \/ e = StopIteration.
Proof.
  destruct item as [test_name algorithms].
  unfold VisualizeJson.add_test, dict_item.
  rewrite dict_get_set_eq. intros H. simpl in H.
  raise_inv H; [|discriminate].
  refine (foldM_Raise _ (fun e => e = ValueError \/ e = StopIteration)
                      _ _ _ _ H).
  clear - argsort_ok. intros test_results [algorithm lvls] e.
  unfold VisualizeJson.add_algorithm. intros H.
  raise_inv H.
  { destruct (values lvls); [|discriminate]. right. congruence. }
  raise_inv H.
  { left.
    refine (foldM_Raise _ (fun e => e = ValueError) _ _ _ _ H).
    intros s item e'. apply json_add_level_Raise. }
  raise_inv H; [|discriminate].
  apply json_add_levels_lengths with (n := 0) in Hx0; [|repeat split].
  destruct (json_sort_series_total _ _ Hx0) as (s & Hs). congruence.
Qed.

End ProcessDataRaises.

(** X19.  When [np.argsort] returns a permutation of the positions,
    [process_data] of visualize_json.py raises nothing but ValueError
    (a level identifier that [int] rejects, a part of a duration that
    [float] rejects) and StopIteration (an algorithm without
    levels). *)
Theorem process_data_raises_value_error_or_stop_iteration
        (py_int : string -> option Z) (py_float : string -> option float)
        (argsort : list level_key -> list nat)
        (json_data : JsonData) (e : exn) :
  permutes argsort ->
  VisualizeJson.process_data py_int py_float argsort json_data = Raise e ->
  e = ValueError \/ e = StopIteration.
Proof.
  intros Hspec H. unfold VisualizeJson.process_data in H.
  rewrite foldM_concat in H.
  refine (foldM_Raise _ (fun e => e = ValueError \/ e = StopIteration)
                      _ _ _ _ H).
  apply json_add_test_Raise. exact Hspec.
Qed.

(** The theorem at the document with the level identifier "1.5". *)
Lemma process_data_raises_value_error_or_stop_iteration_witness :
  ValueError = ValueError \/ ValueError = StopIteration.
Proof.
  apply (process_data_raises_value_error_or_stop_iteration
           int_dec float_dec argsort_stable decimal_doc).
  - exact argsort_stable_permutes.
  - vm_compute. reflexivity.
Defined.

(** ** The rows of visualize_md.py *)

Lemma insert_by_key_Permutation {A} (x : Z * A) (l : list (Z * A)) :
  Permutation (VisualizeMd.insert_by_key x l) (x :: l).
Proof.
  induction l as [|y l IH]; simpl; [reflexivity|].
  destruct (fst x <=? fst y)%Z; [reflexivity|].
  rewrite IH. apply perm_swap.
Qed.

Lemma sort_by_key_Permutation {A} (l : list (Z * A)) :
  Permutation (VisualizeMd.sort_by_key l) l.
Proof.
  induction l as [|x l IH]; simpl; [reflexivity|].
  rewrite insert_by_key_Permutation, IH. reflexivity.
Qed.

Lemma insert_by_key_Sorted {A} (x : Z * A) (l : list (Z * A)) :
  Sorted (fun a b => (fst a <= fst b)%Z) l ->
  Sorted (fun a b => (fst a <= fst b)%Z) (VisualizeMd.insert_by_key x l).
Proof.
  induction 1 as [|y l Hl IH Hhead]; simpl.
  - constructor; constructor.
  - destruct (Z.leb_spec (fst x) (fst y)).
    + constructor; [constructor; assumption|]. constructor. assumption.
    + constructor; [exact IH|].
      destruct l as [|z l]; simpl.
      * constructor. lia.
      * inversion Hhead; subst.
        destruct (fst x <=? fst z)%Z; constructor; [lia|assumption].
Qed.

Lemma sort_by_key_Sorted {A} (l : list (Z * A)) :
  Sorted (fun a b => (fst a <= fst b)%Z) (VisualizeMd.sort_by_key l).
Proof.
  induction l as [|x l IH]; simpl; [constructor|].
  apply insert_by_key_Sorted. exact IH.
Qed.

Lemma insert_by_key_filter {A} (k : Z) (x : Z * A) (l : list (Z * A)) :
  List.filter (fun a => (fst a =? k)%Z) (VisualizeMd.insert_by_key x l) =
  List.filter (fun a => (fst a =? k)%Z) (x :: l).
Proof.
  induction l as [|y l IH]; simpl; [reflexivity|].
  destruct (Z.leb_spec (fst x) (fst y)); [reflexivity|].
  simpl. rewrite IH. simpl.
  destruct (Z.eqb_spec (fst x) k), (Z.eqb_spec (fst y) k);
    try reflexivity; lia.
Qed.

Lemma sort_by_key_filter {A} (k : Z) (l : list (Z * A)) :
  List.filter (fun a => (fst a =? k)%Z) (VisualizeMd.sort_by_key l) =
  List.filter (fun a => (fst a =? k)%Z) l.
Proof.
  induction l as [|x l IH]; simpl; [reflexivity|].
  rewrite insert_by_key_filter. simpl. rewrite IH. reflexivity.
Qed.

Section MdRows.

Variable py_int : string -> option Z.

Lemma md_keyed levels keyed :
  forM (fun x => let* k := or_raise ValueError (py_int (fst x)) in Ok (k, x))
       levels = Ok keyed ->
  map snd keyed = levels /\ Forall (keyed_right py_int) keyed.
Proof.
  rewrite forM_Forall2. induction 1 as [|x a levels keyed Hx _ [IH1 IH2]].
  - split; [reflexivity|constructor].
  - bind_inv Hx. ok_inv Hx. apply or_raise_Ok in Hx0. simpl.
    split; [f_equal; exact IH1|]. constructor; [exact Hx0|exact IH2].
Qed.

Lemma md_keyed_Sorted (keyed : list (Z * (string * LevelMetrics))) :
  Forall (keyed_right py_int) keyed ->
  Sorted (fun a b => (fst a <= fst b)%Z) keyed ->
  Sorted (level_le py_int) (map snd keyed).
Proof.
  intros Hright Hsorted.
  induction Hsorted as [|a keyed Hrest IH Hhead]; simpl; [constructor|].
  inversion Hright as [|? ? Ha Hkeyed]; subst.
  constructor; [apply IH; exact Hkeyed|].
  destruct Hhead as [|b keyed Hab]; simpl; constructor.
  inversion Hkeyed as [|? ? Hb _]; subst.
  exists (fst a), (fst b). auto.
Qed.

Lemma md_keyed_filter (k : Z) (keyed : list (Z * (string * LevelMetrics))) :
  Forall (keyed_right py_int) keyed ->
  List.filter (numbered py_int k) (map snd keyed) =
  map snd (List.filter (fun a => (fst a =? k)%Z) keyed).
Proof.
  induction 1 as [|a keyed Ha _ IH]; simpl; [reflexivity|].
  unfold keyed_right in Ha. unfold numbered at 1. rewrite Ha.
  destruct (fst a =? k)%Z; simpl; rewrite IH; reflexivity.
Qed.

End MdRows.

(** X20.  The rows visualize_md.py writes for an algorithm are the
    rows of its levels, each level once, in ascending order of the
    level number, and levels that write the same number keep the order
    they have in the document: the sort is stable. *)
Theorem markdown_rows_sorted_stably
        (py_int : string -> option Z) (algo : string) (levels : Levels)
        (rows : list VisualizeMd.Row) :
  VisualizeMd.algo_rows py_int (algo, levels) = Ok rows ->
  exists sorted,
    rows = map (VisualizeMd.row algo) sorted /\
    Permutation sorted levels /\
    Sorted (level_le py_int) sorted /\
    forall k, List.filter (numbered py_int k) sorted
              = List.filter (numbered py_int k) levels.
Proof.
  unfold VisualizeMd.algo_rows. intros H. bind_inv H. ok_inv H.
  exists x. split; [reflexivity|].
  unfold VisualizeMd.sorted_levels in Hx. bind_inv Hx. ok_inv Hx.
  destruct (md_keyed py_int _ _ Hx0) as [Hlevels Hright].
  assert (Forall (fun a => py_int (fst (snd a)) = Some (fst a))
                 (VisualizeMd.sort_by_key x0)) as Hsorted_right.
  { rewrite List.Forall_forall in *. intros a Ha. apply Hright.
    eapply Permutation_in; [apply sort_by_key_Permutation|exact Ha]. }
  split; [|split].
  - rewrite <- Hlevels. apply Permutation_map. apply sort_by_key_Permutation.
  - apply md_keyed_Sorted; [exact Hsorted_right|apply sort_by_key_Sorted].
  - intros k. rewrite <- Hlevels.
    rewrite !md_keyed_filter by assumption.
    rewrite sort_by_key_filter. reflexivity.
Qed.

(** The theorem at three levels written "2", "1" and "+1". *)
Lemma markdown_rows_sorted_stably_witness :
  exists sorted,
    map (VisualizeMd.row "zstd")
        [("1", measurement 1000 600 1.67 "60.0" "0:01" 500 "0:00.1" 100);
         ("+1", measurement 1000 500 2.0 "50.0" "0:03" 700 "0:00.3" 130);
         ("2", measurement 1000 400 2.5 "40.0" "0:02" 600 "0:00.2" 120)]
    = map (VisualizeMd.row "zstd") sorted /\
    Permutation sorted padded_levels /\
    Sorted (level_le int_dec) sorted /\
    forall k, List.filter (numbered int_dec k) sorted
              = List.filter (numbered int_dec k) padded_levels.
Proof.
  apply (markdown_rows_sorted_stably int_dec "zstd" padded_levels).
  vm_compute. reflexivity.
Defined.

(** X21.  The rows of an algorithm are written exactly when [int]
    accepts every level identifier of the algorithm; otherwise the
    script raises ValueError, where analyze_compression.py goes on to
    [float]. *)
Theorem markdown_rows_need_integer_levels
        (py_int : string -> option Z) (algo : string) (levels : Levels) :
  ((exists rows, VisualizeMd.algo_rows py_int (algo, levels) = Ok rows) <->
   integer_levels py_int levels) /\
  (forall e, VisualizeMd.algo_rows py_int (algo, levels) = Raise e ->
             e = ValueError).
Proof.
  unfold VisualizeMd.algo_rows, VisualizeMd.sorted_levels. split.
  - split.
    + intros (rows & H). bind_inv H. bind_inv Hx.
      assert (exists keyed,
                 forM (fun x : string * LevelMetrics =>
                         let* k := or_raise ValueError (py_int (fst x)) in
                         Ok (k, x)) levels = Ok keyed) as Hkeyed by eauto.
      apply forM_total in Hkeyed. unfold integer_levels, keys.
      apply Forall_map. eapply Forall_impl; [exact Hkeyed|].
      intros item (y & Hy). simpl in *.
      destruct (py_int (fst item)); [discriminate|discriminate].
    + intros Hint.
      assert (exists keyed,
                 forM (fun x : string * LevelMetrics =>
                         let* k := or_raise ValueError (py_int (fst x)) in
                         Ok (k, x)) levels = Ok keyed) as (keyed & ->).
      { apply forM_total. unfold integer_levels, keys in Hint.
        rewrite List.Forall_forall in Hint. apply List.Forall_forall.
        intros item Hitem. apply (in_map fst) in Hitem.
        apply Hint in Hitem.
        destruct (py_int (fst item)) as [z|]; [|contradiction].
        simpl. eexists. reflexivity. }
      simpl. eexists. reflexivity.
  - intros e H. raise_inv H; [|discriminate].
    raise_inv H; [|discriminate].
    eapply forM_Raise_ValueError; [|exact H].
    intros item e' He. raise_inv He; [|discriminate].
    destruct (py_int (fst item)); simpl in He; congruence.
Qed.
